(** * Prompt Architect: data layer, reference resolution, generation client
      and import/export, embedded from the TypeScript sources.

    Conventions of the embedding.
    - JavaScript strings are [string]; [===] on strings is [String.eqb].
    - Arrays are lists; [Array.prototype.filter], [some], [includes] and
      [map] are [List.filter], [existsb], [includes] and [List.map].
    - An ES [Map] is an association list in insertion order; [set] on a key
      that is already present replaces the value and keeps the position.
    - An IndexedDB object store with an in-line key path is a [gmap] from
      the key to the record ([put] is an upsert).
    - A rejected promise or a thrown exception is the error's message.
    - Asynchronous steps run to completion in program order. *)

From Stdlib Require Import String Ascii List Bool ZArith Lia Sorted.
From stdpp Require Import base option list strings pretty gmap fin_maps.
Import ListNotations.
Local Open Scope string_scope.

(** ** Data model ([types.ts]) *)

Inductive ApiKeySource := SourceEnvironment | SourceCustom.

Record Settings := {
  apiKeySource : ApiKeySource;   (* theme is the constant 'dark' *)
  apiKey : string;
  hasSeenWelcome : bool
}.

Inductive Style := StyleDefault | StyleAnime | StyleRealistic.
Inductive Length := LengthDefault | LengthShort | LengthLong.
Inductive Mode := ModeText | ModeJSON.

Record HistoryConfig := {
  cfg_style : Style;
  cfg_length : Length;
  cfg_isJsonMode : bool;
  cfg_useReasoning : bool;
  cfg_useMarsLsp : bool
}.

Record HistoryItem := {
  h_id : string;
  userPrompt : string;
  generatedPrompt : string;
  timestamp : Z;
  model : string;
  mode : Mode;
  config : option HistoryConfig;
  referencedTemplates : list string;
  referencedBundles : list string
}.

Record PromptTemplate := {
  t_id : string;
  title : string;
  description : string;
  prompt : string;
  tags : list string;
  models : list string;
  exampleVideo : option string;
  exampleVideoType : option string
}.

Record BundledTemplate := {
  b_id : string;
  name : string;
  b_description : string;
  templateIds : list string
}.

(** ** JavaScript helpers *)

(** [arr.includes(x)] on an array of strings. *)
Definition includes (l : list string) (x : string) : bool :=
  existsb (String.eqb x) l.

(** Truthiness of a string: the empty string is falsy. *)
Definition truthy (s : string) : bool :=
  match s with EmptyString => false | String _ _ => true end.

(** [a || b] on strings. *)
Definition str_or (a b : string) : string := if truthy a then a else b.

Module JsMap.
Section JsMap.
Context {V : Type}.

(** [m.set(k, v)]: replace in place when the key exists, else add last. *)
Fixpoint set (k : string) (v : V) (m : list (string * V)) : list (string * V) :=
  match m with
  | [] => [(k, v)]
  | (k', v') :: m' =>
      if String.eqb k' k then (k, v) :: m' else (k', v') :: set k v m'
  end.

(** [new Map(entries)]. *)
Definition of_entries (entries : list (string * V)) : list (string * V) :=
  fold_left (fun m e => set (fst e) (snd e) m) entries [].

(** [m.get(k)]; [None] is [undefined]. *)
Fixpoint get (k : string) (m : list (string * V)) : option V :=
  match m with
  | [] => None
  | (k', v) :: m' => if String.eqb k' k then Some v else get k m'
  end.

(** [[...m.values()]]. *)
Definition values (m : list (string * V)) : list V := List.map snd m.

Definition keys (m : list (string * V)) : list string := List.map fst m.
End JsMap.
End JsMap.

(** ** Reference Resolver (the reference computation of [handleSubmit]) *)

Definition templatesFromTags (allTemplates : list PromptTemplate)
    (selectedTags : list string) : list PromptTemplate :=
  List.filter (fun t => existsb (fun tag => includes (tags t) tag) selectedTags)
    allTemplates.

Definition templatesFromBundles (allTemplates : list PromptTemplate)
    (selectedBundles : list BundledTemplate) : list PromptTemplate :=
  List.filter
    (fun t => existsb (fun bundle => includes (templateIds bundle) (t_id t))
                selectedBundles)
    allTemplates.

(** The array spread whose entries feed [new Map]. *)
Definition referenceCandidates (allTemplates : list PromptTemplate)
    (selectedTags : list string) (selectedBundles : list BundledTemplate)
    (selectedIndividualTemplates : list PromptTemplate) : list PromptTemplate :=
  templatesFromTags allTemplates selectedTags
  ++ templatesFromBundles allTemplates selectedBundles
  ++ selectedIndividualTemplates.

Definition allReferencedTemplates (allTemplates : list PromptTemplate)
    (selectedTags : list string) (selectedBundles : list BundledTemplate)
    (selectedIndividualTemplates : list PromptTemplate) : list PromptTemplate :=
  JsMap.values
    (JsMap.of_entries
       (List.map (fun item => (t_id item, item))
          (referenceCandidates allTemplates selectedTags selectedBundles
             selectedIndividualTemplates))).

(** First-seen order of a list of identifiers: every identifier once, at the
    place of its first occurrence. *)
Fixpoint first_seen (l : list string) : list string :=
  match l with
  | [] => []
  | x :: l' => x :: List.filter (fun y => negb (String.eqb x y)) (first_seen l')
  end.

(** ** Local Store ([services/db.ts])

    Four object stores; [settings] is keyed by [key], the others by [id].
    Writes are modelled as succeeding. *)

Record LocalStore := {
  store_settings : gmap string Settings;
  store_history : gmap string HistoryItem;
  store_templates : gmap string PromptTemplate;
  store_bundles : gmap string BundledTemplate
}.

Definition empty_store : LocalStore :=
  {| store_settings := ∅; store_history := ∅;
     store_templates := ∅; store_bundles := ∅ |}.

(** [store.getAll()]: the records of the store, in the store's key order. *)
Definition getStoreData {A : Type} (s : gmap string A) : list A :=
  List.map snd (map_to_list s).

(** [store.get(key)]; [None] is [undefined]. *)
Definition getSingleObject {A : Type} (s : gmap string A) (key : string)
  : option A := s !! key.

(** [store.clear()]. *)
Definition clearStore {A : Type} (s : gmap string A) : gmap string A := ∅.

(** [store.clear(); data.forEach(item => store.put(item))]. *)
Definition setStoreData {A : Type} (key : A -> string) (data : list A)
    (s : gmap string A) : gmap string A :=
  fold_left (fun acc item => <[key item := item]> acc) data (clearStore s).

(** [store.put(data)] for a record [{key, value}]. *)
Definition setSingleObject {A : Type} (key : string) (value : A)
    (s : gmap string A) : gmap string A := <[key := value]> s.

(** ** Application state: the four [useIndexedDB] values, the store behind
    them and the notifications shown so far (latest first; the [toast] state
    of [App] is the head). *)

Inductive ToastType := ToastSuccess | ToastError.

Record Toast := { message : string; toast_type : ToastType }.

Record AppState := {
  settings : Settings;
  history : list HistoryItem;
  templates : list PromptTemplate;
  bundles : list BundledTemplate;
  db : LocalStore;
  toasts : list Toast
}.

Definition with_db (f : LocalStore -> LocalStore) (st : AppState) : AppState :=
  {| settings := settings st; history := history st;
     templates := templates st; bundles := bundles st;
     db := f (db st); toasts := toasts st |}.

Definition put_settings (f : gmap string Settings -> gmap string Settings)
    (s : LocalStore) : LocalStore :=
  {| store_settings := f (store_settings s); store_history := store_history s;
     store_templates := store_templates s; store_bundles := store_bundles s |}.

Definition put_history
    (f : gmap string HistoryItem -> gmap string HistoryItem)
    (s : LocalStore) : LocalStore :=
  {| store_settings := store_settings s; store_history := f (store_history s);
     store_templates := store_templates s; store_bundles := store_bundles s |}.

Definition put_templates
    (f : gmap string PromptTemplate -> gmap string PromptTemplate)
    (s : LocalStore) : LocalStore :=
  {| store_settings := store_settings s; store_history := store_history s;
     store_templates := f (store_templates s); store_bundles := store_bundles s |}.

Definition put_bundles
    (f : gmap string BundledTemplate -> gmap string BundledTemplate)
    (s : LocalStore) : LocalStore :=
  {| store_settings := store_settings s; store_history := store_history s;
     store_templates := store_templates s; store_bundles := f (store_bundles s) |}.

Definition showToast (t : Toast) (st : AppState) : AppState :=
  {| settings := settings st; history := history st;
     templates := templates st; bundles := bundles st;
     db := db st; toasts := t :: toasts st |}.

(** *** Reactive binding ([useIndexedDB]): [setValue].
    The new value is the updater applied to the stored value; memory is
    updated and the value is written through ([setStoreData] for arrays,
    [setSingleObject] under ['user-settings'] for the singleton). *)

Definition user_settings_key : string := "user-settings".

Definition setSettings (f : Settings -> Settings) (st : AppState) : AppState :=
  let valueToStore := f (settings st) in
  {| settings := valueToStore; history := history st;
     templates := templates st; bundles := bundles st;
     db := put_settings (setSingleObject user_settings_key valueToStore) (db st);
     toasts := toasts st |}.

Definition setHistory (f : list HistoryItem -> list HistoryItem)
    (st : AppState) : AppState :=
  let valueToStore := f (history st) in
  {| settings := settings st; history := valueToStore;
     templates := templates st; bundles := bundles st;
     db := put_history (setStoreData h_id valueToStore) (db st);
     toasts := toasts st |}.

Definition setTemplates (f : list PromptTemplate -> list PromptTemplate)
    (st : AppState) : AppState :=
  let valueToStore := f (templates st) in
  {| settings := settings st; history := history st;
     templates := valueToStore; bundles := bundles st;
     db := put_templates (setStoreData t_id valueToStore) (db st);
     toasts := toasts st |}.

Definition setBundles (f : list BundledTemplate -> list BundledTemplate)
    (st : AppState) : AppState :=
  let valueToStore := f (bundles st) in
  {| settings := settings st; history := history st;
     templates := templates st; bundles := valueToStore;
     db := put_bundles (setStoreData b_id valueToStore) (db st);
     toasts := toasts st |}.

(** The store holds what the last write-through of each array put there. *)
Definition in_sync (st : AppState) : Prop :=
  store_history (db st) = setStoreData h_id (history st) ∅
  /\ store_templates (db st) = setStoreData t_id (templates st) ∅
  /\ store_bundles (db st) = setStoreData b_id (bundles st) ∅.

(** A store holds every record under the record's own key, as an object
    store with an in-line key path does. *)
Definition well_keyed {A : Type} (id : A -> string) (s : gmap string A) : Prop :=
  forall k x, s !! k = Some x -> id x = k.

(** ** Generation Client ([streamEnhancePrompt]) *)

Definition nl : string := String (ascii_of_nat 10) EmptyString.
Definition dquote : string := String (ascii_of_nat 34) EmptyString.

(** Template-literal rendering of the flags. *)
Definition bool_str (b : bool) : string := if b then "true" else "false".

Definition style_str (s : Style) : string :=
  match s with
  | StyleDefault => "default"
  | StyleAnime => "anime"
  | StyleRealistic => "realistic"
  end.

Definition length_str (l : Length) : string :=
  match l with
  | LengthDefault => "default"
  | LengthShort => "short"
  | LengthLong => "long"
  end.

(** [arr.join(sep)]. *)
Definition join (sep : string) (l : list string) : string := String.concat sep l.

Record MediaData := { base64 : string; mimeType : string }.

Inductive Part :=
| TextPart (text : string)
| InlineDataPart (data : string) (mime : string).

(** The request handed to [ai.models.generateContentStream]; the sampling
    constants of [config] are fixed and left out. *)
Record GenerateRequest := {
  req_model : string;
  req_parts : list Part;
  req_thinkingBudget : Z
}.

Record StreamRequest := {
  sr_prompt : string;
  sr_isJsonMode : bool;
  sr_useMarsLsp : bool;
  sr_style : Style;
  sr_length : Length;
  sr_thinkingBudget : Z;
  sr_apiKey : string;
  sr_media : option MediaData;
  sr_referencedTemplates : option (list PromptTemplate)
}.

(** One reference, as the [map] callback renders it. *)
Definition templateReference (t : PromptTemplate) : string :=
  "--- REFERENCE TEMPLATE: " ++ dquote ++ title t ++ dquote ++ " ---"
  ++ nl ++ prompt t.

(** The text added when [referencedTemplates] is present and non-empty. *)
Definition referenceBlock (refs : list PromptTemplate) : string :=
  "Use the following templates as creative inspiration:" ++ nl ++ nl
  ++ join (nl ++ nl) (List.map templateReference refs) ++ nl ++ nl.

(** The footer of configuration flags, header line included. *)
Definition creativeControls (isJsonMode useMarsLsp : bool) (style : Style)
    (length : Length) : string :=
  let text := "--- USER REQUEST & CREATIVE CONTROLS ---" ++ nl in
  let text := text ++ "jsonModeEnabled: " ++ bool_str isJsonMode ++ nl in
  let text := text ++ "marsLspEnabled: " ++ bool_str useMarsLsp ++ nl in
  let text := text ++ "style: " ++ style_str style ++ nl in
  if isJsonMode || useMarsLsp
  then text ++ "length: " ++ length_str length ++ nl
  else text.

Definition promptTail (user_prompt : string) : string :=
  nl ++ "User's basic prompt: " ++ dquote ++ user_prompt ++ dquote ++ nl ++ nl
  ++ "Enhanced prompt, JSON object, or video description:".

Definition userRequestText (r : StreamRequest) : string :=
  let text := EmptyString in
  let text :=
    match sr_referencedTemplates r with
    | Some refs =>
        if Nat.ltb 0 (List.length refs) then text ++ referenceBlock refs
        else text
    | None => text
    end in
  let text :=
    text ++ creativeControls (sr_isJsonMode r) (sr_useMarsLsp r) (sr_style r)
              (sr_length r) in
  text ++ promptTail (sr_prompt r).

Section GenerationClient.

(** The fixed system instruction block, a static asset. *)
Variable SYSTEM_PROMPT : string.

(** The request [streamEnhancePrompt] builds before the network call. *)
Definition streamEnhancePrompt (r : StreamRequest) : GenerateRequest :=
  let parts := [TextPart SYSTEM_PROMPT] in
  let parts :=
    match sr_media r with
    | Some m => (parts ++ [InlineDataPart (base64 m) (mimeType m)])%list
    | None => parts
    end in
  let parts := (parts ++ [TextPart (userRequestText r)])%list in
  {| req_model := "gemini-2.5-flash"; req_parts := parts;
     req_thinkingBudget := sr_thinkingBudget r |}.

End GenerationClient.

(** Lines of a text, split at line feeds. *)
Fixpoint lines_aux (cur : string) (s : string) : list string :=
  match s with
  | EmptyString => [cur]
  | String c s' =>
      if Ascii.eqb c (ascii_of_nat 10)
      then cur :: lines_aux EmptyString s'
      else lines_aux (cur ++ String c EmptyString) s'
  end.

Definition lines (s : string) : list string := lines_aux EmptyString s.

(** [hay.includes(needle)]. *)
Definition contains (needle hay : string) : bool :=
  match String.index 0 needle hay with Some _ => true | None => false end.

(** ** The prompt composer ([PrompterView], [handleSubmit]) *)

Record MediaFile := { file_name : string; file_type : string }.

(** The composer's props that [handleSubmit] reads. *)
Record PrompterProps := {
  p_prompt : string;
  p_media : option MediaFile;
  p_isJsonMode : bool;
  p_useMarsLsp : bool;
  p_style : Style;
  p_length : Length;
  p_useReasoning : bool;
  p_selectedTags : list string;
  p_selectedBundles : list BundledTemplate;
  p_selectedIndividualTemplates : list PromptTemplate;
  p_isAistudio : bool
}.

(** The composer's local state. *)
Record PrompterState := {
  isLoading : bool;
  shownPrompt : string;          (* the [generatedPrompt] state *)
  error : option string
}.

(** How a response stream ends. *)
Inductive StreamEnd := StreamDone | StreamThrows (msg : string).

(** A response stream: the chunks it yields ([None] is a chunk whose [text]
    is [undefined]) and how it ends. *)
Record ResponseStream := {
  chunks : list (option string);
  stream_end : StreamEnd
}.

(** The collaborators of one run of [handleSubmit]; [inl msg] is a
    rejection with that message. *)
Record SubmitWorld := {
  env_API_KEY : option string;                        (* process.env.API_KEY *)
  fileToBase64 : MediaFile -> string + MediaData;
  generateContentStream : GenerateRequest -> string + ResponseStream;
  randomUUID : string;
  now : Z
}.

(** Calls that leave the application. *)
Inductive Call :=
| CallFileToBase64 (f : MediaFile)
| CallGenerateContentStream (r : GenerateRequest).

Record SubmitResult := {
  r_view : PrompterState;
  r_app : AppState;
  r_calls : list Call
}.

Definition apiKeyToUse (isAistudio : bool) (s : Settings)
    (env_key : option string) : string :=
  match isAistudio, apiKeySource s with
  | true, SourceEnvironment =>
      match env_key with
      | Some k => str_or k EmptyString
      | None => EmptyString
      end
  | _, _ => apiKey s
  end.

(** The [for await] loop: returns [fullResponse] and the shown prompt. *)
Fixpoint consumeChunks (cs : list (option string)) (fullResponse shown : string)
  : string * string :=
  match cs with
  | [] => (fullResponse, shown)
  | Some text :: rest =>
      if truthy text
      then consumeChunks rest (fullResponse ++ text) (shown ++ text)
      else consumeChunks rest fullResponse shown
  | None :: rest => consumeChunks rest fullResponse shown
  end.

Definition userPromptForHistory (user_prompt : string)
    (media : option MediaFile) : string :=
  match media with
  | Some m =>
      if truthy user_prompt
      then user_prompt ++ " (media: " ++ file_name m ++ ")"
      else "Media: " ++ file_name m
  | None => user_prompt
  end.

Definition newHistoryItem (p : PrompterProps) (w : SubmitWorld)
    (refs : list PromptTemplate) (fullResponse : string) : HistoryItem :=
  {| h_id := randomUUID w;
     userPrompt := userPromptForHistory (p_prompt p) (p_media p);
     generatedPrompt := fullResponse;
     timestamp := now w;
     model := "gemini-2.5-flash";
     mode := if p_isJsonMode p then ModeJSON else ModeText;
     config := Some {| cfg_style := p_style p; cfg_length := p_length p;
                       cfg_isJsonMode := p_isJsonMode p;
                       cfg_useReasoning := p_useReasoning p;
                       cfg_useMarsLsp := p_useMarsLsp p |};
     referencedTemplates := List.map t_id refs;
     referencedBundles := List.map b_id (p_selectedBundles p) |}.

(** The [catch] and [finally] of [handleSubmit]. *)
Definition submitFailed (msg shown : string) (st : AppState)
    (calls : list Call) : SubmitResult :=
  {| r_view := {| isLoading := false; shownPrompt := shown;
                  error := Some (str_or msg "An unknown error occurred.") |};
     r_app := st; r_calls := calls |}.

(** The media conversion at the head of the [try] block. *)
Definition convertMedia (p : PrompterProps) (w : SubmitWorld)
  : string + option MediaData :=
  match p_media p with
  | Some f =>
      match fileToBase64 w f with
      | inl msg => inl msg
      | inr d => inr (Some d)
      end
  | None => inr None
  end.

Definition mediaCalls (p : PrompterProps) : list Call :=
  match p_media p with
  | Some f => [CallFileToBase64 f]
  | None => []
  end.

(** The argument of [streamEnhancePrompt]. *)
Definition streamRequestOf (p : PrompterProps) (key : string)
    (mediaData : option MediaData) (refs : list PromptTemplate) : StreamRequest :=
  {| sr_prompt := p_prompt p; sr_isJsonMode := p_isJsonMode p;
     sr_useMarsLsp := p_useMarsLsp p; sr_style := p_style p;
     sr_length := p_length p;
     sr_thinkingBudget := if p_useReasoning p then 24576%Z else 0%Z;
     sr_apiKey := key; sr_media := mediaData;
     sr_referencedTemplates := Some refs |}.

Definition noInput (p : PrompterProps) : bool :=
  negb (truthy (p_prompt p)) && negb (bool_decide (is_Some (p_media p))).

Section Submit.

Variable SYSTEM_PROMPT : string.

Definition handleSubmit (p : PrompterProps) (w : SubmitWorld)
    (view : PrompterState) (st : AppState) : SubmitResult :=
  if noInput p then
    {| r_view := {| isLoading := isLoading view;
                    shownPrompt := shownPrompt view;
                    error := Some "Please enter a prompt or upload media." |};
       r_app := st; r_calls := [] |}
  else
    let key := apiKeyToUse (p_isAistudio p) (settings st) (env_API_KEY w) in
    if negb (truthy key) then
      {| r_view := {| isLoading := false; shownPrompt := EmptyString;
                      error := Some "API Key is missing. Please configure it in settings." |};
         r_app := st; r_calls := [] |}
    else
      let refs :=
        allReferencedTemplates (templates st) (p_selectedTags p)
          (p_selectedBundles p) (p_selectedIndividualTemplates p) in
      match convertMedia p w with
      | inl msg => submitFailed msg EmptyString st (mediaCalls p)
      | inr mediaData =>
          let request :=
            streamEnhancePrompt SYSTEM_PROMPT
              (streamRequestOf p key mediaData refs) in
          let calls :=
            (mediaCalls p ++ [CallGenerateContentStream request])%list in
          match generateContentStream w request with
          | inl msg => submitFailed msg EmptyString st calls
          | inr responseStream =>
              let consumed :=
                consumeChunks (chunks responseStream) EmptyString EmptyString in
              let fullResponse := fst consumed in
              let shown := snd consumed in
              match stream_end responseStream with
              | StreamThrows msg => submitFailed msg shown st calls
              | StreamDone =>
                  {| r_view := {| isLoading := false; shownPrompt := shown;
                                  error := None |};
                     r_app :=
                       if truthy fullResponse
                       then setHistory
                              (fun prev => newHistoryItem p w refs fullResponse :: prev)
                              st
                       else st;
                     r_calls := calls |}
              end
          end
      end.

End Submit.

(** The text fragments of a stream, in arrival order. *)
Definition fragments (s : ResponseStream) : list string :=
  omap (fun c => c) (chunks s).

(** Concatenation of text fragments, in order. *)
Definition concatAll (l : list string) : string :=
  fold_right String.append EmptyString l.

(** The run reached the end of the response stream [s]: the streaming call
    was issued, the service answered with [s], and [s] ended normally. *)
Definition completedWith (w : SubmitWorld) (r : SubmitResult)
    (s : ResponseStream) : Prop :=
  exists req, In (CallGenerateContentStream req) (r_calls r)
    /\ generateContentStream w req = inr s
    /\ stream_end s = StreamDone.

(** Number of streaming calls in a trace. *)
Definition streamCalls (calls : list Call) : nat :=
  List.length
    (List.filter
       (fun c => match c with CallGenerateContentStream _ => true | _ => false end)
       calls).

(** ** Batch metadata ([generateBatchTemplateMetadata],
    [BatchAddTemplatesModal.handleGenerateAndSave]) *)

Record Metadata := {
  m_title : string;
  m_description : string;
  m_tags : list string
}.

(** What the metadata call gives back. *)
Inductive BatchResponse :=
| BatchCallRejected (msg : string)       (* generateContent rejects *)
| BatchNotJson (msg : string)            (* JSON.parse(response.text) throws *)
| BatchNoTemplates                       (* result.templates is missing *)
| BatchTemplates (l : list Metadata).    (* result.templates *)

Definition generateBatchTemplateMetadata (prompts : list string)
    (response : BatchResponse) : string + list Metadata :=
  match response with
  | BatchCallRejected msg => inl msg
  | BatchNotJson msg => inl msg
  | BatchNoTemplates => inl "AI returned a mismatched number of templates."
  | BatchTemplates l =>
      if negb (Nat.eqb (List.length l) (List.length prompts))
      then inl "AI returned a mismatched number of templates."
      else inr l
  end.

Record PromptInput := { pi_id : string; value : string }.

Record BatchModalState := {
  prompts : list PromptInput;
  guidance : string;
  isGenerating : bool;
  isOpen : bool
}.

Record BatchRequest := {
  br_prompts : list string;
  br_guidance : string;
  br_existingTags : list string;
  br_apiKey : string
}.

Record BatchWorld := {
  batch_API_KEY : option string;
  generateContent : BatchRequest -> BatchResponse;
  batchUUID : nat -> string          (* the n-th crypto.randomUUID() *)
}.

Record BatchResult := {
  b_modal : BatchModalState;
  b_app : AppState;
  b_calls : list BatchRequest         (* metadata requests sent *)
}.

(** [nonEmptyPrompts.map((prompt, index) => ...)]; reading a field of
    [metadataArray[index]] throws when the index is out of range. *)
Fixpoint newTemplatesFrom (uuid : nat -> string) (index : nat)
    (nonEmptyPrompts : list string) (metadataArray : list Metadata)
  : option (list PromptTemplate) :=
  match nonEmptyPrompts with
  | [] => Some []
  | p :: rest =>
      match nth_error metadataArray index with
      | None => None
      | Some m =>
          match newTemplatesFrom uuid (S index) rest metadataArray with
          | None => None
          | Some ts =>
              Some ({| t_id := uuid index; title := m_title m;
                       description := m_description m; prompt := p;
                       tags := m_tags m; models := ["Sora 2.2"];
                       exampleVideo := None; exampleVideoType := None |} :: ts)
          end
      end
  end.

(** [handleSaveBatchTemplates], the modal's [onSave]. *)
Definition handleSaveBatchTemplates (newTemplates : list PromptTemplate)
    (st : AppState) : AppState :=
  showToast
    {| message := pretty (List.length newTemplates) ++ " templates added successfully!";
       toast_type := ToastSuccess |}
    (setTemplates (fun prev => (newTemplates ++ prev)%list) st).

Definition set_isGenerating (b : bool) (m : BatchModalState) : BatchModalState :=
  {| prompts := prompts m; guidance := guidance m; isGenerating := b;
     isOpen := isOpen m |}.

Definition closeModal (m : BatchModalState) : BatchModalState :=
  {| prompts := prompts m; guidance := guidance m;
     isGenerating := isGenerating m; isOpen := false |}.

Section Batch.

(** [String.prototype.trim]. *)
Variable trim : string -> string.

Definition nonEmptyPromptsOf (m : BatchModalState) : list string :=
  List.map value
    (List.filter (fun p => negb (String.eqb (trim (value p)) EmptyString))
       (prompts m)).

Definition handleGenerateAndSave (isAistudio : bool) (existingTags : list string)
    (w : BatchWorld) (m : BatchModalState) (st : AppState) : BatchResult :=
  let nonEmptyPrompts := nonEmptyPromptsOf m in
  if Nat.eqb (List.length nonEmptyPrompts) 0 then
    {| b_modal := m;
       b_app := showToast {| message := "Please add at least one prompt.";
                             toast_type := ToastError |} st;
       b_calls := [] |}
  else
    let key := apiKeyToUse isAistudio (settings st) (batch_API_KEY w) in
    if negb (truthy key) then
      {| b_modal := set_isGenerating false m;
         b_app := showToast
                    {| message := "API Key is missing. Please configure it in settings.";
                       toast_type := ToastError |} st;
         b_calls := [] |}
    else
      let request :=
        {| br_prompts := nonEmptyPrompts; br_guidance := guidance m;
           br_existingTags := existingTags; br_apiKey := key |} in
      let failed (msg : string) :=
        {| b_modal := set_isGenerating false m;
           b_app := showToast
                      {| message := str_or msg "Failed to generate metadata.";
                         toast_type := ToastError |} st;
           b_calls := [request] |} in
      match generateBatchTemplateMetadata nonEmptyPrompts (generateContent w request) with
      | inl msg => failed msg
      | inr metadataArray =>
          match newTemplatesFrom (batchUUID w) 0 nonEmptyPrompts metadataArray with
          | None => failed "Cannot read properties of undefined (reading 'title')"
          | Some newTemplates =>
              {| b_modal := set_isGenerating false (closeModal m);
                 b_app := handleSaveBatchTemplates newTemplates st;
                 b_calls := [request] |}
          end
      end.

End Batch.

(** ** Import / Export ([handleExportData], [handleImportFileChange]) *)

(** The options object of the export and import dialogs. *)
Record Options := {
  opt_settings : bool;
  opt_history : bool;
  opt_templates : bool;
  opt_bundles : bool
}.

(** The value under one of the array keys of a parsed document. *)
Inductive Field (A : Type) :=
| FieldAbsent                     (* the key is not in the object *)
| FieldNotArray                   (* present, [Array.isArray] is false *)
| FieldArray (items : list A).
Arguments FieldAbsent {A}.
Arguments FieldNotArray {A}.
Arguments FieldArray {A} items.

(** The value under [settings]. *)
Inductive SettingsField :=
| SettingsAbsent                  (* the key is not in the object *)
| SettingsFalsy                   (* null or another falsy value *)
| SettingsUnkeyed                 (* truthy, but [store.put] finds no key in it *)
| SettingsEntry (key : string) (value : Settings).

Record Document := {
  doc_settings : SettingsField;
  doc_history : Field HistoryItem;
  doc_templates : Field PromptTemplate;
  doc_bundles : Field BundledTemplate
}.

(** What [JSON.parse] makes of the file's text. *)
Inductive FileContent :=
| FileMalformed                   (* [JSON.parse] throws *)
| FilePrimitive                   (* null, a boolean, a number or a string:
                                     the [in] operator throws on it *)
| FileObject (d : Document).

Definition noOption (o : Options) : bool :=
  negb (opt_settings o || opt_history o || opt_templates o || opt_bundles o).

(** The updater of the three array merges. *)
Definition importMerge {A : Type} (id : A -> string) (incoming prev : list A)
  : list A :=
  let existingIds := List.map id prev in
  let newItems :=
    List.filter (fun item => negb (includes existingIds (id item))) incoming in
  (prev ++ newItems)%list.

Definition importFailed (st : AppState) : AppState :=
  showToast {| message := "Failed to read or process the backup file.";
               toast_type := ToastError |} st.

Definition importSucceeded (st : AppState) : AppState :=
  showToast {| message := "Data imported successfully!";
               toast_type := ToastSuccess |} st.

Definition importSettings (importOptions : Options) (d : Document)
    (st : AppState) : option AppState :=
  if opt_settings importOptions then
    match doc_settings d with
    | SettingsAbsent | SettingsFalsy => Some st
    | SettingsUnkeyed => None
    | SettingsEntry key value =>
        Some (setSettings (fun _ => value)
                (with_db (put_settings (setSingleObject key value)) st))
    end
  else Some st.

Definition importHistory (importOptions : Options) (d : Document)
    (st : AppState) : AppState :=
  if opt_history importOptions then
    match doc_history d with
    | FieldArray items =>
        setHistory (importMerge h_id items)
          (with_db (put_history
                      (setStoreData h_id (importMerge h_id items (history st))))
             st)
    | _ => st
    end
  else st.

Definition importTemplates (importOptions : Options) (d : Document)
    (st : AppState) : AppState :=
  if opt_templates importOptions then
    match doc_templates d with
    | FieldArray items =>
        setTemplates (importMerge t_id items)
          (with_db (put_templates
                      (setStoreData t_id (importMerge t_id items (templates st))))
             st)
    | _ => st
    end
  else st.

Definition importBundles (importOptions : Options) (d : Document)
    (st : AppState) : AppState :=
  if opt_bundles importOptions then
    match doc_bundles d with
    | FieldArray items =>
        setBundles (importMerge b_id items)
          (with_db (put_bundles
                      (setStoreData b_id (importMerge b_id items (bundles st))))
             st)
    | _ => st
    end
  else st.

Definition handleImportFileChange (importOptions : Options)
    (file : FileContent) (st : AppState) : AppState :=
  match file with
  | FileMalformed => importFailed st
  | FilePrimitive =>
      if noOption importOptions then importSucceeded st else importFailed st
  | FileObject d =>
      match importSettings importOptions d st with
      | None => importFailed st
      | Some st1 =>
          importSucceeded
            (importBundles importOptions d
               (importTemplates importOptions d
                  (importHistory importOptions d st1)))
      end
  end.

Definition handleExportData (options : Options) (st : AppState)
  : option Document * AppState :=
  let exportData :=
    {| doc_settings :=
         if opt_settings options then
           match getSingleObject (store_settings (db st)) user_settings_key with
           | Some v => SettingsEntry user_settings_key v
           | None => SettingsFalsy
           end
         else SettingsAbsent;
       doc_history :=
         if opt_history options
         then FieldArray (getStoreData (store_history (db st)))
         else FieldAbsent;
       doc_templates :=
         if opt_templates options
         then FieldArray (getStoreData (store_templates (db st)))
         else FieldAbsent;
       doc_bundles :=
         if opt_bundles options
         then FieldArray (getStoreData (store_bundles (db st)))
         else FieldAbsent |} in
  if noOption options then
    (None, showToast {| message := "Nothing selected to export.";
                        toast_type := ToastError |} st)
  else
    (Some exportData,
     showToast {| message := "Data exported successfully!";
                  toast_type := ToastSuccess |} st).

Definition allOptions : Options :=
  {| opt_settings := true; opt_history := true;
     opt_templates := true; opt_bundles := true |}.

(** Number of top-level keys of a document. *)
Definition topLevelKeys (d : Document) : nat :=
  (match doc_settings d with SettingsAbsent => 0 | _ => 1 end)
  + (match doc_history d with FieldAbsent => 0 | _ => 1 end)
  + (match doc_templates d with FieldAbsent => 0 | _ => 1 end)
  + (match doc_bundles d with FieldAbsent => 0 | _ => 1 end).

Definition selectedOptions (o : Options) : nat :=
  (if opt_settings o then 1 else 0) + (if opt_history o then 1 else 0)
  + (if opt_templates o then 1 else 0) + (if opt_bundles o then 1 else 0).

(** The state [App] starts from over a given store ([useIndexedDB]'s load):
    an empty array store seeds the default, a missing settings entry too. *)
Definition defaultSettings (isAistudio : bool) : Settings :=
  {| apiKeySource := if isAistudio then SourceEnvironment else SourceCustom;
     apiKey := EmptyString; hasSeenWelcome := false |}.

Definition loadArray {A : Type} (s : gmap string A) (initialValue : list A)
  : list A :=
  let data := getStoreData s in
  if Nat.ltb 0 (List.length data) then data else initialValue.

Definition loadState (isAistudio : bool) (s : LocalStore) : AppState :=
  {| settings :=
       match getSingleObject (store_settings s) user_settings_key with
       | Some v => v
       | None => defaultSettings isAistudio
       end;
     history := loadArray (store_history s) [];
     templates := loadArray (store_templates s) [];
     bundles := loadArray (store_bundles s) [];
     db := s; toasts := [] |}.

(** ** Deleting a template ([TemplateCard]) and read-time resolution *)

Definition deleteTemplate (template : PromptTemplate) (st : AppState) : AppState :=
  showToast {| message := "Template deleted."; toast_type := ToastSuccess |}
    (setTemplates
       (fun prev =>
          List.filter (fun t => negb (String.eqb (t_id t) (t_id template))) prev)
       st).

(** [allTemplates.filter(t => bundle.templateIds.includes(t.id))]. *)
Definition templatesForBundle (allTemplates : list PromptTemplate)
    (bundle : BundledTemplate) : list PromptTemplate :=
  List.filter (fun t => includes (templateIds bundle) (t_id t)) allTemplates.

(** [HistoryView]: [templatesById] and the hydration of a history item. *)
Definition templatesById (allTemplates : list PromptTemplate)
  : list (string * PromptTemplate) :=
  JsMap.of_entries (List.map (fun t => (t_id t, t)) allTemplates).

Definition hydratedTemplates (allTemplates : list PromptTemplate)
    (item : HistoryItem) : list PromptTemplate :=
  omap (fun id => JsMap.get id (templatesById allTemplates))
    (referencedTemplates item).

(** ** Properties of imports, stated on states *)

(** [result] keeps [prev] as it is and adds only records of the array [f]
    whose identifier no record of [prev] has. *)
Definition keepsAndAdds {A : Type} (id : A -> string) (f : Field A)
    (prev result : list A) : Prop :=
  exists newItems,
    result = (prev ++ newItems)%list
    /\ forall x, In x newItems ->
         ~ In (id x) (List.map id prev)
         /\ exists items, f = FieldArray items /\ In x items.

(** When [f] is an array, [result] is [prev] followed by the records of the
    array whose identifier no record of [prev] has, in the order of the
    file, so that every such record is in [result]; and [store] is the
    write-through of [result], so that every such identifier is a key. *)
Definition addsUnseen {A : Type} (id : A -> string) (f : Field A)
    (prev result : list A) (store : gmap string A) : Prop :=
  forall items, f = FieldArray items ->
    (forall x, In x result
               <-> In x prev
                   \/ (In x items /\ ~ In (id x) (List.map id prev)))
    /\ result
       = (prev
          ++ List.filter
               (fun x => negb (includes (List.map id prev) (id x))) items)%list
    /\ store = setStoreData id result ∅
    /\ (forall x, In x items -> ~ In (id x) (List.map id prev) ->
          is_Some (store !! id x)).


(** The four collections of [st'] are those of [st], in memory and store. *)
Definition sameCollections (st st' : AppState) : Prop :=
  settings st' = settings st /\ history st' = history st
  /\ templates st' = templates st /\ bundles st' = bundles st
  /\ db st' = db st.

(** The import from [st] to [st'] was aborted: nothing applied, one error
    notification. *)
Definition importAborted (st st' : AppState) : Prop :=
  sameCollections st st'
  /\ exists t, toasts st' = t :: toasts st /\ toast_type t = ToastError.

(** A document in which every non-array value under an array key is
    replaced by the absence of the key. *)
Definition dropField {A : Type} (f : Field A) : Field A :=
  match f with
  | FieldNotArray => FieldAbsent
  | _ => f
  end.

Definition dropNonArrays (d : Document) : Document :=
  {| doc_settings := doc_settings d;
     doc_history := dropField (doc_history d);
     doc_templates := dropField (doc_templates d);
     doc_bundles := dropField (doc_bundles d) |}.

(** The values an import leaves in each collection. *)
Definition mergedList {A : Type} (id : A -> string) (selected : bool)
    (f : Field A) (prev : list A) : list A :=
  if selected
  then match f with
       | FieldArray items => importMerge id items prev
       | _ => prev
       end
  else prev.

Definition mergedStore {A : Type} (id : A -> string) (selected : bool)
    (f : Field A) (prev : list A) (s : gmap string A) : gmap string A :=
  if selected
  then match f with
       | FieldArray items => setStoreData id (importMerge id items prev) s
       | _ => s
       end
  else s.

(** ** Sample data for the worked examples *)

Module Sample.

Definition tpl (i ttl : string) (tgs : list string) : PromptTemplate :=
  {| t_id := i; title := ttl; description := EmptyString; prompt := ttl;
     tags := tgs; models := []; exampleVideo := None;
     exampleVideoType := None |}.

Definition t1 := tpl "t1" "Rain" ["noir"; "city"].
Definition t2 := tpl "t2" "Dunes" ["desert"].
Definition t3 := tpl "t3" "Orbit" ["space"].
Definition library := [t1; t2; t3].

(** A bundle that still lists an identifier ("gone") of no template. *)
Definition bundleA : BundledTemplate :=
  {| b_id := "b1"; name := "A"; b_description := EmptyString;
     templateIds := ["t2"; "t1"; "gone"] |}.

(** The state [App] starts from over an empty store. *)
Definition st0 : AppState := loadState false empty_store.

(** The same with a custom key configured. *)
Definition stKey : AppState :=
  setSettings
    (fun _ => {| apiKeySource := SourceCustom; apiKey := "k";
                 hasSeenWelcome := true |})
    st0.

(** A library of three templates and one bundle, written through. *)
Definition stLibrary : AppState :=
  setBundles (fun _ => [bundleA]) (setTemplates (fun _ => library) stKey).

Definition props : PrompterProps :=
  {| p_prompt := "a cat"; p_media := None; p_isJsonMode := false;
     p_useMarsLsp := false; p_style := StyleDefault; p_length := LengthDefault;
     p_useReasoning := false; p_selectedTags := []; p_selectedBundles := [];
     p_selectedIndividualTemplates := []; p_isAistudio := false |}.

Definition view0 : PrompterState :=
  {| isLoading := false; shownPrompt := EmptyString; error := None |}.

Definition streamABC : ResponseStream :=
  {| chunks := [Some "A"; Some "B"; None; Some "C"]; stream_end := StreamDone |}.

Definition streamEmpty : ResponseStream :=
  {| chunks := []; stream_end := StreamDone |}.

Definition streamBroken : ResponseStream :=
  {| chunks := [Some "A"]; stream_end := StreamThrows "network down" |}.

Definition world (s : ResponseStream) : SubmitWorld :=
  {| env_API_KEY := None;
     fileToBase64 := fun _ => inl "no media";
     generateContentStream := fun _ => inr s;
     randomUUID := "uuid-1";
     now := 1700000000000%Z |}.

(** The file [{"history": 5, "templates": [t1]}]. *)
Definition docNonArray : Document :=
  {| doc_settings := SettingsAbsent; doc_history := FieldNotArray;
     doc_templates := FieldArray [t1]; doc_bundles := FieldAbsent |}.

(** A file whose templates clash with the library on "t1" and add "t9". *)
Definition docClash : Document :=
  {| doc_settings := SettingsAbsent; doc_history := FieldAbsent;
     doc_templates := FieldArray [tpl "t1" "Rain (other)" []; tpl "t9" "Fog" []];
     doc_bundles := FieldAbsent |}.

Definition reference : PromptTemplate :=
  {| t_id := "r1"; title := "T"; description := "d"; prompt := "P";
     tags := []; models := []; exampleVideo := None;
     exampleVideoType := None |}.

Definition request : StreamRequest :=
  {| sr_prompt := "a cat"; sr_isJsonMode := false; sr_useMarsLsp := false;
     sr_style := StyleDefault; sr_length := LengthShort;
     sr_thinkingBudget := 0; sr_apiKey := "k"; sr_media := None;
     sr_referencedTemplates := Some [reference] |}.

(** A batch of three prompts, one blank row, and a service that answers
    with two results. *)
Definition batchModal : BatchModalState :=
  {| prompts := [ {| pi_id := "a"; value := "p1" |};
                  {| pi_id := "b"; value := "p2" |};
                  {| pi_id := "c"; value := EmptyString |};
                  {| pi_id := "d"; value := "p3" |} ];
     guidance := EmptyString; isGenerating := false; isOpen := true |}.

Definition meta (n : string) : Metadata :=
  {| m_title := "title " ++ n; m_description := "about " ++ n;
     m_tags := [n] |}.

Definition batchWorld (l : list Metadata) : BatchWorld :=
  {| batch_API_KEY := None;
     generateContent := fun _ => BatchTemplates l;
     batchUUID := fun n => "uuid-" ++ pretty n |}.

(** A stand-in for [trim] on the sample prompts, which carry no blanks:
    leading spaces are dropped. *)
Fixpoint trimStart (s : string) : string :=
  match s with
  | String c s' => if Ascii.eqb c " "%char then trimStart s' else s
  | EmptyString => EmptyString
  end.

End Sample.

(** ** Further handlers of [App] *)

(** [handleSaveTemplate]; [editingTemplate] is the template the form was
    opened on, if any. *)
Definition handleSaveTemplate (editingTemplate : option PromptTemplate)
    (templateData : PromptTemplate) (st : AppState) : AppState :=
  let st1 :=
    match editingTemplate with
    | Some _ =>
        setTemplates
          (fun prev =>
             List.map
               (fun t => if String.eqb (t_id t) (t_id templateData)
                         then templateData else t)
               prev)
          st
    | None => setTemplates (fun prev => templateData :: prev) st
    end in
  showToast
    {| message :=
         "Template "
         ++ (match editingTemplate with Some _ => "updated" | None => "created" end)
         ++ "!";
       toast_type := ToastSuccess |}
    st1.

(** [handleSaveBundle]. *)
Definition handleSaveBundle (editingBundle : option BundledTemplate)
    (bundleData : BundledTemplate) (st : AppState) : AppState :=
  let st1 :=
    match editingBundle with
    | Some _ =>
        setBundles
          (fun prev =>
             List.map
               (fun b => if String.eqb (b_id b) (b_id bundleData)
                         then bundleData else b)
               prev)
          st
    | None => setBundles (fun prev => bundleData :: prev) st
    end in
  showToast
    {| message :=
         "Bundle "
         ++ (match editingBundle with Some _ => "updated" | None => "created" end)
         ++ "!";
       toast_type := ToastSuccess |}
    st1.

(** The delete button of [BundleCard]. *)
Definition deleteBundle (bundle : BundledTemplate) (st : AppState) : AppState :=
  showToast {| message := "Bundle deleted."; toast_type := ToastSuccess |}
    (setBundles
       (fun prev =>
          List.filter (fun b => negb (String.eqb (b_id b) (b_id bundle))) prev)
       st).

(** [confirmDeleteItemAction]; [confirmDeleteItem] is the pending item. *)
Definition confirmDeleteItemAction (confirmDeleteItem : option HistoryItem)
    (st : AppState) : AppState :=
  match confirmDeleteItem with
  | None => st
  | Some pending =>
      showToast {| message := "Item deleted from history.";
                   toast_type := ToastSuccess |}
        (setHistory
           (fun prev =>
              List.filter
                (fun item => negb (String.eqb (h_id item) (h_id pending)))
                prev)
           st)
  end.

(** The [onConfirm] of [handleClearHistory]. *)
Definition clearHistoryConfirmed (st : AppState) : AppState :=
  showToast {| message := "History cleared!"; toast_type := ToastSuccess |}
    (setHistory (fun _ => []) (with_db (put_history clearStore) st)).

(** The [onConfirm] of [handleClearTemplates]. *)
Definition clearTemplatesConfirmed (st : AppState) : AppState :=
  showToast {| message := "Templates and bundles cleared!";
               toast_type := ToastSuccess |}
    (setBundles (fun _ => [])
       (setTemplates (fun _ => [])
          (with_db (put_bundles clearStore)
             (with_db (put_templates clearStore) st)))).

(** [SettingsModal.handleSave]. *)
Definition saveSettings (localSettings : Settings) (st : AppState) : AppState :=
  setSettings (fun _ => localSettings) st.

(** [handleCloseWelcomeModal]. *)
Definition handleCloseWelcomeModal (st : AppState) : AppState :=
  setSettings
    (fun prev => {| apiKeySource := apiKeySource prev; apiKey := apiKey prev;
                    hasSeenWelcome := true |})
    st.

(** *** Usage counters ([usageCounts], [tagUsageCounts]) *)

(** [counts.set(k, (counts.get(k) || 0) + 1)]. *)
Definition countUp (counts : list (string * nat)) (k : string)
  : list (string * nat) :=
  JsMap.set k
    ((match JsMap.get k counts with
      | Some n => if Nat.eqb n 0 then 0 else n
      | None => 0
      end) + 1)
    counts.

Definition usageCounts (hist : list HistoryItem) : list (string * nat) :=
  fold_left
    (fun counts item => fold_left countUp (referencedTemplates item) counts)
    hist [].

Definition tagUsageCounts (tpls : list PromptTemplate) : list (string * nat) :=
  fold_left (fun counts t => fold_left countUp (tags t) counts) tpls [].

(** *** ES [Set] of strings: the members in insertion order. *)
Module JsSet.

Definition has (s : list string) (x : string) : bool := includes s x.

Definition add (x : string) (s : list string) : list string :=
  if has s x then s else (s ++ [x])%list.

Definition delete (x : string) (s : list string) : list string :=
  List.filter (fun y => negb (String.eqb y x)) s.

(** [new Set(array)]. *)
Definition of_list (l : list string) : list string :=
  fold_left (fun s x => add x s) l [].

End JsSet.

(** [Array.prototype.sort()] without comparator on strings: ascending by
    code units. *)
Fixpoint sortInsert (x : string) (l : list string) : list string :=
  match l with
  | [] => [x]
  | y :: l' => if String.leb x y then x :: l else y :: sortInsert x l'
  end.

Definition sortStrings (l : list string) : list string :=
  fold_right sortInsert [] l.

(** [allTags] of [App], [TemplatesView] and the bundle editor. *)
Definition allTags (tpls : list PromptTemplate) : list string :=
  sortStrings
    (fold_left (fun s t => fold_left (fun s tag => JsSet.add tag s) (tags t) s)
       tpls []).

(** *** [activeControlsCount] of the composer *)
Definition activeControlsCount (style : Style) (length : Length)
    (isJsonMode useMarsLsp : bool) : nat :=
  let count := 0 in
  let count := match style with StyleDefault => count | _ => count + 1 end in
  let count :=
    if (isJsonMode || useMarsLsp)
       && (match length with LengthDefault => false | _ => true end)
    then count + 1 else count in
  if useMarsLsp then count + 1 else count.

(** ** Selection in the quick-add panel ([toggleTag], [toggleBundle],
    [toggleTemplate]) *)

Definition toggleTag (tag : string) (prev : list string) : list string :=
  if includes prev tag
  then List.filter (fun t => negb (String.eqb t tag)) prev
  else (prev ++ [tag])%list.

Definition toggleBundle (bundle : BundledTemplate)
    (prev : list BundledTemplate) : list BundledTemplate :=
  if existsb (fun b => String.eqb (b_id b) (b_id bundle)) prev
  then List.filter (fun b => negb (String.eqb (b_id b) (b_id bundle))) prev
  else (prev ++ [bundle])%list.

Definition toggleTemplate (template : PromptTemplate)
    (prev : list PromptTemplate) : list PromptTemplate :=
  if existsb (fun t => String.eqb (t_id t) (t_id template)) prev
  then List.filter (fun t => negb (String.eqb (t_id t) (t_id template))) prev
  else (prev ++ [template])%list.

(** [MultiTagFilterDropdown.handleToggleTag]: the new selection handed to
    [onSelectionChange]. *)
Definition handleToggleTag (tag : string) (selectedTags : list string)
  : list string :=
  let newSelection := JsSet.of_list selectedTags in
  if JsSet.has newSelection tag
  then JsSet.delete tag newSelection
  else JsSet.add tag newSelection.

(** ** The bundle editor ([VisualBundleEditorModal]) *)

Record BundleEditorState := {
  bundleName : string;
  bundleDescription : string;
  selectedTemplateIds : list string        (* a Set *)
}.

(** The effect that runs when the editor opens. *)
Definition openBundleEditor (existingBundle : option BundledTemplate)
  : BundleEditorState :=
  match existingBundle with
  | Some b =>
      {| bundleName := name b; bundleDescription := b_description b;
         selectedTemplateIds := JsSet.of_list (templateIds b) |}
  | None =>
      {| bundleName := EmptyString; bundleDescription := EmptyString;
         selectedTemplateIds := JsSet.of_list [] |}
  end.

Definition toggleTemplateInBundle (templateId : string)
    (e : BundleEditorState) : BundleEditorState :=
  {| bundleName := bundleName e; bundleDescription := bundleDescription e;
     selectedTemplateIds :=
       if JsSet.has (selectedTemplateIds e) templateId
       then JsSet.delete templateId (selectedTemplateIds e)
       else JsSet.add templateId (selectedTemplateIds e) |}.

(** [handleSave] of the editor: the bundle handed to [onSave], if any. *)
Definition bundleEditorSave (existingBundle : option BundledTemplate)
    (uuid : string) (e : BundleEditorState) : option BundledTemplate :=
  if negb (truthy (bundleName e)) then None
  else
    Some {| b_id := match existingBundle with
                    | Some b => str_or (b_id b) uuid
                    | None => uuid
                    end;
            name := bundleName e;
            b_description := bundleDescription e;
            templateIds := selectedTemplateIds e |}.

(** The editor's save button as wired in [App]: [onSave] is
    [handleSaveBundle], with [editingBundle] the bundle the editor was
    opened on. *)
Definition saveBundleFromEditor (existingBundle : option BundledTemplate)
    (uuid : string) (e : BundleEditorState) (st : AppState) : AppState :=
  match bundleEditorSave existingBundle uuid e with
  | None => st
  | Some b => handleSaveBundle existingBundle b st
  end.

(** ** Rows of the batch dialog ([addPromptInput], [removePromptInput],
    [updatePromptValue]) *)

Definition addPromptInput (uuid : string) (prev : list PromptInput)
  : list PromptInput :=
  (prev ++ [{| pi_id := uuid; value := EmptyString |}])%list.

Definition removePromptInput (id : string) (prev : list PromptInput)
  : list PromptInput :=
  if Nat.ltb 1 (List.length prev)
  then List.filter (fun p => negb (String.eqb (pi_id p) id)) prev
  else prev.

Definition updatePromptValue (id v : string) (prev : list PromptInput)
  : list PromptInput :=
  List.map
    (fun p => if String.eqb (pi_id p) id
              then {| pi_id := pi_id p; value := v |} else p)
    prev.

(** ** The option dialogs ([ImportOptionsModal], [ExportOptionsModal]) *)

Inductive OptionKey := KeySettings | KeyHistory | KeyTemplates | KeyBundles.

Definition importDialogInitial : Options :=
  {| opt_settings := false; opt_history := true;
     opt_templates := true; opt_bundles := true |}.

Definition exportDialogInitial : Options :=
  {| opt_settings := true; opt_history := true;
     opt_templates := true; opt_bundles := true |}.

(** [{ ...prev, [key]: !prev[key] }]. *)
Definition flipOption (key : OptionKey) (prev : Options) : Options :=
  match key with
  | KeySettings =>
      {| opt_settings := negb (opt_settings prev); opt_history := opt_history prev;
         opt_templates := opt_templates prev; opt_bundles := opt_bundles prev |}
  | KeyHistory =>
      {| opt_settings := opt_settings prev; opt_history := negb (opt_history prev);
         opt_templates := opt_templates prev; opt_bundles := opt_bundles prev |}
  | KeyTemplates =>
      {| opt_settings := opt_settings prev; opt_history := opt_history prev;
         opt_templates := negb (opt_templates prev);
         opt_bundles := opt_bundles prev |}
  | KeyBundles =>
      {| opt_settings := opt_settings prev; opt_history := opt_history prev;
         opt_templates := opt_templates prev;
         opt_bundles := negb (opt_bundles prev) |}
  end.

(** [handleToggle] of the import dialog. *)
Definition importDialogToggle (key : OptionKey) (prev : Options) : Options :=
  match key with
  | KeySettings => prev
  | _ => flipOption key prev
  end.

(** [handleToggle] of the export dialog. *)
Definition exportDialogToggle (key : OptionKey) (prev : Options) : Options :=
  flipOption key prev.

(** The options a dialog hands to [onConfirm] after a series of clicks. *)
Definition importDialogOptions (clicks : list OptionKey) : Options :=
  fold_left (fun o k => importDialogToggle k o) clicks importDialogInitial.

Definition exportDialogOptions (clicks : list OptionKey) : Options :=
  fold_left (fun o k => exportDialogToggle k o) clicks exportDialogInitial.

(** ** Text helpers of the forms and of [handleRerun]

    Characters are code units below 256. *)

(** White space of [String.prototype.trim] and of the regular-expression
    class [\s]. *)
Definition isWhiteSpace (c : ascii) : bool :=
  let n := nat_of_ascii c in
  Nat.eqb n 9 || Nat.eqb n 10 || Nat.eqb n 11 || Nat.eqb n 12
  || Nat.eqb n 13 || Nat.eqb n 32 || Nat.eqb n 160.

(** Line terminators, which [.] does not match. *)
Definition isLineTerminator (c : ascii) : bool :=
  let n := nat_of_ascii c in Nat.eqb n 10 || Nat.eqb n 13.

Fixpoint jsTrimStart (s : string) : string :=
  match s with
  | EmptyString => EmptyString
  | String c s' => if isWhiteSpace c then jsTrimStart s' else s
  end.

Fixpoint jsTrimEnd (s : string) : string :=
  match s with
  | EmptyString => EmptyString
  | String c s' =>
      match jsTrimEnd s' with
      | EmptyString => if isWhiteSpace c then EmptyString else String c EmptyString
      | r => String c r
      end
  end.

(** [s.trim()]. *)
Definition jsTrim (s : string) : string := jsTrimEnd (jsTrimStart s).

(** [s.split(sep)] for a one-character separator. *)
Fixpoint splitAux (sep : ascii) (cur : string) (s : string) : list string :=
  match s with
  | EmptyString => [cur]
  | String c s' =>
      if Ascii.eqb c sep
      then cur :: splitAux sep EmptyString s'
      else splitAux sep (cur ++ String c EmptyString) s'
  end.

Definition split (sep : ascii) (s : string) : list string :=
  splitAux sep EmptyString s.

Definition comma : ascii := ascii_of_nat 44.

(** [value.split(',').map(t => t.trim()).filter(Boolean)], the parsing of the
    tags and models inputs of the template form. *)
Definition parseList (input : string) : list string :=
  List.filter truthy (List.map jsTrim (split comma input)).

(** [fileToBase64]: [reader.result.split(',')[1]]; [None] is [undefined]. *)
Definition base64OfDataUrl (result : string) : option string :=
  nth_error (split comma result) 1.

(** The [src] the template form builds for a saved video. *)
Definition videoDataUrl (videoType video : string) : string :=
  "data:" ++ videoType ++ ";base64," ++ video.

(** *** The regular expression of [handleRerun], [/\s\(media:.*\)/] *)

(** [s] without a leading [p], if [s] starts with [p]. *)
Fixpoint dropPrefix (p s : string) : option string :=
  match p, s with
  | EmptyString, _ => Some s
  | String a p', String b s' => if Ascii.eqb a b then dropPrefix p' s' else None
  | String _ _, EmptyString => None
  end.

(** Match [.*\)] at the head of [s], greedily: what follows the last
    closing parenthesis before the first line terminator. *)
Fixpoint afterLastParen (s : string) : option string :=
  match s with
  | EmptyString => None
  | String c s' =>
      if isLineTerminator c then None
      else
        match afterLastParen s' with
        | Some rest => Some rest
        | None => if Ascii.eqb c ")"%char then Some s' else None
        end
  end.

(** Match the whole expression at the head of [s]: what follows the match. *)
Definition matchMediaAt (s : string) : option string :=
  match s with
  | EmptyString => None
  | String c s' =>
      if isWhiteSpace c
      then match dropPrefix "(media:" s' with
           | Some rest => afterLastParen rest
           | None => None
           end
      else None
  end.

(** [s.replace(/\s\(media:.*\)/, '')]: the leftmost match is removed. *)
Fixpoint stripMedia (s : string) : string :=
  match matchMediaAt s with
  | Some rest => rest
  | None =>
      match s with
      | EmptyString => EmptyString
      | String c s' => String c (stripMedia s')
      end
  end.

(** ** [handleRerun] *)

Inductive View := PROMPTER | HISTORY | TEMPLATES.

(** The composer state lifted into [App] is the record of the composer's
    props; [handleRerun] returns it with the view to show. *)
Definition handleRerun (item : HistoryItem) (allBundles : list BundledTemplate)
    (p : PrompterProps) : PrompterProps * View :=
  let restored := stripMedia (userPrompt item) in
  let rerunBundles :=
    List.filter (fun b => includes (referencedBundles item) (b_id b)) allBundles in
  ({| p_prompt := restored;
      p_media := None;
      p_isJsonMode :=
        match config item with Some c => cfg_isJsonMode c | None => p_isJsonMode p end;
      p_useMarsLsp :=
        match config item with Some c => cfg_useMarsLsp c | None => p_useMarsLsp p end;
      p_style :=
        match config item with Some c => cfg_style c | None => p_style p end;
      p_length :=
        match config item with Some c => cfg_length c | None => p_length p end;
      p_useReasoning :=
        match config item with Some c => cfg_useReasoning c | None => p_useReasoning p end;
      p_selectedTags := [];
      p_selectedBundles := rerunBundles;
      p_selectedIndividualTemplates := [];
      p_isAistudio := p_isAistudio p |},
   PROMPTER).

(** ** References of a history item as [HistoryView] resolves and renders
    them *)

Definition bundlesById (allBundles : list BundledTemplate)
  : list (string * BundledTemplate) :=
  JsMap.of_entries (List.map (fun b => (b_id b, b)) allBundles).

Definition hydratedBundles (allBundles : list BundledTemplate)
    (item : HistoryItem) : list BundledTemplate :=
  omap (fun id => JsMap.get id (bundlesById allBundles)) (referencedBundles item).





(** ** Saving a history item as a template
    ([handleSaveTemplateFromHistory]) *)

Record MetadataRequest := {
  mr_prompt : string;
  mr_existingTags : list string;
  mr_apiKey : string
}.

(** [inl msg]: the metadata call rejects, or its text is not JSON. *)
Record SaveWorld := {
  save_API_KEY : option string;
  generateTemplateMetadata : MetadataRequest -> string + Metadata;
  saveUUID : string
}.

Record SaveResult := {
  s_app : AppState;
  s_isSavingTemplate : option string;
  s_calls : list MetadataRequest
}.

Definition handleSaveTemplateFromHistory (isAistudio : bool) (w : SaveWorld)
    (item : HistoryItem) (st : AppState) : SaveResult :=
  let key := apiKeyToUse isAistudio (settings st) (save_API_KEY w) in
  if negb (truthy key) then
    {| s_app := showToast {| message := "API key is missing.";
                             toast_type := ToastError |} st;
       s_isSavingTemplate := None; s_calls := [] |}
  else
    let allExistingTags :=
      JsSet.of_list (List.flat_map tags (templates st)) in
    let request :=
      {| mr_prompt := generatedPrompt item; mr_existingTags := allExistingTags;
         mr_apiKey := key |} in
    match generateTemplateMetadata w request with
    | inl _ =>
        {| s_app := showToast
                      {| message := "Failed to generate template metadata.";
                         toast_type := ToastError |} st;
           s_isSavingTemplate := None; s_calls := [request] |}
    | inr metadata =>
        let newTemplate :=
          {| t_id := saveUUID w; title := m_title metadata;
             description := m_description metadata;
             prompt := generatedPrompt item; tags := m_tags metadata;
             models := ["Sora 2.2"]; exampleVideo := None;
             exampleVideoType := None |} in
        {| s_app := showToast
                      {| message := "Template saved successfully!";
                         toast_type := ToastSuccess |}
                      (setTemplates (fun prev => newTemplate :: prev) st);
           s_isSavingTemplate := None; s_calls := [request] |}
    end.

(** ** The template form ([TemplateFormModal]) *)

Record TemplateFormState := {
  f_id : option string;          (* present when the state was copied from a
                                    template *)
  f_title : string;
  f_description : string;
  f_prompt : string;
  f_tags : list string;
  f_models : list string;
  f_exampleVideo : option string;
  f_exampleVideoType : option string;
  tagsInput : string;
  modelsInput : string
}.

(** The effect that runs when the form opens. *)
Definition openTemplateForm (existingTemplate : option PromptTemplate)
  : TemplateFormState :=
  match existingTemplate with
  | Some t =>
      {| f_id := Some (t_id t); f_title := title t;
         f_description := description t; f_prompt := prompt t;
         f_tags := tags t; f_models := models t;
         f_exampleVideo := exampleVideo t;
         f_exampleVideoType := exampleVideoType t;
         tagsInput := join ", " (tags t);
         modelsInput := join ", " (models t) |}
  | None =>
      {| f_id := None; f_title := EmptyString; f_description := EmptyString;
         f_prompt := EmptyString; f_tags := []; f_models := [];
         f_exampleVideo := None; f_exampleVideoType := None;
         tagsInput := EmptyString; modelsInput := EmptyString |}
  end.

(** The [onChange] of the tags input. *)
Definition changeTagsInput (v : string) (f : TemplateFormState)
  : TemplateFormState :=
  {| f_id := f_id f; f_title := f_title f; f_description := f_description f;
     f_prompt := f_prompt f; f_tags := parseList v; f_models := f_models f;
     f_exampleVideo := f_exampleVideo f;
     f_exampleVideoType := f_exampleVideoType f;
     tagsInput := v; modelsInput := modelsInput f |}.

(** The [onChange] of the title input. *)
Definition changeTitle (v : string) (f : TemplateFormState) : TemplateFormState :=
  {| f_id := f_id f; f_title := v; f_description := f_description f;
     f_prompt := f_prompt f; f_tags := f_tags f; f_models := f_models f;
     f_exampleVideo := f_exampleVideo f;
     f_exampleVideoType := f_exampleVideoType f;
     tagsInput := tagsInput f; modelsInput := modelsInput f |}.

(** [handleSave] of the form: the template handed to [onSave], if any. The
    spread of the form state comes after [id] and overrides it when the
    state carries one. *)
Definition templateFormSave (existingTemplate : option PromptTemplate)
    (uuid : string) (f : TemplateFormState) : option PromptTemplate :=
  if negb (truthy (f_title f)) || negb (truthy (f_prompt f)) then None
  else
    Some {| t_id :=
              match f_id f with
              | Some i => i
              | None =>
                  match existingTemplate with
                  | Some t => str_or (t_id t) uuid
                  | None => uuid
                  end
              end;
            title := f_title f; description := f_description f;
            prompt := f_prompt f; tags := f_tags f; models := f_models f;
            exampleVideo := f_exampleVideo f;
            exampleVideoType := f_exampleVideoType f |}.

(** The form's save button as wired in [App]: [onSave] is
    [handleSaveTemplate], with [editingTemplate] the template the form was
    opened on. *)
Definition saveTemplateFromForm (existingTemplate : option PromptTemplate)
    (uuid : string) (f : TemplateFormState) (st : AppState) : AppState :=
  match templateFormSave existingTemplate uuid f with
  | None => st
  | Some t => handleSaveTemplate existingTemplate t st
  end.

(** ** The handlers as actions on the application state *)

Inductive Action :=
| ActSubmit (SYSTEM_PROMPT : string) (p : PrompterProps) (w : SubmitWorld)
    (view : PrompterState)
| ActBatch (trim : string -> string) (isAistudio : bool)
    (existingTags : list string) (w : BatchWorld) (m : BatchModalState)
| ActSaveFromHistory (isAistudio : bool) (w : SaveWorld) (item : HistoryItem)
| ActSaveTemplate (editingTemplate : option PromptTemplate)
    (templateData : PromptTemplate)
| ActSaveBundle (editingBundle : option BundledTemplate)
    (bundleData : BundledTemplate)
| ActDeleteTemplate (template : PromptTemplate)
| ActDeleteBundle (bundle : BundledTemplate)
| ActDeleteHistoryItem (confirmDeleteItem : option HistoryItem)
| ActClearHistory
| ActClearTemplates
| ActSaveSettings (localSettings : Settings)
| ActCloseWelcome
| ActImport (importOptions : Options) (file : FileContent)
| ActExport (options : Options).

Definition act (a : Action) (st : AppState) : AppState :=
  match a with
  | ActSubmit sp p w view => r_app (handleSubmit sp p w view st)
  | ActBatch trim isAistudio existingTags w m =>
      b_app (handleGenerateAndSave trim isAistudio existingTags w m st)
  | ActSaveFromHistory isAistudio w item =>
      s_app (handleSaveTemplateFromHistory isAistudio w item st)
  | ActSaveTemplate editing data => handleSaveTemplate editing data st
  | ActSaveBundle editing data => handleSaveBundle editing data st
  | ActDeleteTemplate t => deleteTemplate t st
  | ActDeleteBundle b => deleteBundle b st
  | ActDeleteHistoryItem pending => confirmDeleteItemAction pending st
  | ActClearHistory => clearHistoryConfirmed st
  | ActClearTemplates => clearTemplatesConfirmed st
  | ActSaveSettings s => saveSettings s st
  | ActCloseWelcome => handleCloseWelcomeModal st
  | ActImport o file => handleImportFileChange o file st
  | ActExport o => snd (handleExportData o st)
  end.

Definition actAll (actions : list Action) (st : AppState) : AppState :=
  fold_left (fun s a => act a s) actions st.

(** Memory and store agree: each array store is the write-through of the
    array in memory, and a stored settings entry is the settings in
    memory. *)
Definition consistent (st : AppState) : Prop :=
  in_sync st
  /\ forall v, store_settings (db st) !! user_settings_key = Some v ->
               settings st = v.

Definition well_keyed_store (s : LocalStore) : Prop :=
  well_keyed h_id (store_history s) /\ well_keyed t_id (store_templates s)
  /\ well_keyed b_id (store_bundles s).

(** When the export wrote the array of a collection, it holds records of
    the array [l] in memory only, each identifier once, and exactly the
    records of [l] when their identifiers are distinct. *)
Definition exportedFrom {A : Type} (id : A -> string) (f : Field A)
    (l : list A) : Prop :=
  forall items, f = FieldArray items ->
    (forall x, In x items -> In x l)
    /\ List.NoDup (List.map id items)
    /\ (List.NoDup (List.map id l) -> forall x, In x items <-> In x l).

(** The records of a list that carry the identifier [k]. *)
Definition withId {A : Type} (id : A -> string) (k : string) (l : list A)
  : list A :=
  List.filter (fun x => String.eqb (id x) k) l.

(** ** Predicates on texts used in the statements *)

(** Every character of [s] satisfies [f]. *)
Fixpoint allChars (f : ascii -> bool) (s : string) : bool :=
  match s with
  | EmptyString => true
  | String c s' => f c && allChars f s'
  end.

(** [p] occurs in [s]. *)
Fixpoint occursIn (p s : string) : bool :=
  match dropPrefix p s with
  | Some _ => true
  | None =>
      match s with
      | EmptyString => false
      | String _ s' => occursIn p s'
      end
  end.

Definition noComma (s : string) : bool :=
  allChars (fun c => negb (Ascii.eqb c comma)) s.

Definition noLineTerminator (s : string) : bool :=
  allChars (fun c => negb (isLineTerminator c)) s.
(** * Proofs *)

(** ** Lists and identifiers *)

Lemma includes_In (l : list string) (x : string) :
  includes l x = true <-> In x l.
Proof.
  unfold includes. rewrite existsb_exists. split.
  - intros (y & Hy & E). apply String.eqb_eq in E. now subst.
  - intros H. exists x. split; [assumption | apply String.eqb_refl].
Qed.

Lemma includes_not_In (l : list string) (x : string) :
  includes l x = false <-> ~ In x l.
Proof.
  rewrite <- includes_In. destruct (includes l x); split; congruence.
Qed.

Lemma filter_filter_and {A : Type} (f g : A -> bool) (l : list A) :
  List.filter f (List.filter g l) = List.filter (fun x => g x && f x) l.
Proof.
  induction l as [|a l IH]; simpl; [reflexivity|].
  destruct (g a); simpl; [destruct (f a)|]; now rewrite IH.
Qed.

Lemma first_seen_In (l : list string) (x : string) :
  In x (first_seen l) <-> In x l.
Proof.
  induction l as [|a l IH]; simpl; [tauto|].
  rewrite filter_In, IH. split.
  - intros [H | [H _]]; auto.
  - intros [H | H]; auto.
    destruct (String.eqb a x) eqn:E.
    + apply String.eqb_eq in E. auto.
    + right. split; [assumption | reflexivity].
Qed.

Lemma first_seen_NoDup (l : list string) : List.NoDup (first_seen l).
Proof.
  induction l as [|a l IH]; simpl; constructor.
  - rewrite filter_In. intros [_ H]. now rewrite String.eqb_refl in H.
  - now apply List.NoDup_filter.
Qed.

(** ** The ES Map model *)

Module JsMapFacts.
Section JsMapFacts.
Context {V : Type}.
Implicit Types (m : list (string * V)) (k : string) (v : V).

Lemma keys_set k v m :
  JsMap.keys (JsMap.set k v m)
  = if includes (JsMap.keys m) k then JsMap.keys m
    else (JsMap.keys m ++ [k])%list.
Proof.
  unfold JsMap.keys, includes.
  induction m as [|[k' v'] m IH]; simpl; [reflexivity|].
  rewrite (String.eqb_sym k k').
  destruct (String.eqb k' k) eqn:E; simpl.
  - apply String.eqb_eq in E. now subst.
  - rewrite IH. now destruct (existsb (String.eqb k) (List.map fst m)).
Qed.

Lemma In_set k v m (e : string * V) :
  In e (JsMap.set k v m) -> e = (k, v) \/ In e m.
Proof.
  induction m as [|[k' v'] m IH]; simpl.
  - intros [<- | []]. now left.
  - destruct (String.eqb k' k); simpl; intros [<- | H]; auto.
    destruct (IH H); auto.
Qed.

Lemma keys_fold (entries : list (string * V)) m :
  JsMap.keys (fold_left (fun acc e => JsMap.set (fst e) (snd e) acc) entries m)
  = (JsMap.keys m
     ++ List.filter (fun y => negb (includes (JsMap.keys m) y))
          (first_seen (List.map fst entries)))%list.
Proof.
  revert m. induction entries as [|[k v] entries IH]; intros m; simpl.
  - now rewrite app_nil_r.
  - rewrite IH, keys_set. rewrite filter_filter_and.
    destruct (includes (JsMap.keys m) k) eqn:E; simpl.
    + f_equal. apply List.filter_ext_in. intros y _.
      destruct (String.eqb k y) eqn:Ey; simpl; [|reflexivity].
      apply String.eqb_eq in Ey. subst y. now rewrite E.
    + rewrite <- app_assoc. simpl. do 2 f_equal.
      apply List.filter_ext_in. intros y _.
      unfold includes. rewrite existsb_app. simpl.
      rewrite orb_false_r, negb_orb, (String.eqb_sym y k).
      apply andb_comm.
Qed.

Lemma keys_of_entries (entries : list (string * V)) :
  JsMap.keys (JsMap.of_entries entries) = first_seen (List.map fst entries).
Proof.
  unfold JsMap.of_entries. rewrite keys_fold. simpl.
  induction (first_seen (List.map fst entries)) as [|a l IH]; simpl; congruence.
Qed.

Lemma In_fold (entries : list (string * V)) m (e : string * V) :
  In e (fold_left (fun acc e => JsMap.set (fst e) (snd e) acc) entries m) ->
  In e entries \/ In e m.
Proof.
  revert m. induction entries as [|[k v] entries IH]; intros m; simpl; auto.
  intros H. destruct (IH _ H) as [H1 | H1]; auto.
  destruct (In_set _ _ _ _ H1); auto.
Qed.

Lemma In_of_entries (entries : list (string * V)) (e : string * V) :
  In e (JsMap.of_entries entries) -> In e entries.
Proof.
  intros H. destruct (In_fold _ _ _ H) as [H1 | []]. exact H1.
Qed.

(** When every entry is keyed by [f] of its value, so is the map. *)
Lemma values_keys (f : V -> string) (l : list V) :
  List.map f (JsMap.values (JsMap.of_entries (List.map (fun x => (f x, x)) l)))
  = JsMap.keys (JsMap.of_entries (List.map (fun x => (f x, x)) l)).
Proof.
  unfold JsMap.values, JsMap.keys. rewrite List.map_map.
  apply List.map_ext_in. intros [k v] H. simpl.
  apply In_of_entries, in_map_iff in H. destruct H as (x & E & _).
  now inversion E.
Qed.

Lemma get_Some_In k v m : JsMap.get k m = Some v -> In (k, v) m.
Proof.
  induction m as [|[k' v'] m IH]; simpl; [discriminate|].
  destruct (String.eqb k' k) eqn:E.
  - intros [= ->]. apply String.eqb_eq in E. subst. now left.
  - auto.
Qed.

End JsMapFacts.
End JsMapFacts.

Lemma filter_id_absent {A : Type} (f : A -> string) (l : list A) (i : string) :
  ~ In i (List.map f l) -> List.filter (fun u => String.eqb (f u) i) l = [].
Proof.
  induction l as [|a l IH]; simpl; [reflexivity|].
  intros H. destruct (String.eqb (f a) i) eqn:E.
  - apply String.eqb_eq in E. exfalso. auto.
  - apply IH. auto.
Qed.

(** Exactly one element of [l] carries the identifier [i]. *)
Lemma NoDup_map_count {A : Type} (f : A -> string) (l : list A) (i : string) :
  List.NoDup (List.map f l) -> In i (List.map f l) ->
  List.length (List.filter (fun u => String.eqb (f u) i) l) = 1.
Proof.
  induction l as [|a l IH]; simpl; [tauto|].
  intros Hnd Hin. apply List.NoDup_cons_iff in Hnd. destruct Hnd as [Hna Hnd].
  destruct (String.eqb (f a) i) eqn:E; simpl.
  - apply String.eqb_eq in E. subst i.
    now rewrite filter_id_absent.
  - apply IH; [assumption|]. destruct Hin as [Hin | Hin]; [|assumption].
    apply String.eqb_neq in E. contradiction.
Qed.

(** ** Reference Resolver *)

Lemma referenceCandidates_spec allTemplates selectedTags selectedBundles
    selectedIndividualTemplates (t : PromptTemplate) :
  In t (referenceCandidates allTemplates selectedTags selectedBundles
          selectedIndividualTemplates)
  <-> (In t allTemplates
       /\ exists tag, In tag selectedTags /\ In tag (tags t))
      \/ (In t allTemplates
          /\ exists b, In b selectedBundles /\ In (t_id t) (templateIds b))
      \/ In t selectedIndividualTemplates.
Proof.
  unfold referenceCandidates, templatesFromTags, templatesFromBundles.
  rewrite !in_app_iff, !filter_In, !existsb_exists.
  setoid_rewrite includes_In. tauto.
Qed.

(** C1. The reference computation of [handleSubmit] lists the identifiers of
    the candidates (tag matches, then bundle matches, then individual picks)
    in first-seen order without repetition; every element it returns is a
    candidate; and for every candidate, whatever made it qualify and however
    often, exactly one returned element carries its identifier. In
    particular an individually selected template is there exactly once.
    The candidates are the library templates with a selected tag, the
    library templates listed by a selected bundle, and the individually
    selected templates. *)
Theorem resolver_each_qualifying_once
    (allTemplates : list PromptTemplate) (selectedTags : list string)
    (selectedBundles : list BundledTemplate)
    (selectedIndividualTemplates : list PromptTemplate) :
  let candidates :=
    referenceCandidates allTemplates selectedTags selectedBundles
      selectedIndividualTemplates in
  let out :=
    allReferencedTemplates allTemplates selectedTags selectedBundles
      selectedIndividualTemplates in
  List.map t_id out = first_seen (List.map t_id candidates)
  /\ List.NoDup (List.map t_id out)
  /\ (forall t, In t out -> In t candidates)
  /\ (forall t, In t candidates ->
        List.length
          (List.filter (fun u => String.eqb (t_id u) (t_id t)) out) = 1)
  /\ (forall t, In t selectedIndividualTemplates ->
        List.length
          (List.filter (fun u => String.eqb (t_id u) (t_id t)) out) = 1)
  /\ (forall t,
        In t candidates
        <-> (In t allTemplates
             /\ exists tag, In tag selectedTags /\ In tag (tags t))
            \/ (In t allTemplates
                /\ exists b, In b selectedBundles /\ In (t_id t) (templateIds b))
            \/ In t selectedIndividualTemplates).
Proof.
  intros candidates out.
  assert (Hids : List.map t_id out = first_seen (List.map t_id candidates)).
  { unfold out, allReferencedTemplates. fold candidates.
    rewrite JsMapFacts.values_keys, JsMapFacts.keys_of_entries.
    rewrite List.map_map. reflexivity. }
  assert (Hnd : List.NoDup (List.map t_id out)).
  { rewrite Hids. apply first_seen_NoDup. }
  assert (Hcount : forall t, In t candidates ->
            List.length
              (List.filter (fun u => String.eqb (t_id u) (t_id t)) out) = 1).
  { intros t Ht. apply NoDup_map_count; [exact Hnd|].
    rewrite Hids, first_seen_In. now apply List.in_map. }
  split; [exact Hids|]. split; [exact Hnd|]. split; [|split; [exact Hcount|split]].
  - intros t Ht. unfold out, allReferencedTemplates, JsMap.values in Ht.
    apply in_map_iff in Ht. destruct Ht as ([k v] & <- & Hin).
    apply JsMapFacts.In_of_entries, in_map_iff in Hin.
    destruct Hin as (x & E & Hx). inversion E; subst. exact Hx.
  - intros t Ht. apply Hcount.
    apply referenceCandidates_spec. auto.
  - intros t. apply referenceCandidates_spec.
Qed.

(** ** Strings *)

Lemma str_app_nil_r (s : string) : s ++ EmptyString = s.
Proof.
  induction s as [|c s IH]; [reflexivity|].
  cbv [String.append]. fold String.append. congruence.
Qed.

Lemma str_app_assoc (a b c : string) : (a ++ b) ++ c = a ++ (b ++ c).
Proof.
  induction a as [|x a IH]; [reflexivity|].
  cbv [String.append]. fold String.append. congruence.
Qed.

Lemma truthy_false (s : string) : truthy s = false <-> s = EmptyString.
Proof. destruct s; simpl; split; congruence. Qed.

Lemma truthy_true (s : string) : truthy s = true <-> s <> EmptyString.
Proof. destruct s; simpl; split; congruence. Qed.

(** ** [handleSubmit]: the stream and the history record *)

Lemma consumeChunks_spec (cs : list (option string)) (full shown : string) :
  consumeChunks cs full shown
  = (full ++ concatAll (omap (fun c => c) cs),
     shown ++ concatAll (omap (fun c => c) cs)).
Proof.
  revert full shown. induction cs as [|[text|] cs IH]; intros full shown; simpl.
  - now rewrite !str_app_nil_r.
  - destruct (truthy text) eqn:E.
    + now rewrite IH, !str_app_assoc.
    + apply truthy_false in E. subst text. simpl. apply IH.
  - apply IH.
Qed.

Lemma consumeChunks_fragments (s : ResponseStream) :
  consumeChunks (chunks s) EmptyString EmptyString
  = (concatAll (fragments s), concatAll (fragments s)).
Proof. now rewrite consumeChunks_spec. Qed.

Lemma list_neq_cons {A : Type} (x : A) (l : list A) : l <> x :: l.
Proof.
  intros E. apply (f_equal (@List.length A)) in E. simpl in E. lia.
Qed.

Section SubmitFacts.

Variable SYSTEM_PROMPT : string.

Lemma mediaCalls_no_stream p (req : GenerateRequest) :
  ~ In (CallGenerateContentStream req) (mediaCalls p).
Proof.
  unfold mediaCalls. destruct (p_media p); simpl; [|tauto].
  intros [H | []]. discriminate.
Qed.

Lemma streamCalls_mediaCalls p : streamCalls (mediaCalls p) = 0.
Proof. unfold mediaCalls, streamCalls. now destruct (p_media p). Qed.

Lemma streamCalls_app (a b : list Call) :
  streamCalls (a ++ b)%list = streamCalls a + streamCalls b.
Proof. unfold streamCalls. now rewrite List.filter_app, List.length_app. Qed.

(** The streaming call is only reached past the input check, the key check
    and the media conversion, with the request built from the props. *)
Lemma handleSubmit_stream_call p w view st (req : GenerateRequest) :
  In (CallGenerateContentStream req)
     (r_calls (handleSubmit SYSTEM_PROMPT p w view st)) ->
  noInput p = false
  /\ truthy (apiKeyToUse (p_isAistudio p) (settings st) (env_API_KEY w)) = true
  /\ exists md,
       convertMedia p w = inr md
       /\ req = streamEnhancePrompt SYSTEM_PROMPT
                  (streamRequestOf p
                     (apiKeyToUse (p_isAistudio p) (settings st) (env_API_KEY w))
                     md
                     (allReferencedTemplates (templates st) (p_selectedTags p)
                        (p_selectedBundles p)
                        (p_selectedIndividualTemplates p))).
Proof.
  unfold handleSubmit.
  destruct (noInput p); [simpl; tauto|].
  destruct (truthy (apiKeyToUse _ _ _)); simpl; [|tauto].
  destruct (convertMedia p w) as [msg|md].
  { simpl. intros H. now apply mediaCalls_no_stream in H. }
  intros H.
  assert (Hin : In (CallGenerateContentStream req)
                  (mediaCalls p
                   ++ [CallGenerateContentStream
                         (streamEnhancePrompt SYSTEM_PROMPT
                            (streamRequestOf p
                               (apiKeyToUse (p_isAistudio p) (settings st)
                                  (env_API_KEY w))
                               md
                               (allReferencedTemplates (templates st)
                                  (p_selectedTags p) (p_selectedBundles p)
                                  (p_selectedIndividualTemplates p))))])%list).
  { revert H. destruct (generateContentStream w _) as [msg|rs]; [exact (fun H => H)|].
    destruct (stream_end rs); exact (fun H => H). }
  apply in_app_iff in Hin. destruct Hin as [Hin | [Hin | []]].
  - now apply mediaCalls_no_stream in Hin.
  - inversion Hin. repeat split; eauto.
Qed.

End SubmitFacts.

Section SubmitTheorems.

Variable SYSTEM_PROMPT : string.

(** Every run either leaves the application state alone without reaching
    the end of a stream, or reaches the end of exactly one stream and
    commits according to the accumulated text. *)
Lemma handleSubmit_cases p w view st :
  let r := handleSubmit SYSTEM_PROMPT p w view st in
  (r_app r = st /\ forall s, ~ completedWith w r s)
  \/ exists s,
       completedWith w r s
       /\ (forall s', completedWith w r s' -> s' = s)
       /\ shownPrompt (r_view r) = concatAll (fragments s)
       /\ r_app r =
            if truthy (concatAll (fragments s))
            then setHistory
                   (cons (newHistoryItem p w
                            (allReferencedTemplates (templates st)
                               (p_selectedTags p) (p_selectedBundles p)
                               (p_selectedIndividualTemplates p))
                            (concatAll (fragments s))))
                   st
            else st.
Proof.
  intros r.
  assert (Hcall := handleSubmit_stream_call SYSTEM_PROMPT p w view st).
  fold r in Hcall. revert Hcall. unfold r, handleSubmit, completedWith.
  destruct (noInput p).
  { intros _. left. split; [reflexivity|]. intros s (req & [] & _). }
  destruct (truthy (apiKeyToUse _ _ _)); simpl.
  2:{ intros _. left. split; [reflexivity|]. intros s (req & [] & _). }
  destruct (convertMedia p w) as [msg|md] eqn:Emedia.
  { intros Hcall. left. split; [reflexivity|].
    intros s (req & Hin & _). destruct (Hcall _ Hin) as (_ & _ & md & E & _).
    discriminate. }
  set (request := streamEnhancePrompt SYSTEM_PROMPT _).
  destruct (generateContentStream w request) as [msg|rs] eqn:Ecall.
  { intros Hcall. left. split; [reflexivity|].
    intros s (req & Hin & Hs & _).
    destruct (Hcall _ Hin) as (_ & _ & md' & E & ->).
    inversion E; subst md'. fold request in Hs. congruence. }
  rewrite consumeChunks_fragments. simpl.
  destruct (stream_end rs) eqn:Eend.
  - intros Hcall. right. exists rs. simpl. repeat split.
    + exists request. repeat split; [|assumption..].
      apply in_app_iff. right. simpl. auto.
    + intros s' (req & Hin & Hs & _).
      destruct (Hcall _ Hin) as (_ & _ & md' & E & ->).
      inversion E; subst md'. fold request in Hs. congruence.
  - intros Hcall. left. split; [reflexivity|].
    intros s (req & Hin & Hs & Hend).
    destruct (Hcall _ Hin) as (_ & _ & md' & E & ->).
    inversion E; subst md'. fold request in Hs. congruence.
Qed.

(** C2. A run of [handleSubmit] adds a history record exactly when it
    reaches the end of its response stream with non-empty accumulated text.
    The record is then the only one added (it is placed in front of the
    previous history, which is kept), and its [generatedPrompt], like the
    shown prompt, is the concatenation of the stream's text fragments in
    arrival order. In every other run (no fragments or only empty ones,
    a stream that throws, a failing call or media conversion, a missing
    key or missing input) the application state, memory and store, is
    unchanged. *)
Theorem history_record_iff_stream_completes
    (p : PrompterProps) (w : SubmitWorld) (view : PrompterState)
    (st : AppState) :
  let r := handleSubmit SYSTEM_PROMPT p w view st in
  (forall s, completedWith w r s -> concatAll (fragments s) <> EmptyString ->
     exists item,
       r_app r = setHistory (cons item) st
       /\ history (r_app r) = item :: history st
       /\ generatedPrompt item = concatAll (fragments s)
       /\ shownPrompt (r_view r) = concatAll (fragments s))
  /\ ((forall s, completedWith w r s -> concatAll (fragments s) = EmptyString) ->
      r_app r = st)
  /\ (List.length (history (r_app r)) = S (List.length (history st))
      <-> exists s, completedWith w r s
                    /\ concatAll (fragments s) <> EmptyString).
Proof.
  intros r. destruct (handleSubmit_cases p w view st) as [[Hst Hno] | Hdone];
    fold r in Hst, Hno || fold r in Hdone.
  - repeat split.
    + intros s Hs. now apply Hno in Hs.
    + intros _. exact Hst.
    + rewrite Hst. intros H. lia.
    + intros (s & Hs & _). now apply Hno in Hs.
  - destruct Hdone as (s & Hs & Huniq & Hshown & Happ).
    destruct (truthy (concatAll (fragments s))) eqn:Etext.
    + apply truthy_true in Etext. repeat split.
      * intros s' Hs' _. rewrite (Huniq _ Hs').
        eexists. split; [exact Happ|]. rewrite Happ. simpl. auto.
      * intros Hempty. now apply Hempty in Hs.
      * intros _. exists s. auto.
      * intros _. rewrite Happ. reflexivity.
    + apply truthy_false in Etext. repeat split.
      * intros s' Hs' Hne. rewrite (Huniq _ Hs') in Hne. contradiction.
      * intros _. exact Happ.
      * rewrite Happ. intros H. lia.
      * intros (s' & Hs' & Hne). rewrite (Huniq _ Hs') in Hne. contradiction.
Qed.

(** With an empty key no call is issued and nothing changes; no run issues
    more than one streaming call. *)
Lemma handleSubmit_missing_key
    (p : PrompterProps) (w : SubmitWorld) (view : PrompterState)
    (st : AppState) :
  let r := handleSubmit SYSTEM_PROMPT p w view st in
  (apiKeyToUse (p_isAistudio p) (settings st) (env_API_KEY w) = EmptyString ->
     r_calls r = [] /\ r_app r = st
     /\ (noInput p = false ->
         r_view r =
           {| isLoading := false; shownPrompt := EmptyString;
              error := Some "API Key is missing. Please configure it in settings." |}))
  /\ streamCalls (r_calls r) <= 1.
Proof.
  intros r. unfold r, handleSubmit. split.
  - intros ->. simpl. destruct (noInput p); simpl; repeat split; congruence.
  - destruct (noInput p); [unfold streamCalls; simpl; lia|].
    destruct (truthy (apiKeyToUse _ _ _)); simpl; [|unfold streamCalls; simpl; lia].
    destruct (convertMedia p w) as [msg|md]; simpl.
    { rewrite streamCalls_mediaCalls. lia. }
    assert (forall c, streamCalls (mediaCalls p ++ [CallGenerateContentStream c])%list = 1)
      as Hone.
    { intros c. now rewrite streamCalls_app, streamCalls_mediaCalls. }
    destruct (generateContentStream w _) as [msg|rs]; simpl; [now rewrite Hone|].
    destruct (stream_end rs); simpl; now rewrite Hone.
Qed.

End SubmitTheorems.

(** ** Batch metadata *)

Lemma generateBatchTemplateMetadata_ok (ps : list string)
    (response : BatchResponse) (l : list Metadata) :
  generateBatchTemplateMetadata ps response = inr l
  <-> response = BatchTemplates l /\ List.length l = List.length ps.
Proof.
  unfold generateBatchTemplateMetadata.
  destruct response as [msg|msg| |l']; try (split; [discriminate | intros [[=] _]]).
  destruct (Nat.eqb (List.length l') (List.length ps)) eqn:E; simpl.
  - apply Nat.eqb_eq in E. split.
    + intros [= ->]. auto.
    + intros [[= ->] _]. reflexivity.
  - apply Nat.eqb_neq in E. split; [discriminate|].
    intros [[= ->] H]. contradiction.
Qed.

Lemma newTemplatesFrom_spec (uuid : nat -> string) (ps : list string)
    (md : list Metadata) (index : nat) :
  index + List.length ps <= List.length md ->
  exists ts,
    newTemplatesFrom uuid index ps md = Some ts
    /\ List.length ts = List.length ps
    /\ forall i, i < List.length ps ->
         exists p m t,
           nth_error ps i = Some p /\ nth_error md (index + i) = Some m
           /\ nth_error ts i = Some t
           /\ prompt t = p /\ title t = m_title m
           /\ description t = m_description m /\ tags t = m_tags m
           /\ t_id t = uuid (index + i).
Proof.
  revert index. induction ps as [|p ps IH]; intros index Hlen; simpl in *.
  - exists []. repeat split. intros i Hi. lia.
  - destruct (nth_error md index) as [m|] eqn:Em.
    2:{ apply nth_error_None in Em. lia. }
    destruct (IH (S index)) as (ts & -> & Hts & Hnth); [lia|].
    eexists. split; [reflexivity|]. split; [simpl; lia|].
    intros [|i] Hi.
    + exists p, m. eexists. rewrite Nat.add_0_r. simpl. repeat split; auto.
    + destruct (Hnth i) as (p' & m' & t & H1 & H2 & H3 & H4); [lia|].
      exists p', m', t. replace (index + S i) with (S index + i) by lia.
      simpl. auto.
Qed.

Section BatchFacts.

Variable trim : string -> string.

(** C5. For a batch over the N non-empty prompt bodies, one metadata request
    is sent. If the response carries a number of results other than N, the
    call fails with the mismatch error, the failure is shown, and neither the
    templates nor anything else in memory or store changes; more generally
    nothing is saved whenever the metadata call fails. If it carries N results,
    exactly N templates are put in front of the existing ones, the i-th made
    of the i-th prompt and the i-th result. *)
Theorem batch_count_mismatch_saves_nothing
    (isAistudio : bool) (existingTags : list string) (w : BatchWorld)
    (m : BatchModalState) (st : AppState) :
  let ps := nonEmptyPromptsOf trim m in
  let key := apiKeyToUse isAistudio (settings st) (batch_API_KEY w) in
  let request :=
    {| br_prompts := ps; br_guidance := guidance m;
       br_existingTags := existingTags; br_apiKey := key |} in
  let r := handleGenerateAndSave trim isAistudio existingTags w m st in
  ps <> [] -> key <> EmptyString ->
  b_calls r = [request]
  /\ (forall l, generateContent w request = BatchTemplates l ->
        List.length l <> List.length ps ->
        generateBatchTemplateMetadata ps (generateContent w request)
        = inl "AI returned a mismatched number of templates."
        /\ b_app r =
             showToast
               {| message := "AI returned a mismatched number of templates.";
                  toast_type := ToastError |} st
        /\ templates (b_app r) = templates st /\ db (b_app r) = db st
        /\ isOpen (b_modal r) = isOpen m)
  /\ (forall msg,
        generateBatchTemplateMetadata ps (generateContent w request) = inl msg ->
        templates (b_app r) = templates st /\ db (b_app r) = db st)
  /\ (forall l, generateContent w request = BatchTemplates l ->
        List.length l = List.length ps ->
        exists newTemplates,
          templates (b_app r) = (newTemplates ++ templates st)%list
          /\ List.length newTemplates = List.length ps
          /\ forall i, i < List.length ps ->
               exists p md t,
                 nth_error ps i = Some p /\ nth_error l i = Some md
                 /\ nth_error newTemplates i = Some t
                 /\ prompt t = p /\ title t = m_title md
                 /\ description t = m_description md /\ tags t = m_tags md).
Proof.
  intros ps key request r Hps Hkey.
  assert (Hr : r =
    match generateBatchTemplateMetadata ps (generateContent w request) with
    | inl msg =>
        {| b_modal := set_isGenerating false m;
           b_app := showToast
                      {| message := str_or msg "Failed to generate metadata.";
                         toast_type := ToastError |} st;
           b_calls := [request] |}
    | inr metadataArray =>
        match newTemplatesFrom (batchUUID w) 0 ps metadataArray with
        | None =>
            {| b_modal := set_isGenerating false m;
               b_app := showToast
                          {| message :=
                               str_or "Cannot read properties of undefined (reading 'title')"
                                 "Failed to generate metadata.";
                             toast_type := ToastError |} st;
               b_calls := [request] |}
        | Some newTemplates =>
            {| b_modal := set_isGenerating false (closeModal m);
               b_app := handleSaveBatchTemplates newTemplates st;
               b_calls := [request] |}
        end
    end).
  { unfold r, handleGenerateAndSave. fold ps. fold key. fold request.
    destruct ps as [|p0 ps0] eqn:Eps; [contradiction|].
    replace (Nat.eqb (List.length (p0 :: ps0)) 0) with false by reflexivity.
    apply truthy_true in Hkey. rewrite Hkey. reflexivity. }
  split.
  { rewrite Hr. destruct (generateBatchTemplateMetadata _ _); [reflexivity|].
    destruct (newTemplatesFrom _ _ _ _); reflexivity. }
  split.
  { intros l Hl Hne.
    assert (E : generateBatchTemplateMetadata ps (generateContent w request)
                = inl "AI returned a mismatched number of templates.").
    { rewrite Hl. unfold generateBatchTemplateMetadata.
      apply Nat.eqb_neq in Hne. now rewrite Hne. }
    rewrite Hr, E. repeat split. }
  split.
  { intros msg E. rewrite Hr, E. split; reflexivity. }
  intros l Hl Hlen.
  assert (E : generateBatchTemplateMetadata ps (generateContent w request) = inr l).
  { apply generateBatchTemplateMetadata_ok. auto. }
  destruct (newTemplatesFrom_spec (batchUUID w) ps l 0) as (ts & Ets & Hts & Hnth);
    [simpl; lia|].
  rewrite Hr, E, Ets. exists ts. repeat split; [assumption|].
  intros i Hi. destruct (Hnth i Hi) as (p & md & t & H1 & H2 & H3 & H4 & H5 & H6 & H7 & _).
  exists p, md, t. auto 10.
Qed.

(** With an empty key the batch sends no metadata request and saves
    nothing; no run sends more than one request. *)
Lemma handleGenerateAndSave_missing_key
    (isAistudio : bool) (existingTags : list string) (w : BatchWorld)
    (m : BatchModalState) (st : AppState) :
  let r := handleGenerateAndSave trim isAistudio existingTags w m st in
  (apiKeyToUse isAistudio (settings st) (batch_API_KEY w) = EmptyString ->
     b_calls r = [] /\ templates (b_app r) = templates st /\ db (b_app r) = db st
     /\ (nonEmptyPromptsOf trim m <> [] ->
         b_app r =
           showToast
             {| message := "API Key is missing. Please configure it in settings.";
                toast_type := ToastError |} st))
  /\ List.length (b_calls r) <= 1.
Proof.
  intros r. unfold r, handleGenerateAndSave. split.
  - intros ->. simpl.
    destruct (nonEmptyPromptsOf trim m); simpl; repeat split; congruence.
  - destruct (Nat.eqb _ 0); [simpl; lia|].
    destruct (negb _); [simpl; lia|].
    destruct (generateBatchTemplateMetadata _ _); [simpl; lia|].
    destruct (newTemplatesFrom _ _ _ _); simpl; lia.
Qed.

End BatchFacts.

(** ** Local Store *)

Section StoreFacts.
Context {A : Type} (id : A -> string).
Implicit Types (l : list A) (s : gmap string A) (k : string).

Lemma lookup_put_all l s k :
  fold_left (fun acc item => <[id item := item]> acc) l s !! k
  = fold_left (fun acc item => if String.eqb (id item) k then Some item else acc)
      l (s !! k).
Proof.
  revert s. induction l as [|a l IH]; intros s; simpl; [reflexivity|].
  rewrite IH. f_equal.
  destruct (String.eqb (id a) k) eqn:E.
  - apply String.eqb_eq in E. subst k. apply lookup_insert_eq.
  - apply String.eqb_neq in E. now apply lookup_insert_ne.
Qed.

Lemma last_match_inv l (o : option A) k x :
  fold_left (fun acc item => if String.eqb (id item) k then Some item else acc) l o
  = Some x ->
  (In x l /\ id x = k) \/ o = Some x.
Proof.
  revert o. induction l as [|a l IH]; intros o; simpl; [auto|].
  intros H. destruct (IH _ H) as [[H1 H2] | H1]; [auto|].
  destruct (String.eqb (id a) k) eqn:E; [|auto].
  inversion H1; subst. apply String.eqb_eq in E. auto.
Qed.

Lemma last_match_absent l (o : option A) k :
  ~ In k (List.map id l) ->
  fold_left (fun acc item => if String.eqb (id item) k then Some item else acc) l o
  = o.
Proof.
  revert o. induction l as [|a l IH]; intros o; simpl; [reflexivity|].
  intros H. rewrite IH by tauto.
  destruct (String.eqb (id a) k) eqn:E; [|reflexivity].
  apply String.eqb_eq in E. tauto.
Qed.

Lemma last_match_app l1 l2 (o : option A) k :
  ~ In k (List.map id l2) ->
  fold_left (fun acc item => if String.eqb (id item) k then Some item else acc)
    (l1 ++ l2)%list o
  = fold_left (fun acc item => if String.eqb (id item) k then Some item else acc)
      l1 o.
Proof. intros H. rewrite fold_left_app. now apply last_match_absent. Qed.

(** Every listed record's identifier is a key of the store. *)
Lemma setStoreData_is_Some l s x :
  In x l -> is_Some (setStoreData id l s !! id x).
Proof.
  intros Hin. unfold setStoreData, clearStore. rewrite lookup_put_all.
  assert (Hk : In (id x) (List.map id l)) by now apply List.in_map.
  clear Hin. revert Hk. generalize ((∅ : gmap string A) !! id x).
  induction l as [|a l IH]; intros o Hk; [destruct Hk|]. simpl.
  destruct (in_dec string_dec (id x) (List.map id l)) as [Hl | Hl].
  - now apply IH.
  - destruct Hk as [E | Hk]; [|contradiction].
    rewrite last_match_absent by exact Hl.
    rewrite E, String.eqb_refl. eauto.
Qed.

Lemma setStoreData_ignores_old l s s' :
  setStoreData id l s = setStoreData id l s'.
Proof. reflexivity. Qed.

Lemma setStoreData_well_keyed l s : well_keyed id (setStoreData id l s).
Proof.
  intros k x. unfold setStoreData, clearStore. rewrite lookup_put_all.
  intros H. apply last_match_inv in H. destruct H as [[_ H] | H]; [exact H|].
  rewrite lookup_empty in H. discriminate.
Qed.

(** With distinct identifiers the store holds exactly the listed records. *)
Lemma setStoreData_lookup_NoDup l s k x :
  List.NoDup (List.map id l) ->
  setStoreData id l s !! k = Some x <-> In x l /\ id x = k.
Proof.
  intros Hnd. unfold setStoreData, clearStore. rewrite lookup_put_all, lookup_empty.
  split.
  - intros H. apply last_match_inv in H. destruct H as [H | H]; [exact H|discriminate].
  - intros [Hin <-]. generalize (@None A).
    induction l as [|a l IH]; [destruct Hin|]. intros o. simpl in *.
    apply List.NoDup_cons_iff in Hnd. destruct Hnd as [Hna Hnd].
    destruct Hin as [-> | Hin].
    + rewrite String.eqb_refl. now apply last_match_absent.
    + now apply IH.
Qed.

Lemma getStoreData_In s x :
  well_keyed id s -> (In x (getStoreData s) <-> s !! id x = Some x).
Proof.
  intros Hk. unfold getStoreData. rewrite in_map_iff. split.
  - intros ([k y] & <- & Hin). simpl.
    apply list_elem_of_In, elem_of_map_to_list in Hin.
    now rewrite (Hk _ _ Hin).
  - intros H. exists (id x, x). split; [reflexivity|].
    now apply list_elem_of_In, elem_of_map_to_list.
Qed.

Lemma getStoreData_NoDup s :
  well_keyed id s -> List.NoDup (List.map id (getStoreData s)).
Proof.
  intros Hk. unfold getStoreData. rewrite List.map_map.
  assert (E : List.map (fun x => id (snd x)) (map_to_list s)
              = List.map fst (map_to_list s)).
  { apply List.map_ext_in. intros [k y] Hin. simpl.
    apply list_elem_of_In, elem_of_map_to_list in Hin. now apply Hk. }
  rewrite E. apply NoDup_ListNoDup. apply (NoDup_fst_map_to_list s).
Qed.

(** Writing back what was read from a store restores the store. *)
Lemma setStoreData_getStoreData s s' :
  well_keyed id s -> setStoreData id (getStoreData s) s' = s.
Proof.
  intros Hk. apply map_eq. intros k. apply option_eq. intros x.
  rewrite setStoreData_lookup_NoDup by now apply getStoreData_NoDup.
  rewrite getStoreData_In by assumption. split.
  - intros [H <-]. exact H.
  - intros H. rewrite (Hk _ _ H). auto.
Qed.

(** Dropping the records of one identifier from the written list deletes
    that key from the store. *)
Lemma put_all_filter_delete l s d :
  fold_left (fun acc item => <[id item := item]> acc)
    (List.filter (fun t => negb (String.eqb (id t) d)) l) (delete d s)
  = delete d (fold_left (fun acc item => <[id item := item]> acc) l s).
Proof.
  revert s. induction l as [|a l IH]; intros s; simpl; [reflexivity|].
  destruct (String.eqb (id a) d) eqn:E; simpl.
  - apply String.eqb_eq in E. subst d.
    rewrite <- IH. now rewrite delete_insert_eq.
  - apply String.eqb_neq in E.
    rewrite <- IH. rewrite delete_insert_ne by congruence. reflexivity.
Qed.

Lemma setStoreData_filter_delete l s s' d :
  setStoreData id (List.filter (fun t => negb (String.eqb (id t) d)) l) s
  = delete d (setStoreData id l s').
Proof.
  unfold setStoreData, clearStore. rewrite <- put_all_filter_delete.
  now rewrite delete_empty.
Qed.

End StoreFacts.

(** ** Import *)

Lemma filter_all_false {A : Type} (f : A -> bool) (l : list A) :
  (forall x, In x l -> f x = false) -> List.filter f l = [].
Proof.
  induction l as [|a l IH]; simpl; [reflexivity|].
  intros H. rewrite (H a) by auto. apply IH. auto.
Qed.

Lemma importMerge_idempotent {A : Type} (id : A -> string) (incoming prev : list A) :
  importMerge id incoming (importMerge id incoming prev)
  = importMerge id incoming prev.
Proof.
  unfold importMerge at 1. rewrite filter_all_false; [apply app_nil_r|].
  intros x Hin. apply negb_false_iff, includes_In.
  unfold importMerge. rewrite List.map_app, in_app_iff.
  destruct (includes (List.map id prev) (id x)) eqn:E.
  - left. now apply includes_In.
  - right. apply List.in_map, filter_In. split; [assumption|].
    now rewrite E.
Qed.

Lemma importMerge_keepsAndAdds {A : Type} (id : A -> string)
    (items prev : list A) :
  keepsAndAdds id (FieldArray items) prev (importMerge id items prev).
Proof.
  eexists. split; [reflexivity|]. intros x Hx. apply filter_In in Hx.
  destruct Hx as [Hin Hx]. apply negb_true_iff, includes_not_In in Hx. eauto.
Qed.

Lemma keepsAndAdds_refl {A : Type} (id : A -> string) (f : Field A)
    (prev : list A) : keepsAndAdds id f prev prev.
Proof. exists []. split; [now rewrite app_nil_r | intros x []]. Qed.

(** What the existing identifiers map to in the store is not overwritten. *)
Lemma setStoreData_merge_subseteq {A : Type} (id : A -> string)
    (items prev : list A) (s s' : gmap string A) :
  setStoreData id prev s ⊆ setStoreData id (importMerge id items prev) s'.
Proof.
  apply map_subseteq_spec. intros k x.
  unfold setStoreData, clearStore, importMerge.
  rewrite !lookup_put_all, lookup_empty. intros H.
  rewrite last_match_app; [exact H|].
  apply last_match_inv in H. destruct H as [[Hin <-] | H]; [|discriminate].
  rewrite in_map_iff. intros (y & Ey & Hy). apply filter_In in Hy.
  destruct Hy as [_ Hy]. apply negb_true_iff, includes_not_In in Hy.
  apply Hy. rewrite Ey. now apply List.in_map.
Qed.

Lemma importArrays_fields (o : Options) (d : Document) (st : AppState) :
  let st' := importBundles o d (importTemplates o d (importHistory o d st)) in
  settings st' = settings st
  /\ history st' = mergedList h_id (opt_history o) (doc_history d) (history st)
  /\ templates st'
     = mergedList t_id (opt_templates o) (doc_templates d) (templates st)
  /\ bundles st' = mergedList b_id (opt_bundles o) (doc_bundles d) (bundles st)
  /\ store_settings (db st') = store_settings (db st)
  /\ store_history (db st')
     = mergedStore h_id (opt_history o) (doc_history d) (history st)
         (store_history (db st))
  /\ store_templates (db st')
     = mergedStore t_id (opt_templates o) (doc_templates d) (templates st)
         (store_templates (db st))
  /\ store_bundles (db st')
     = mergedStore b_id (opt_bundles o) (doc_bundles d) (bundles st)
         (store_bundles (db st))
  /\ toasts st' = toasts st.
Proof.
  unfold importBundles, importTemplates, importHistory, mergedList, mergedStore.
  destruct (opt_history o), (opt_templates o), (opt_bundles o),
    (doc_history d), (doc_templates d), (doc_bundles d); simpl;
    repeat split; reflexivity.
Qed.

Lemma importSettings_fields (o : Options) (d : Document) (st st1 : AppState) :
  importSettings o d st = Some st1 ->
  history st1 = history st /\ templates st1 = templates st
  /\ bundles st1 = bundles st
  /\ store_history (db st1) = store_history (db st)
  /\ store_templates (db st1) = store_templates (db st)
  /\ store_bundles (db st1) = store_bundles (db st)
  /\ toasts st1 = toasts st
  /\ ((settings st1 = settings st /\ store_settings (db st1) = store_settings (db st)
       /\ (opt_settings o = false \/ doc_settings d = SettingsAbsent
           \/ doc_settings d = SettingsFalsy))
      \/ exists key value,
           opt_settings o = true /\ doc_settings d = SettingsEntry key value
           /\ settings st1 = value
           /\ store_settings (db st1)
              = <[user_settings_key := value]>
                  (<[key := value]> (store_settings (db st)))).
Proof.
  unfold importSettings.
  destruct (opt_settings o); [|intros [= <-]; repeat split; auto].
  destruct (doc_settings d) as [| | |key value]; try discriminate;
    intros [= <-]; repeat split; auto 10.
  right. exists key, value. repeat split.
Qed.

Lemma insert_twice_idempotent {A : Type} (k1 k2 : string) (v : A)
    (s : gmap string A) :
  <[k1 := v]> (<[k2 := v]> (<[k1 := v]> (<[k2 := v]> s)))
  = <[k1 := v]> (<[k2 := v]> s).
Proof.
  apply map_eq. intros k. rewrite !lookup_insert.
  repeat case_decide; congruence.
Qed.

Lemma LocalStore_ext (s s' : LocalStore) :
  store_settings s = store_settings s' -> store_history s = store_history s' ->
  store_templates s = store_templates s' -> store_bundles s = store_bundles s' ->
  s = s'.
Proof. destruct s, s'. simpl. now intros -> -> -> ->. Qed.

Lemma mergedList_idempotent {A : Type} (id : A -> string) (selected : bool)
    (f : Field A) (prev : list A) :
  mergedList id selected f (mergedList id selected f prev)
  = mergedList id selected f prev.
Proof.
  unfold mergedList. destruct selected; [|reflexivity].
  destruct f; try reflexivity. apply importMerge_idempotent.
Qed.

Lemma mergedStore_idempotent {A : Type} (id : A -> string) (selected : bool)
    (f : Field A) (prev : list A) (s : gmap string A) :
  mergedStore id selected f (mergedList id selected f prev)
    (mergedStore id selected f prev s)
  = mergedStore id selected f prev s.
Proof.
  unfold mergedStore, mergedList. destruct selected; [|reflexivity].
  destruct f; try reflexivity.
  rewrite importMerge_idempotent. reflexivity.
Qed.

Lemma mergedList_keepsAndAdds {A : Type} (id : A -> string) (selected : bool)
    (f : Field A) (prev : list A) :
  keepsAndAdds id f prev (mergedList id selected f prev).
Proof.
  unfold mergedList. destruct selected; [|apply keepsAndAdds_refl].
  destruct f; try apply keepsAndAdds_refl. apply importMerge_keepsAndAdds.
Qed.

Lemma merged_addsUnseen {A : Type} (id : A -> string) (f : Field A)
    (prev : list A) (s : gmap string A) :
  addsUnseen id f prev (mergedList id true f prev) (mergedStore id true f prev s).
Proof.
  intros items ->. unfold mergedList, mergedStore.
  assert (Hin : forall x, In x (importMerge id items prev)
                          <-> In x prev
                              \/ (In x items /\ ~ In (id x) (List.map id prev))).
  { intros x. unfold importMerge. rewrite in_app_iff, filter_In, negb_true_iff.
    now rewrite includes_not_In. }
  split; [exact Hin|]. split; [reflexivity|]. split; [reflexivity|].
  intros x Hx Hn. apply setStoreData_is_Some. apply Hin. auto.
Qed.

Lemma mergedStore_subseteq {A : Type} (id : A -> string) (selected : bool)
    (f : Field A) (prev : list A) (s : gmap string A) :
  s = setStoreData id prev ∅ -> s ⊆ mergedStore id selected f prev s.
Proof.
  intros Hs. unfold mergedStore. destruct selected; [|reflexivity].
  destruct f; try reflexivity. rewrite Hs at 1.
  apply setStoreData_merge_subseteq.
Qed.

Lemma importSettings_None (o : Options) (d : Document) (st : AppState) :
  importSettings o d st = None
  <-> opt_settings o = true /\ doc_settings d = SettingsUnkeyed.
Proof.
  unfold importSettings.
  destruct (opt_settings o), (doc_settings d); split;
    try discriminate; try tauto; intros [? ?]; discriminate.
Qed.

(** C3. An import of a parsed document keeps, in each of history, templates
    and bundles, all existing records as they are and adds only incoming
    records whose identifier no existing record has; in the store, no
    record of a state written through is overwritten. Unless the settings
    step aborts it, the import does add them: for a selected collection
    whose value in the file is an array, the result is the existing records
    followed by every record of the file whose identifier no existing
    record has, and the store is the write-through of that list, so each of
    these identifiers is a key of it. Importing the same document again
    changes none of the four collections, in memory or in the store. *)
Theorem import_keeps_existing_and_is_idempotent
    (o : Options) (d : Document) (st : AppState) :
  let st1 := handleImportFileChange o (FileObject d) st in
  let st2 := handleImportFileChange o (FileObject d) st1 in
  keepsAndAdds h_id (doc_history d) (history st) (history st1)
  /\ keepsAndAdds t_id (doc_templates d) (templates st) (templates st1)
  /\ keepsAndAdds b_id (doc_bundles d) (bundles st) (bundles st1)
  /\ (in_sync st ->
      store_history (db st) ⊆ store_history (db st1)
      /\ store_templates (db st) ⊆ store_templates (db st1)
      /\ store_bundles (db st) ⊆ store_bundles (db st1))
  /\ (~ (opt_settings o = true /\ doc_settings d = SettingsUnkeyed) ->
      (opt_history o = true ->
       addsUnseen h_id (doc_history d) (history st) (history st1)
         (store_history (db st1)))
      /\ (opt_templates o = true ->
          addsUnseen t_id (doc_templates d) (templates st) (templates st1)
            (store_templates (db st1)))
      /\ (opt_bundles o = true ->
          addsUnseen b_id (doc_bundles d) (bundles st) (bundles st1)
            (store_bundles (db st1))))
  /\ sameCollections st1 st2.
Proof.
  intros st1 st2. unfold st2, st1, handleImportFileChange.
  destruct (importSettings o d st) as [sa|] eqn:Ea.
  2:{ apply importSettings_None in Ea.
      assert (Eb : importSettings o d (importFailed st) = None)
        by now apply importSettings_None.
      rewrite Eb. simpl. unfold sameCollections.
      do 3 (split; [apply keepsAndAdds_refl|]).
      split; [intros _; repeat split; reflexivity|].
      split; [intros Hn; contradiction|].
      repeat split; reflexivity. }
  destruct (importArrays_fields o d sa)
    as (Hs1 & Hh1 & Ht1 & Hb1 & Hss1 & Hsh1 & Hst1 & Hsb1 & _).
  destruct (importSettings_fields o d st sa Ea)
    as (Hha & Hta & Hba & Hsha & Hsta & Hsba & _ & Hseta).
  set (sx := importBundles o d (importTemplates o d (importHistory o d sa))) in *.
  assert (Hh : history (importSucceeded sx)
               = mergedList h_id (opt_history o) (doc_history d) (history st))
    by (simpl; congruence).
  assert (Ht : templates (importSucceeded sx)
               = mergedList t_id (opt_templates o) (doc_templates d) (templates st))
    by (simpl; congruence).
  assert (Hb : bundles (importSucceeded sx)
               = mergedList b_id (opt_bundles o) (doc_bundles d) (bundles st))
    by (simpl; congruence).
  split; [rewrite Hh; apply mergedList_keepsAndAdds|].
  split; [rewrite Ht; apply mergedList_keepsAndAdds|].
  split; [rewrite Hb; apply mergedList_keepsAndAdds|].
  split.
  { intros (Sh & St & Sb). simpl.
    rewrite Hsh1, Hst1, Hsb1, Hha, Hta, Hba, Hsha, Hsta, Hsba.
    repeat split; apply mergedStore_subseteq; assumption. }
  split.
  { intros _. rewrite Hh, Ht, Hb. simpl.
    rewrite Hsh1, Hst1, Hsb1, Hha, Hta, Hba.
    split; [|split]; intros ->; apply merged_addsUnseen. }
  destruct (importSettings o d (importSucceeded sx)) as [sb|] eqn:Eb.
  2:{ apply importSettings_None in Eb. apply (importSettings_None o d st) in Eb.
      congruence. }
  destruct (importArrays_fields o d sb)
    as (Hs2 & Hh2 & Ht2 & Hb2 & Hss2 & Hsh2 & Hst2 & Hsb2 & _).
  destruct (importSettings_fields o d _ sb Eb)
    as (Hhb & Htb & Hbb & Hshb & Hstb & Hsbb & _ & Hsetb).
  set (sy := importBundles o d (importTemplates o d (importHistory o d sb))) in *.
  unfold sameCollections. simpl in *.
  assert (Hset : settings sy = settings sx
                 /\ store_settings (db sy) = store_settings (db sx)).
  { rewrite Hs2, Hs1, Hss2, Hss1.
    destruct Hseta as [(Ea1 & Ea2 & Ea3) | (k & v & Ea1 & Ea2 & Ea3 & Ea4)];
      destruct Hsetb as [(Eb1 & Eb2 & Eb3) | (k' & v' & Eb1 & Eb2 & Eb3 & Eb4)].
    - rewrite Eb1, Eb2, Hs1, Hss1. auto.
    - exfalso. destruct Ea3 as [E | [E | E]]; congruence.
    - exfalso. destruct Eb3 as [E | [E | E]]; congruence.
    - assert (k' = k /\ v' = v) as [-> ->] by (split; congruence).
      rewrite Ea3, Eb3, Eb4, Hss1, Ea4. split; [reflexivity|].
      apply insert_twice_idempotent. }
  destruct Hset as [Hset1 Hset2].
  repeat split.
  - exact Hset1.
  - rewrite Hh2, Hhb, Hh1, Hha. apply mergedList_idempotent.
  - rewrite Ht2, Htb, Ht1, Hta. apply mergedList_idempotent.
  - rewrite Hb2, Hbb, Hb1, Hba. apply mergedList_idempotent.
  - apply LocalStore_ext.
    + exact Hset2.
    + rewrite Hsh2, Hhb, Hshb, Hh1, Hsh1. apply mergedStore_idempotent.
    + rewrite Hst2, Htb, Hstb, Ht1, Hst1. apply mergedStore_idempotent.
    + rewrite Hsb2, Hbb, Hsbb, Hb1, Hsb1. apply mergedStore_idempotent.
Qed.

Lemma importArrays_dropNonArrays (o : Options) (d : Document) (st : AppState) :
  importBundles o (dropNonArrays d)
    (importTemplates o (dropNonArrays d) (importHistory o (dropNonArrays d) st))
  = importBundles o d (importTemplates o d (importHistory o d st)).
Proof.
  unfold importBundles, importTemplates, importHistory, dropNonArrays. simpl.
  destruct (doc_history d), (doc_templates d), (doc_bundles d); reflexivity.
Qed.

(** C4, as the code has it. A file that is not JSON aborts the import:
    nothing is applied to any of the four collections, in memory or store,
    and one error notification is shown. A value under a selected array key
    that is not an array does not abort anything: the import proceeds as
    if the key were absent, so that collection stays as it was while the
    other selected collections are still applied, and unless the settings
    entry cannot be stored the import ends with the success notification. *)
Theorem import_malformed_aborts_non_array_skipped
    (o : Options) (d : Document) (st : AppState) :
  importAborted st (handleImportFileChange o FileMalformed st)
  /\ handleImportFileChange o (FileObject d) st
     = handleImportFileChange o (FileObject (dropNonArrays d)) st
  /\ (doc_history d = FieldNotArray ->
      history (handleImportFileChange o (FileObject d) st) = history st
      /\ store_history (db (handleImportFileChange o (FileObject d) st))
         = store_history (db st))
  /\ (doc_templates d = FieldNotArray ->
      templates (handleImportFileChange o (FileObject d) st) = templates st
      /\ store_templates (db (handleImportFileChange o (FileObject d) st))
         = store_templates (db st))
  /\ (doc_bundles d = FieldNotArray ->
      bundles (handleImportFileChange o (FileObject d) st) = bundles st
      /\ store_bundles (db (handleImportFileChange o (FileObject d) st))
         = store_bundles (db st))
  /\ (importSettings o d st <> None ->
      toasts (handleImportFileChange o (FileObject d) st)
      = {| message := "Data imported successfully!";
           toast_type := ToastSuccess |} :: toasts st).
Proof.
  split.
  { simpl. unfold importAborted, sameCollections. simpl. repeat split. eauto. }
  split.
  { unfold handleImportFileChange.
    change (importSettings o (dropNonArrays d) st) with (importSettings o d st).
    destruct (importSettings o d st) as [sa|]; [|reflexivity].
    now rewrite importArrays_dropNonArrays. }
  unfold handleImportFileChange.
  destruct (importSettings o d st) as [sa|] eqn:Ea.
  2:{ simpl. repeat split; try reflexivity. congruence. }
  destruct (importArrays_fields o d sa)
    as (_ & Hh1 & Ht1 & Hb1 & _ & Hsh1 & Hst1 & Hsb1 & Htoast).
  destruct (importSettings_fields o d st sa Ea)
    as (Hha & Hta & Hba & Hsha & Hsta & Hsba & Htoa & _).
  simpl. rewrite Hh1, Ht1, Hb1, Hsh1, Hst1, Hsb1, Htoast, Htoa.
  rewrite Hha, Hta, Hba, Hsha, Hsta, Hsba.
  unfold mergedList, mergedStore.
  repeat split;
    match goal with
    | E : _ = FieldNotArray |- _ =>
        rewrite E; now destruct (opt_history o), (opt_templates o), (opt_bundles o)
    end.
Qed.

(** Against C4 as stated: with a non-array under the selected key
    [history], the import is not aborted: the templates of the same file are applied and the success
    notification is shown. *)
Lemma import_non_array_not_aborted :
  opt_history allOptions = true
  /\ doc_history Sample.docNonArray = FieldNotArray
  /\ templates
       (handleImportFileChange allOptions (FileObject Sample.docNonArray)
          Sample.st0) = [Sample.t1]
  /\ templates Sample.st0 = []
  /\ toasts
       (handleImportFileChange allOptions (FileObject Sample.docNonArray)
          Sample.st0)
     = [{| message := "Data imported successfully!"; toast_type := ToastSuccess |}]
  /\ ~ importAborted Sample.st0
         (handleImportFileChange allOptions (FileObject Sample.docNonArray)
            Sample.st0).
Proof.
  assert (Et : templates
                 (handleImportFileChange allOptions (FileObject Sample.docNonArray)
                    Sample.st0) = [Sample.t1]) by reflexivity.
  assert (E0 : templates Sample.st0 = []) by reflexivity.
  repeat split; try reflexivity; try assumption.
  intros [(_ & _ & H & _) _]. rewrite Et, E0 in H. discriminate.
Qed.

(** ** Export, then import into an empty store *)

Lemma getStoreData_empty {A : Type} : getStoreData (∅ : gmap string A) = [].
Proof. unfold getStoreData. now rewrite map_to_list_empty. Qed.

Lemma importMerge_nil {A : Type} (id : A -> string) (items : list A) :
  importMerge id items [] = items.
Proof.
  unfold importMerge. simpl. induction items as [|a l IH]; simpl; congruence.
Qed.

Lemma loadState_empty (isAistudio : bool) :
  loadState isAistudio empty_store
  = {| settings := defaultSettings isAistudio; history := []; templates := [];
       bundles := []; db := empty_store; toasts := [] |}.
Proof.
  unfold loadState, loadArray, getSingleObject. simpl.
  now rewrite !getStoreData_empty, lookup_empty.
Qed.

Lemma handleExportData_keys (o : Options) (st : AppState) :
  noOption o = false ->
  exists doc, fst (handleExportData o st) = Some doc
              /\ topLevelKeys doc = selectedOptions o.
Proof.
  intros H. unfold handleExportData. rewrite H. eexists. split; [reflexivity|].
  unfold topLevelKeys, selectedOptions. simpl.
  destruct (opt_settings o), (opt_history o), (opt_templates o), (opt_bundles o);
    try reflexivity;
    destruct (getSingleObject (store_settings (db st)) user_settings_key);
    reflexivity.
Qed.

(** The settings option of the import dialog stays off. *)
Lemma importDialog_settings_off (clicks : list OptionKey) (o : Options) :
  opt_settings o = false ->
  opt_settings (fold_left (fun o k => importDialogToggle k o) clicks o) = false.
Proof.
  revert o. induction clicks as [|k clicks IH]; intros o H; simpl; [exact H|].
  apply IH. destruct k; simpl; exact H.
Qed.

(** [handleImportFileChange] with all four options on, which the import
    dialog never hands over: the import of the full export into the state
    of an empty store would reproduce the stored collections, the settings
    entry included. *)
Lemma export_all_import_all_options (isAistudio : bool) (st : AppState) :
  well_keyed h_id (store_history (db st)) ->
  well_keyed t_id (store_templates (db st)) ->
  well_keyed b_id (store_bundles (db st)) ->
  (forall o, noOption o = false ->
     exists doc, fst (handleExportData o st) = Some doc
                 /\ topLevelKeys doc = selectedOptions o)
  /\ exists doc,
       fst (handleExportData allOptions st) = Some doc
       /\ topLevelKeys doc = 4
       /\ let st' :=
            handleImportFileChange allOptions (FileObject doc)
              (loadState isAistudio empty_store) in
          store_history (db st') = store_history (db st)
          /\ store_templates (db st') = store_templates (db st)
          /\ store_bundles (db st') = store_bundles (db st)
          /\ store_settings (db st') !! user_settings_key
             = store_settings (db st) !! user_settings_key
          /\ settings st'
             = match store_settings (db st) !! user_settings_key with
               | Some v => v
               | None => defaultSettings isAistudio
               end
          /\ (forall x, In x (history st') <-> store_history (db st) !! h_id x = Some x)
          /\ (forall x, In x (templates st')
                        <-> store_templates (db st) !! t_id x = Some x)
          /\ (forall x, In x (bundles st') <-> store_bundles (db st) !! b_id x = Some x)
          /\ List.NoDup (List.map h_id (history st'))
          /\ List.NoDup (List.map t_id (templates st'))
          /\ List.NoDup (List.map b_id (bundles st'))
          /\ (in_sync st ->
              List.NoDup (List.map h_id (history st)) ->
              List.NoDup (List.map t_id (templates st)) ->
              List.NoDup (List.map b_id (bundles st)) ->
              (forall x, In x (history st') <-> In x (history st))
              /\ (forall x, In x (templates st') <-> In x (templates st))
              /\ (forall x, In x (bundles st') <-> In x (bundles st))).
Proof.
  intros Kh Kt Kb. split; [intros o; apply handleExportData_keys|].
  eexists. split; [reflexivity|].
  split.
  { unfold topLevelKeys. simpl. unfold getSingleObject.
    now destruct (store_settings (db st) !! user_settings_key). }
  cbv zeta. rewrite loadState_empty.
  set (doc := {| doc_settings := _ |}).
  set (st0 := {| settings := defaultSettings isAistudio |}).
  unfold handleImportFileChange.
  destruct (importSettings allOptions doc st0) as [sa|] eqn:Ea.
  2:{ apply importSettings_None in Ea. destruct Ea as [_ Ea]. exfalso.
      revert Ea. unfold doc. simpl.
      now destruct (getSingleObject (store_settings (db st)) user_settings_key). }
  destruct (importSettings_fields allOptions doc st0 sa Ea)
    as (Hha & Hta & Hba & Hsha & Hsta & Hsba & _ & Hseta).
  simpl. rewrite Hha, Hta, Hba. simpl. rewrite !importMerge_nil.
  rewrite !setStoreData_getStoreData by assumption.
  split; [reflexivity|]. split; [reflexivity|]. split; [reflexivity|].
  assert (Hset :
            store_settings (db sa) !! user_settings_key
            = store_settings (db st) !! user_settings_key
            /\ settings sa
               = match store_settings (db st) !! user_settings_key with
                 | Some v => v
                 | None => defaultSettings isAistudio
                 end).
  { revert Hseta. unfold doc. simpl. unfold getSingleObject.
    destruct (store_settings (db st) !! user_settings_key) as [v|] eqn:E.
    - intros [(_ & _ & [H | [H | H]]) | (k & v' & _ & H & -> & ->)];
        try discriminate.
      inversion H; subst. split; [apply lookup_insert_eq | reflexivity].
    - intros [(-> & -> & _) | (k & v' & _ & H & _)]; [|discriminate].
      split; [apply lookup_empty | reflexivity]. }
  destruct Hset as [Hset1 Hset2].
  split; [exact Hset1|]. split; [exact Hset2|].
  split; [intros x; now apply getStoreData_In|].
  split; [intros x; now apply getStoreData_In|].
  split; [intros x; now apply getStoreData_In|].
  split; [now apply getStoreData_NoDup|].
  split; [now apply getStoreData_NoDup|].
  split; [now apply getStoreData_NoDup|].
  intros (Sh & St & Sb) Nh Nt Nb.
  repeat split; intros H.
  - apply (getStoreData_In h_id) in H; [|assumption].
    rewrite Sh in H. now apply setStoreData_lookup_NoDup in H.
  - apply (getStoreData_In h_id); [assumption|].
    rewrite Sh. now apply setStoreData_lookup_NoDup.
  - apply (getStoreData_In t_id) in H; [|assumption].
    rewrite St in H. now apply setStoreData_lookup_NoDup in H.
  - apply (getStoreData_In t_id); [assumption|].
    rewrite St. now apply setStoreData_lookup_NoDup.
  - apply (getStoreData_In b_id) in H; [|assumption].
    rewrite Sb in H. now apply setStoreData_lookup_NoDup in H.
  - apply (getStoreData_In b_id); [assumption|].
    rewrite Sb. now apply setStoreData_lookup_NoDup.
Qed.




(** ** Generation Client: the request text *)

Lemma userRequestText_parts (r : StreamRequest) :
  userRequestText r
  = (match sr_referencedTemplates r with
     | Some refs =>
         if Nat.ltb 0 (List.length refs) then referenceBlock refs
         else EmptyString
     | None => EmptyString
     end)
    ++ creativeControls (sr_isJsonMode r) (sr_useMarsLsp r) (sr_style r)
         (sr_length r)
    ++ promptTail (sr_prompt r).
Proof.
  unfold userRequestText. destruct (sr_referencedTemplates r) as [refs|].
  - destruct (Nat.ltb 0 (List.length refs)).
    + change (EmptyString ++ referenceBlock refs) with (referenceBlock refs).
      apply str_app_assoc.
    + reflexivity.
  - reflexivity.
Qed.

Lemma streamEnhancePrompt_text (SYSTEM_PROMPT : string) (r : StreamRequest) :
  List.last (req_parts (streamEnhancePrompt SYSTEM_PROMPT r)) (TextPart EmptyString)
  = TextPart (userRequestText r).
Proof.
  unfold streamEnhancePrompt. simpl. now rewrite List.last_last.
Qed.

(** C7. The request text is the reference block (if any), the
    configuration footer, then the user's prompt. In the footer the line
    [length: <value>] is present exactly when JSON mode or MARS-LSP is on;
    with both off the footer has no [length:] at all; the lines for
    [jsonModeEnabled], [marsLspEnabled] and [style] are always there. *)
Theorem length_line_iff_json_or_mars (SYSTEM_PROMPT : string) (r : StreamRequest) :
  let footer :=
    creativeControls (sr_isJsonMode r) (sr_useMarsLsp r) (sr_style r)
      (sr_length r) in
  List.last (req_parts (streamEnhancePrompt SYSTEM_PROMPT r)) (TextPart EmptyString)
  = TextPart (userRequestText r)
  /\ (exists before,
        userRequestText r = before ++ footer ++ promptTail (sr_prompt r))
  /\ (In ("length: " ++ length_str (sr_length r)) (lines footer)
      <-> sr_isJsonMode r || sr_useMarsLsp r = true)
  /\ contains "length:" footer = sr_isJsonMode r || sr_useMarsLsp r
  /\ In ("jsonModeEnabled: " ++ bool_str (sr_isJsonMode r)) (lines footer)
  /\ In ("marsLspEnabled: " ++ bool_str (sr_useMarsLsp r)) (lines footer)
  /\ In ("style: " ++ style_str (sr_style r)) (lines footer).
Proof.
  intros footer. split; [apply streamEnhancePrompt_text|].
  split; [eexists; apply userRequestText_parts|].
  unfold footer.
  destruct (sr_isJsonMode r), (sr_useMarsLsp r), (sr_style r), (sr_length r);
    vm_compute; repeat split; auto 10; intuition discriminate.
Qed.

(** C8, as the code has it. Each reference is rendered as
    [--- REFERENCE TEMPLATE: "<title>" ---], a line feed, and the prompt
    body. For a non-empty reference list the request text starts with the
    instruction line, a blank line, the rendered references joined by blank
    lines, and another blank line, before the footer; for an empty or
    missing list the text starts with the footer. *)
Theorem reference_block_format (r : StreamRequest) :
  let footer :=
    creativeControls (sr_isJsonMode r) (sr_useMarsLsp r) (sr_style r)
      (sr_length r) in
  (forall t,
     templateReference t
     = "--- REFERENCE TEMPLATE: " ++ dquote ++ title t ++ dquote ++ " ---"
       ++ nl ++ prompt t)
  /\ (forall refs, sr_referencedTemplates r = Some refs -> refs <> [] ->
        userRequestText r
        = ("Use the following templates as creative inspiration:" ++ nl ++ nl
           ++ join (nl ++ nl) (List.map templateReference refs) ++ nl ++ nl)
          ++ footer ++ promptTail (sr_prompt r))
  /\ (sr_referencedTemplates r = None \/ sr_referencedTemplates r = Some [] ->
        userRequestText r = footer ++ promptTail (sr_prompt r)).
Proof.
  intros footer. split; [reflexivity|]. split.
  - intros refs E Hne. rewrite userRequestText_parts, E.
    destruct refs; [contradiction|]. reflexivity.
  - intros [E | E]; rewrite userRequestText_parts, E; reflexivity.
Qed.

(** Against C8 as stated: the rendering of a reference is not
    [REFERENCE TEMPLATE: <title>], a line feed and the body, and the request text does not contain that
    string either. *)
Lemma reference_format_is_not_plain :
  templateReference Sample.reference
  <> "REFERENCE TEMPLATE: " ++ title Sample.reference ++ nl
     ++ prompt Sample.reference
  /\ contains
       ("REFERENCE TEMPLATE: " ++ title Sample.reference ++ nl
        ++ prompt Sample.reference)
       (userRequestText Sample.request) = false
  /\ contains (templateReference Sample.reference)
       (userRequestText Sample.request) = true.
Proof. vm_compute. repeat split. discriminate. Qed.

(** ** Deleting a template *)

Lemma hydratedTemplates_In (allTemplates : list PromptTemplate)
    (item : HistoryItem) (t : PromptTemplate) :
  In t (hydratedTemplates allTemplates item) ->
  In t allTemplates /\ In (t_id t) (referencedTemplates item).
Proof.
  unfold hydratedTemplates. intros H.
  apply list_elem_of_In, list_elem_of_omap in H.
  destruct H as (i & Hi & Hget). apply list_elem_of_In in Hi.
  apply JsMapFacts.get_Some_In in Hget.
  unfold templatesById in Hget.
  apply JsMapFacts.In_of_entries, in_map_iff in Hget.
  destruct Hget as (x & E & Hx). inversion E; subst. auto.
Qed.

(** C10. Deleting a template removes from the templates the records with
    the deleted identifier and no other; bundles (with their [templateIds]),
    history and settings are the same in memory and in the store; the
    templates store is the write-through of the new list, which for a store
    that was the write-through of the old list means that exactly the
    deleted key is gone. Reading afterwards, neither a bundle's templates,
    nor the bundle part of the reference computation, nor the hydration of
    a history item yields the deleted identifier, whether or not a bundle or
    a history item still lists it. *)
Theorem delete_template_touches_templates_only
    (template : PromptTemplate) (st : AppState) :
  let st' := deleteTemplate template st in
  (forall t, In t (templates st')
             <-> In t (templates st) /\ t_id t <> t_id template)
  /\ bundles st' = bundles st
  /\ List.map templateIds (bundles st') = List.map templateIds (bundles st)
  /\ history st' = history st
  /\ settings st' = settings st
  /\ store_bundles (db st') = store_bundles (db st)
  /\ store_history (db st') = store_history (db st)
  /\ store_settings (db st') = store_settings (db st)
  /\ store_templates (db st') = setStoreData t_id (templates st') ∅
  /\ (store_templates (db st) = setStoreData t_id (templates st) ∅ ->
      store_templates (db st') = delete (t_id template) (store_templates (db st)))
  /\ (forall bundle,
        ~ In (t_id template)
            (List.map t_id (templatesForBundle (templates st') bundle)))
  /\ (forall selectedBundles,
        ~ In (t_id template)
            (List.map t_id (templatesFromBundles (templates st') selectedBundles)))
  /\ (forall item,
        ~ In (t_id template)
            (List.map t_id (hydratedTemplates (templates st') item))).
Proof.
  intros st'.
  assert (Hin : forall t, In t (templates st')
                          <-> In t (templates st) /\ t_id t <> t_id template).
  { intros t. unfold st', deleteTemplate. simpl. rewrite filter_In.
    rewrite negb_true_iff, String.eqb_neq. reflexivity. }
  split; [exact Hin|].
  do 8 (split; [reflexivity|]).
  split.
  { intros Hs. unfold st', deleteTemplate. simpl. rewrite Hs.
    apply setStoreData_filter_delete. }
  repeat split.
  - intros bundle H. apply in_map_iff in H. destruct H as (t & E & Ht).
    unfold templatesForBundle in Ht. apply filter_In in Ht.
    destruct Ht as [Ht _]. apply Hin in Ht. tauto.
  - intros selectedBundles H. apply in_map_iff in H. destruct H as (t & E & Ht).
    unfold templatesFromBundles in Ht. apply filter_In in Ht.
    destruct Ht as [Ht _]. apply Hin in Ht. tauto.
  - intros item H. apply in_map_iff in H. destruct H as (t & E & Ht).
    apply hydratedTemplates_In in Ht. destruct Ht as [Ht _].
    apply Hin in Ht. tauto.
Qed.

(** ** Missing key, in both places that ask for one *)

(** C9. With an empty key, [handleSubmit] issues no call (in particular not
    the streaming call) and changes nothing in the application state, and,
    once past the input check, reports that the key is missing; the batch
    handler likewise sends no metadata request, saves nothing and shows the
    same message. Whatever the key, a run issues the streaming call, or the
    metadata request, at most once. *)
Theorem missing_key_fails_fast_single_attempt
    (SYSTEM_PROMPT : string) (trim : string -> string)
    (p : PrompterProps) (w : SubmitWorld) (view : PrompterState)
    (isAistudio : bool) (existingTags : list string) (bw : BatchWorld)
    (m : BatchModalState) (st : AppState) :
  let r := handleSubmit SYSTEM_PROMPT p w view st in
  let b := handleGenerateAndSave trim isAistudio existingTags bw m st in
  (apiKeyToUse (p_isAistudio p) (settings st) (env_API_KEY w) = EmptyString ->
     r_calls r = [] /\ r_app r = st
     /\ (noInput p = false ->
         r_view r =
           {| isLoading := false; shownPrompt := EmptyString;
              error := Some "API Key is missing. Please configure it in settings." |}))
  /\ streamCalls (r_calls r) <= 1
  /\ (apiKeyToUse isAistudio (settings st) (batch_API_KEY bw) = EmptyString ->
      b_calls b = [] /\ templates (b_app b) = templates st
      /\ db (b_app b) = db st
      /\ (nonEmptyPromptsOf trim m <> [] ->
          b_app b =
            showToast
              {| message := "API Key is missing. Please configure it in settings.";
                 toast_type := ToastError |} st))
  /\ List.length (b_calls b) <= 1.
Proof.
  intros r b.
  destruct (handleSubmit_missing_key SYSTEM_PROMPT p w view st) as [H1 H2].
  destruct (handleGenerateAndSave_missing_key trim isAistudio existingTags bw m st)
    as [H3 H4].
  auto.
Qed.

(** ** Worked examples *)

Example resolve_three_causes :
  allReferencedTemplates Sample.library ["noir"] [Sample.bundleA]
    [Sample.t3; Sample.t1]
  = [Sample.t1; Sample.t2; Sample.t3].
Proof. reflexivity. Qed.

(** A selected object that differs from the library's record of the same
    identifier takes that identifier's place: the Map keeps the first
    position and the last value. *)
Example resolve_keeps_last_value :
  allReferencedTemplates Sample.library ["noir"] []
    [Sample.tpl "t1" "Rain (edited)" []]
  = [Sample.tpl "t1" "Rain (edited)" []].
Proof. reflexivity. Qed.

Example stream_ABC_one_record :
  List.map generatedPrompt
    (history (r_app (handleSubmit "SYS" Sample.props (Sample.world Sample.streamABC)
                       Sample.view0 Sample.stKey)))
  = ["ABC"].
Proof. reflexivity. Qed.

Example stream_empty_no_record :
  r_app (handleSubmit "SYS" Sample.props (Sample.world Sample.streamEmpty)
           Sample.view0 Sample.stKey)
  = Sample.stKey.
Proof. reflexivity. Qed.

Example stream_broken_no_record :
  let r := handleSubmit "SYS" Sample.props (Sample.world Sample.streamBroken)
             Sample.view0 Sample.stKey in
  r_app r = Sample.stKey
  /\ r_view r = {| isLoading := false; shownPrompt := "A";
                   error := Some "network down" |}.
Proof. split; reflexivity. Qed.

Example batch_two_of_three_saves_nothing :
  let r := handleGenerateAndSave Sample.trimStart false [] 
             (Sample.batchWorld [Sample.meta "1"; Sample.meta "2"])
             Sample.batchModal Sample.stKey in
  templates (b_app r) = [] /\ db (b_app r) = db Sample.stKey
  /\ List.map message (toasts (b_app r))
     = ["AI returned a mismatched number of templates."].
Proof. repeat split. Qed.

Example batch_three_of_three_pairs_by_index :
  let r := handleGenerateAndSave Sample.trimStart false []
             (Sample.batchWorld [Sample.meta "1"; Sample.meta "2"; Sample.meta "3"])
             Sample.batchModal Sample.stKey in
  List.map (fun t => (prompt t, title t)) (templates (b_app r))
  = [("p1", "title 1"); ("p2", "title 2"); ("p3", "title 3")].
Proof. reflexivity. Qed.

Example import_clash_keeps_existing :
  List.map (fun t => (t_id t, title t))
    (templates (handleImportFileChange allOptions (FileObject Sample.docClash)
                  Sample.stLibrary))
  = [("t1", "Rain"); ("t2", "Dunes"); ("t3", "Orbit"); ("t9", "Fog")].
Proof. reflexivity. Qed.

(** ** Witnesses *)

Lemma resolver_each_qualifying_once_witness :
  In Sample.t3 [Sample.t3; Sample.t1]
  /\ List.length
       (List.filter (fun u => String.eqb (t_id u) (t_id Sample.t3))
          (allReferencedTemplates Sample.library ["noir"] [Sample.bundleA]
             [Sample.t3; Sample.t1])) = 1.
Proof.
  split; [simpl; auto|].
  apply (resolver_each_qualifying_once Sample.library ["noir"]
           [Sample.bundleA] [Sample.t3; Sample.t1]).
  simpl. auto.
Defined.

Lemma history_record_iff_stream_completes_witness :
  exists item,
    history (r_app (handleSubmit "SYS" Sample.props (Sample.world Sample.streamABC)
                      Sample.view0 Sample.stKey))
    = item :: history Sample.stKey
    /\ generatedPrompt item = "ABC".
Proof.
  destruct (history_record_iff_stream_completes "SYS" Sample.props
              (Sample.world Sample.streamABC) Sample.view0 Sample.stKey)
    as (H & _).
  destruct (H Sample.streamABC) as (item & _ & Hh & Hg & _).
  - eexists. split; [left; reflexivity|]. split; reflexivity.
  - discriminate.
  - exists item. split; [exact Hh | exact Hg].
Defined.

Lemma import_keeps_existing_and_is_idempotent_witness :
  let o := importDialogOptions [] in
  let st1 :=
    handleImportFileChange o (FileObject Sample.docClash) Sample.stLibrary in
  in_sync Sample.stLibrary
  /\ opt_templates o = true
  /\ doc_templates Sample.docClash
     = FieldArray [Sample.tpl "t1" "Rain (other)" []; Sample.tpl "t9" "Fog" []]
  /\ store_templates (db Sample.stLibrary) ⊆ store_templates (db st1)
  /\ templates st1
     = [Sample.t1; Sample.t2; Sample.t3; Sample.tpl "t9" "Fog" []]
  /\ is_Some (store_templates (db st1) !! "t9")
  /\ sameCollections st1
       (handleImportFileChange o (FileObject Sample.docClash) st1).
Proof.
  cbv zeta.
  assert (Hsync : in_sync Sample.stLibrary).
  { unfold in_sync. repeat split. }
  split; [exact Hsync|]. split; [reflexivity|]. split; [reflexivity|].
  destruct (import_keeps_existing_and_is_idempotent (importDialogOptions [])
              Sample.docClash Sample.stLibrary)
    as (_ & _ & _ & Hsub & Hadd & Hsame).
  split; [apply (Hsub Hsync)|].
  assert (Hn : ~ (opt_settings (importDialogOptions []) = true
                  /\ doc_settings Sample.docClash = SettingsUnkeyed))
    by (intros [_ H]; discriminate H).
  destruct (Hadd Hn) as (_ & Ht & _).
  destruct (Ht eq_refl _ eq_refl) as (_ & Hres & _ & Hkey).
  split; [exact Hres|].
  split; [|exact Hsame].
  apply (Hkey (Sample.tpl "t9" "Fog" [])); simpl; intuition discriminate.
Defined.

Lemma import_malformed_aborts_non_array_skipped_witness :
  doc_history Sample.docNonArray = FieldNotArray
  /\ history
       (handleImportFileChange allOptions (FileObject Sample.docNonArray)
          Sample.st0) = history Sample.st0.
Proof.
  split; [reflexivity|].
  destruct (import_malformed_aborts_non_array_skipped allOptions
              Sample.docNonArray Sample.st0) as (_ & _ & H & _).
  apply H. reflexivity.
Defined.

Lemma batch_count_mismatch_saves_nothing_witness :
  nonEmptyPromptsOf Sample.trimStart Sample.batchModal = ["p1"; "p2"; "p3"]
  /\ templates
       (b_app (handleGenerateAndSave Sample.trimStart false []
                 (Sample.batchWorld [Sample.meta "1"; Sample.meta "2"])
                 Sample.batchModal Sample.stKey))
     = templates Sample.stKey.
Proof.
  split; [reflexivity|].
  destruct (batch_count_mismatch_saves_nothing Sample.trimStart false []
              (Sample.batchWorld [Sample.meta "1"; Sample.meta "2"])
              Sample.batchModal Sample.stKey) as (_ & H & _).
  - discriminate.
  - discriminate.
  - apply (H [Sample.meta "1"; Sample.meta "2"]).
    + reflexivity.
    + simpl. discriminate.
Defined.


Lemma length_line_iff_json_or_mars_witness :
  ~ In ("length: " ++ length_str LengthShort)
      (lines (creativeControls false false StyleDefault LengthShort)).
Proof.
  destruct (length_line_iff_json_or_mars EmptyString Sample.request)
    as (_ & _ & H & _).
  intros Hin. apply H in Hin. discriminate Hin.
Defined.

Lemma reference_block_format_witness :
  userRequestText Sample.request
  = ("Use the following templates as creative inspiration:" ++ nl ++ nl
     ++ join (nl ++ nl) (List.map templateReference [Sample.reference])
     ++ nl ++ nl)
    ++ creativeControls false false StyleDefault LengthShort
    ++ promptTail "a cat".
Proof.
  destruct (reference_block_format Sample.request) as (_ & H & _).
  apply (H [Sample.reference]); [reflexivity | discriminate].
Defined.

Lemma missing_key_fails_fast_single_attempt_witness :
  apiKeyToUse false (settings Sample.st0) None = EmptyString
  /\ r_calls (handleSubmit "SYS" Sample.props (Sample.world Sample.streamABC)
                Sample.view0 Sample.st0) = []
  /\ error (r_view (handleSubmit "SYS" Sample.props
                      (Sample.world Sample.streamABC) Sample.view0 Sample.st0))
     = Some "API Key is missing. Please configure it in settings.".
Proof.
  assert (Hkey : apiKeyToUse false (settings Sample.st0) None = EmptyString)
    by reflexivity.
  destruct (missing_key_fails_fast_single_attempt "SYS" Sample.trimStart
              Sample.props (Sample.world Sample.streamABC) Sample.view0
              false [] (Sample.batchWorld []) Sample.batchModal Sample.st0)
    as (H & _).
  destruct (H Hkey) as (Hcalls & _ & Hview).
  split; [exact Hkey|]. split; [exact Hcalls|].
  rewrite Hview; reflexivity.
Defined.

Lemma delete_template_touches_templates_only_witness :
  store_templates (db Sample.stLibrary)
  = setStoreData t_id (templates Sample.stLibrary) ∅
  /\ store_templates (db (deleteTemplate Sample.t1 Sample.stLibrary))
     = delete "t1" (store_templates (db Sample.stLibrary))
  /\ bundles (deleteTemplate Sample.t1 Sample.stLibrary) = [Sample.bundleA].
Proof.
  assert (Hs : store_templates (db Sample.stLibrary)
               = setStoreData t_id (templates Sample.stLibrary) ∅)
    by reflexivity.
  destruct (delete_template_touches_templates_only Sample.t1 Sample.stLibrary)
    as (_ & Hb & _ & _ & _ & _ & _ & _ & _ & Hd & _).
  split; [exact Hs|]. split; [exact (Hd Hs) | exact Hb].
Defined.

(** * Further properties *)

(** ** Local Store: replace-all and reload *)

Lemma getStoreData_setStoreData {A : Type} (id : A -> string) (l : list A)
    (s : gmap string A) :
  (forall x, In x (getStoreData (setStoreData id l s)) -> In x l)
  /\ List.NoDup (List.map id (getStoreData (setStoreData id l s)))
  /\ (List.NoDup (List.map id l) ->
      forall x, In x (getStoreData (setStoreData id l s)) <-> In x l).
Proof.
  assert (Hk : well_keyed id (setStoreData id l s))
    by apply setStoreData_well_keyed.
  split.
  { intros x Hx. apply (getStoreData_In id) in Hx; [|exact Hk].
    revert Hx. unfold setStoreData, clearStore.
    rewrite lookup_put_all, lookup_empty. intros H.
    apply last_match_inv in H. destruct H as [[H _] | H]; [exact H | discriminate]. }
  split; [now apply getStoreData_NoDup|].
  intros Hnd x. rewrite (getStoreData_In id) by exact Hk.
  rewrite setStoreData_lookup_NoDup by exact Hnd. tauto.
Qed.

(** X1. [setStoreData] replaces the content of a store: afterwards the keys
    are exactly the identifiers of the data, whatever the store held
    before; every stored record is one of the data under its own
    identifier; when several data share an identifier the last one is
    stored; and [getStoreData] returns one record per identifier, which for
    data with distinct identifiers are exactly the data. *)
Theorem setStoreData_replaces_all {A : Type} (id : A -> string) (l : list A)
    (s : gmap string A) :
  let s' := setStoreData id l s in
  (forall k, is_Some (s' !! k) <-> In k (List.map id l))
  /\ (forall k x, s' !! k = Some x -> In x l /\ id x = k)
  /\ (forall l1 x l2, l = (l1 ++ x :: l2)%list -> ~ In (id x) (List.map id l2) ->
        s' !! id x = Some x)
  /\ (forall x, In x (getStoreData s') -> In x l)
  /\ List.NoDup (List.map id (getStoreData s'))
  /\ (List.NoDup (List.map id l) ->
      forall x, In x (getStoreData s') <-> In x l).
Proof.
  intros s'.
  assert (Hk : well_keyed id s') by apply setStoreData_well_keyed.
  assert (Hinv : forall k x, s' !! k = Some x -> In x l /\ id x = k).
  { intros k x. unfold s', setStoreData, clearStore.
    rewrite lookup_put_all, lookup_empty. intros H.
    apply last_match_inv in H. destruct H as [H | H]; [exact H | discriminate]. }
  assert (Hlast : forall l1 x l2, l = (l1 ++ x :: l2)%list ->
                    ~ In (id x) (List.map id l2) -> s' !! id x = Some x).
  { intros l1 x l2 -> Hx. unfold s', setStoreData, clearStore.
    rewrite lookup_put_all, fold_left_app. simpl.
    rewrite String.eqb_refl. now apply last_match_absent. }
  split.
  { intros k. split.
    - intros [x Hx]. destruct (Hinv _ _ Hx) as [Hin <-]. now apply List.in_map.
    - intros Hin.
      assert (Hsplit : exists l1 x l2, l = (l1 ++ x :: l2)%list /\ id x = k
                                       /\ ~ In k (List.map id l2)).
      { clear - Hin. induction l as [|a l IH]; [destruct Hin|].
        destruct (in_dec string_dec k (List.map id l)) as [Hl | Hl].
        - destruct (IH Hl) as (l1 & x & l2 & -> & E & Hn).
          exists (a :: l1), x, l2. auto.
        - destruct Hin as [E | Hin]; [|contradiction].
          exists [], a, l. auto. }
      destruct Hsplit as (l1 & x & l2 & E & <- & Hn).
      exists x. now apply (Hlast l1 x l2). }
  split; [exact Hinv|]. split; [exact Hlast|].
  apply getStoreData_setStoreData.
Qed.

Lemma setStoreData_replaces_all_witness :
  setStoreData t_id [Sample.tpl "t1" "old" []; Sample.t2; Sample.t1]
    {[ "zz" := Sample.t3 ]} !! "t1" = Some Sample.t1.
Proof.
  destruct (setStoreData_replaces_all t_id
              [Sample.tpl "t1" "old" []; Sample.t2; Sample.t1]
              {[ "zz" := Sample.t3 ]}) as (_ & _ & H & _).
  apply (H [Sample.tpl "t1" "old" []; Sample.t2] Sample.t1 []).
  - reflexivity.
  - simpl. tauto.
Defined.

(** ** Memory and store stay consistent *)

Lemma consistent_iff (st : AppState) :
  consistent st
  <-> store_history (db st) = setStoreData h_id (history st) ∅
      /\ store_templates (db st) = setStoreData t_id (templates st) ∅
      /\ store_bundles (db st) = setStoreData b_id (bundles st) ∅
      /\ forall v, store_settings (db st) !! user_settings_key = Some v ->
                   settings st = v.
Proof. unfold consistent, in_sync. tauto. Qed.

Lemma consistent_showToast (t : Toast) (st : AppState) :
  consistent st -> consistent (showToast t st).
Proof. intros H. apply consistent_iff in H. apply consistent_iff. exact H. Qed.

Lemma consistent_setHistory f (st : AppState) :
  consistent st -> consistent (setHistory f st).
Proof.
  intros H. apply consistent_iff in H. apply consistent_iff.
  destruct H as (_ & H2 & H3 & H4). simpl. auto.
Qed.

Lemma consistent_setTemplates f (st : AppState) :
  consistent st -> consistent (setTemplates f st).
Proof.
  intros H. apply consistent_iff in H. apply consistent_iff.
  destruct H as (H1 & _ & H3 & H4). simpl. auto.
Qed.

Lemma consistent_setBundles f (st : AppState) :
  consistent st -> consistent (setBundles f st).
Proof.
  intros H. apply consistent_iff in H. apply consistent_iff.
  destruct H as (H1 & H2 & _ & H4). simpl. auto.
Qed.

Lemma consistent_setSettings f (st : AppState) :
  consistent st -> consistent (setSettings f st).
Proof.
  intros H. apply consistent_iff in H. apply consistent_iff.
  destruct H as (H1 & H2 & H3 & _). simpl. repeat split; auto.
  intros v. unfold setSingleObject. rewrite lookup_insert_eq. congruence.
Qed.

Lemma consistent_import (o : Options) (file : FileContent) (st : AppState) :
  consistent st -> consistent (handleImportFileChange o file st).
Proof.
  intros H. unfold handleImportFileChange.
  destruct file as [| |d].
  { now apply consistent_showToast. }
  { destruct (noOption o); now apply consistent_showToast. }
  destruct (importSettings o d st) as [sa|] eqn:Ea;
    [|now apply consistent_showToast].
  apply consistent_showToast.
  destruct (importArrays_fields o d sa)
    as (Hs1 & Hh1 & Ht1 & Hb1 & Hss1 & Hsh1 & Hst1 & Hsb1 & _).
  destruct (importSettings_fields o d st sa Ea)
    as (Hha & Hta & Hba & Hsha & Hsta & Hsba & _ & Hseta).
  apply consistent_iff in H. destruct H as (H1 & H2 & H3 & H4).
  apply consistent_iff.
  rewrite Hs1, Hh1, Ht1, Hb1, Hss1, Hsh1, Hst1, Hsb1.
  rewrite Hha, Hta, Hba, Hsha, Hsta, Hsba.
  unfold mergedList, mergedStore.
  split; [destruct (opt_history o), (doc_history d); auto|].
  split; [destruct (opt_templates o), (doc_templates d); auto|].
  split; [destruct (opt_bundles o), (doc_bundles d); auto|].
  destruct Hseta as [(E1 & E2 & _) | (k & v & _ & _ & E1 & E2)].
  - rewrite E1, E2. exact H4.
  - rewrite E1, E2. intros v'. rewrite lookup_insert_eq. congruence.
Qed.

Lemma handleGenerateAndSave_app (trim : string -> string) (isAistudio : bool)
    (existingTags : list string) (w : BatchWorld) (m : BatchModalState)
    (st : AppState) :
  (exists t, b_app (handleGenerateAndSave trim isAistudio existingTags w m st)
             = showToast t st)
  \/ exists newTemplates,
       b_app (handleGenerateAndSave trim isAistudio existingTags w m st)
       = handleSaveBatchTemplates newTemplates st.
Proof.
  unfold handleGenerateAndSave.
  destruct (Nat.eqb _ 0); [left; eexists; reflexivity|].
  destruct (negb _); [left; eexists; reflexivity|].
  destruct (generateBatchTemplateMetadata _ _); [left; eexists; reflexivity|].
  destruct (newTemplatesFrom _ _ _ _);
    [right; eexists; reflexivity | left; eexists; reflexivity].
Qed.

Lemma consistent_act (a : Action) (st : AppState) :
  consistent st -> consistent (act a st).
Proof.
  intros H. destruct a; simpl.
  - destruct (handleSubmit_cases SYSTEM_PROMPT p w view st)
      as [[-> _] | (s & _ & _ & _ & ->)]; [exact H|].
    destruct (truthy _); [now apply consistent_setHistory | exact H].
  - destruct (handleGenerateAndSave_app trim isAistudio existingTags w m st)
      as [[t ->] | [ts ->]].
    + now apply consistent_showToast.
    + now apply consistent_showToast, consistent_setTemplates.
  - unfold handleSaveTemplateFromHistory.
    destruct (negb _); simpl; [now apply consistent_showToast|].
    destruct (generateTemplateMetadata w _); simpl.
    + now apply consistent_showToast.
    + now apply consistent_showToast, consistent_setTemplates.
  - unfold handleSaveTemplate.
    destruct editingTemplate;
      now apply consistent_showToast, consistent_setTemplates.
  - unfold handleSaveBundle.
    destruct editingBundle;
      now apply consistent_showToast, consistent_setBundles.
  - now apply consistent_showToast, consistent_setTemplates.
  - now apply consistent_showToast, consistent_setBundles.
  - destruct confirmDeleteItem; [|exact H].
    now apply consistent_showToast, consistent_setHistory.
  - apply consistent_iff in H. destruct H as (_ & H2 & H3 & H4).
    apply consistent_iff. simpl. auto.
  - apply consistent_iff in H. destruct H as (H1 & _ & _ & H4).
    apply consistent_iff. simpl. auto.
  - now apply consistent_setSettings.
  - now apply consistent_setSettings.
  - now apply consistent_import.
  - unfold handleExportData. destruct (noOption options); simpl;
      now apply consistent_showToast.
Qed.

Lemma loadArray_getStoreData {A : Type} (s : gmap string A) :
  loadArray s [] = getStoreData s.
Proof.
  unfold loadArray. destruct (getStoreData s); reflexivity.
Qed.

Lemma consistent_loadState (b : bool) (s : LocalStore) :
  well_keyed_store s -> consistent (loadState b s).
Proof.
  intros (Kh & Kt & Kb). apply consistent_iff. simpl.
  rewrite !loadArray_getStoreData.
  rewrite !setStoreData_getStoreData by assumption.
  repeat split. intros v. unfold getSingleObject. now intros ->.
Qed.

(** X2. Starting from the state loaded from a store that keeps every
    record under its own identifier and running any sequence of handlers (submit, batch add, save from history, save or
    delete of a template, a bundle or a history item, the two clears,
    settings, welcome, import, export), memory and store stay consistent:
    each array store is the write-through of the array in memory and a
    stored settings entry equals the settings in memory. *)
Theorem handlers_keep_memory_and_store_consistent
    (isAistudio : bool) (s : LocalStore) (actions : list Action) :
  well_keyed_store s ->
  consistent (actAll actions (loadState isAistudio s)).
Proof.
  intros Hs. unfold actAll.
  assert (H0 := consistent_loadState isAistudio s Hs).
  revert H0. generalize (loadState isAistudio s).
  induction actions as [|a actions IH]; intros st H; simpl; [exact H|].
  apply IH. now apply consistent_act.
Qed.

Lemma well_keyed_empty_store : well_keyed_store empty_store.
Proof.
  repeat split; intros k x H; simpl in H; rewrite lookup_empty in H;
    discriminate.
Qed.

Lemma handlers_keep_memory_and_store_consistent_witness :
  consistent
    (actAll [ActSaveTemplate None Sample.t1;
             ActImport allOptions (FileObject Sample.docClash);
             ActDeleteTemplate Sample.t1; ActClearHistory]
       (loadState false empty_store)).
Proof.
  apply handlers_keep_memory_and_store_consistent.
  apply well_keyed_empty_store.
Defined.

(** X3. Reloading: the state loaded from the store of a consistent state
    has the same store, the stored settings (the defaults when none is
    stored), and in each array one record per identifier, all of them
    records of the array in memory; when the identifiers in memory are
    distinct, exactly the records in memory. *)
Theorem reload_reproduces_collections (isAistudio : bool) (st : AppState) :
  consistent st ->
  let st' := loadState isAistudio (db st) in
  db st' = db st
  /\ (forall v, store_settings (db st) !! user_settings_key = Some v ->
        settings st' = settings st)
  /\ (store_settings (db st) !! user_settings_key = None ->
        settings st' = defaultSettings isAistudio)
  /\ (forall x, In x (history st') -> In x (history st))
  /\ (forall x, In x (templates st') -> In x (templates st))
  /\ (forall x, In x (bundles st') -> In x (bundles st))
  /\ List.NoDup (List.map h_id (history st'))
  /\ List.NoDup (List.map t_id (templates st'))
  /\ List.NoDup (List.map b_id (bundles st'))
  /\ (List.NoDup (List.map h_id (history st)) ->
      forall x, In x (history st') <-> In x (history st))
  /\ (List.NoDup (List.map t_id (templates st)) ->
      forall x, In x (templates st') <-> In x (templates st))
  /\ (List.NoDup (List.map b_id (bundles st)) ->
      forall x, In x (bundles st') <-> In x (bundles st)).
Proof.
  intros H st'. apply consistent_iff in H. destruct H as (H1 & H2 & H3 & H4).
  unfold st'. simpl. rewrite !loadArray_getStoreData. rewrite H1, H2, H3.
  destruct (getStoreData_setStoreData h_id (history st) ∅) as (Ha & Hb & Hc).
  destruct (getStoreData_setStoreData t_id (templates st) ∅) as (Ta & Tb & Tc).
  destruct (getStoreData_setStoreData b_id (bundles st) ∅) as (Ba & Bb & Bc).
  split; [reflexivity|].
  split.
  { intros v Hv. unfold getSingleObject. rewrite Hv. symmetry. now apply H4. }
  split.
  { intros Hv. unfold getSingleObject. now rewrite Hv. }
  auto 12.
Qed.

Lemma reload_reproduces_collections_witness :
  List.NoDup (List.map t_id (templates Sample.stLibrary))
  /\ (In Sample.t2 (templates (loadState false (db Sample.stLibrary)))
      <-> In Sample.t2 (templates Sample.stLibrary)).
Proof.
  assert (Hn : List.NoDup (List.map t_id (templates Sample.stLibrary))).
  { vm_compute. repeat constructor; simpl; intuition discriminate. }
  split; [exact Hn|].
  assert (Hc : consistent Sample.stLibrary).
  { apply consistent_setBundles, consistent_setTemplates,
      consistent_setSettings, consistent_loadState, well_keyed_empty_store. }
  destruct (reload_reproduces_collections false Sample.stLibrary Hc)
    as (_ & _ & _ & _ & _ & _ & _ & _ & _ & _ & H & _).
  apply H. exact Hn.
Defined.

(** ** [handleSubmit]: what the composer shows, what the record holds *)

Lemma allReferencedTemplates_NoDup allTemplates selectedTags selectedBundles
    selectedIndividualTemplates :
  List.NoDup
    (List.map t_id
       (allReferencedTemplates allTemplates selectedTags selectedBundles
          selectedIndividualTemplates)).
Proof.
  unfold allReferencedTemplates.
  rewrite JsMapFacts.values_keys, JsMapFacts.keys_of_entries.
  apply first_seen_NoDup.
Qed.

Section SubmitView.

Variable SYSTEM_PROMPT : string.

(** The six ways a run can go. *)
Lemma handleSubmit_outcome (p : PrompterProps) (w : SubmitWorld)
    (view : PrompterState) (st : AppState) :
  let key := apiKeyToUse (p_isAistudio p) (settings st) (env_API_KEY w) in
  let refs :=
    allReferencedTemplates (templates st) (p_selectedTags p)
      (p_selectedBundles p) (p_selectedIndividualTemplates p) in
  let request md :=
    streamEnhancePrompt SYSTEM_PROMPT (streamRequestOf p key md refs) in
  let calls md :=
    (mediaCalls p ++ [CallGenerateContentStream (request md)])%list in
  let r := handleSubmit SYSTEM_PROMPT p w view st in
  (noInput p = true
   /\ r = {| r_view := {| isLoading := isLoading view;
                          shownPrompt := shownPrompt view;
                          error := Some "Please enter a prompt or upload media." |};
             r_app := st; r_calls := [] |})
  \/ (noInput p = false /\ truthy key = false
      /\ r = {| r_view := {| isLoading := false; shownPrompt := EmptyString;
                             error := Some "API Key is missing. Please configure it in settings." |};
                r_app := st; r_calls := [] |})
  \/ (noInput p = false /\ truthy key = true
      /\ exists msg, convertMedia p w = inl msg
           /\ r = submitFailed msg EmptyString st (mediaCalls p))
  \/ (noInput p = false /\ truthy key = true
      /\ exists md msg, convertMedia p w = inr md
           /\ generateContentStream w (request md) = inl msg
           /\ r = submitFailed msg EmptyString st (calls md))
  \/ (noInput p = false /\ truthy key = true
      /\ exists md rs msg, convertMedia p w = inr md
           /\ generateContentStream w (request md) = inr rs
           /\ stream_end rs = StreamThrows msg
           /\ r = submitFailed msg (concatAll (fragments rs)) st (calls md))
  \/ (noInput p = false /\ truthy key = true
      /\ exists md rs, convertMedia p w = inr md
           /\ generateContentStream w (request md) = inr rs
           /\ stream_end rs = StreamDone
           /\ r = {| r_view := {| isLoading := false;
                                  shownPrompt := concatAll (fragments rs);
                                  error := None |};
                     r_app := if truthy (concatAll (fragments rs))
                              then setHistory
                                     (fun prev =>
                                        newHistoryItem p w refs
                                          (concatAll (fragments rs)) :: prev)
                                     st
                              else st;
                     r_calls := calls md |}).
Proof.
  intros key refs request calls r. unfold r, handleSubmit.
  fold key. fold refs.
  destruct (noInput p); [left; auto|]. right.
  destruct (truthy key) eqn:Ekey; simpl; [|left; auto]. right.
  destruct (convertMedia p w) as [msg|md] eqn:Emedia; [left; eauto 6|]. right.
  fold (request md). fold (calls md).
  destruct (generateContentStream w (request md)) as [msg|rs] eqn:Ecall;
    [left; eauto 8|]. right.
  rewrite consumeChunks_fragments. simpl.
  destruct (stream_end rs) eqn:Eend; [right | left]; eauto 10.
Qed.

Lemma In_stream_call p (c req : GenerateRequest) :
  In (CallGenerateContentStream req)
     (mediaCalls p ++ [CallGenerateContentStream c])%list ->
  req = c.
Proof.
  intros H. apply in_app_iff in H. destruct H as [H | [H | []]].
  - now apply mediaCalls_no_stream in H.
  - now inversion H.
Qed.

(** X4. Without prompt and media a run only sets the input error. Every
    other run ends with the loading flag off; its error is empty exactly
    when the run reached the end of its stream, and then the shown prompt is
    the concatenation of the fragments. When the stream throws, the text
    received so far stays shown, the error is the thrown message (or the
    fallback text when the message is empty), and nothing is committed. *)
Theorem submit_view_after_run
    (p : PrompterProps) (w : SubmitWorld) (view : PrompterState)
    (st : AppState) :
  let r := handleSubmit SYSTEM_PROMPT p w view st in
  (noInput p = true ->
     r_view r = {| isLoading := isLoading view; shownPrompt := shownPrompt view;
                   error := Some "Please enter a prompt or upload media." |}
     /\ r_app r = st /\ r_calls r = [])
  /\ (noInput p = false ->
      isLoading (r_view r) = false
      /\ (error (r_view r) = None <-> exists s, completedWith w r s)
      /\ (forall s, completedWith w r s ->
            shownPrompt (r_view r) = concatAll (fragments s))
      /\ (forall req s msg,
            In (CallGenerateContentStream req) (r_calls r) ->
            generateContentStream w req = inr s ->
            stream_end s = StreamThrows msg ->
            r_view r = {| isLoading := false;
                          shownPrompt := concatAll (fragments s);
                          error := Some (str_or msg "An unknown error occurred.") |}
            /\ r_app r = st)).
Proof.
  intros r. unfold completedWith.
  destruct (handleSubmit_outcome p w view st)
    as [(E & Hr) | [(E & Ek & Hr) | [(E & Ek & msg & Em & Hr)
        | [(E & Ek & md & msg & Em & Eg & Hr)
        | [(E & Ek & md & rs & msg & Em & Eg & Ee & Hr)
        | (E & Ek & md & rs & Em & Eg & Ee & Hr)]]]]];
    fold r in Hr; rewrite Hr; simpl;
    (split; [intros E'; try congruence; auto|]);
    (intros E'; try congruence); (split; [reflexivity|]).
  - split; [split; [discriminate | intros (s & req & [] & _)]|].
    split; [intros s (req & [] & _) | intros req s msg []].
  - split; [split; [discriminate|]|].
    + intros (s & req & Hin & _). now apply mediaCalls_no_stream in Hin.
    + split.
      * intros s (req & Hin & _). now apply mediaCalls_no_stream in Hin.
      * intros req s msg0 Hin. now apply mediaCalls_no_stream in Hin.
  - split; [split; [discriminate|]|].
    + intros (s & req & Hin & Hs & _). apply In_stream_call in Hin. congruence.
    + split.
      * intros s (req & Hin & Hs & _). apply In_stream_call in Hin. congruence.
      * intros req s msg0 Hin Hs. apply In_stream_call in Hin. congruence.
  - split; [split; [discriminate|]|].
    + intros (s & req & Hin & Hs & He). apply In_stream_call in Hin. congruence.
    + split.
      * intros s (req & Hin & Hs & He). apply In_stream_call in Hin. congruence.
      * intros req s msg0 Hin Hs He. apply In_stream_call in Hin.
        assert (s = rs) by congruence. subst s.
        assert (msg0 = msg) by congruence. subst msg0. auto.
  - split; [split|].
    + intros _. exists rs. eexists. split; [|split; eassumption].
      apply in_app_iff. right. simpl. auto.
    + reflexivity.
    + split.
      * intros s (req & Hin & Hs & _). apply In_stream_call in Hin.
        assert (s = rs) by congruence. now subst s.
      * intros req s msg0 Hin Hs He. apply In_stream_call in Hin. congruence.
Qed.

(** X5. The record a run adds is built from the same reference list as the
    request it sent: the request text is the one for the resolved
    references, the record lists their identifiers in the same order, each
    once, and the identifiers of the selected bundles; it carries the fresh
    identifier, the time, the mode and the configuration of the run, and
    the prompt with the media file's name when media was attached. *)
Theorem history_record_matches_request
    (p : PrompterProps) (w : SubmitWorld) (view : PrompterState)
    (st : AppState) (s : ResponseStream) :
  let r := handleSubmit SYSTEM_PROMPT p w view st in
  let refs :=
    allReferencedTemplates (templates st) (p_selectedTags p)
      (p_selectedBundles p) (p_selectedIndividualTemplates p) in
  completedWith w r s -> concatAll (fragments s) <> EmptyString ->
  exists item md,
    history (r_app r) = item :: history st
    /\ In (CallGenerateContentStream
             (streamEnhancePrompt SYSTEM_PROMPT
                (streamRequestOf p
                   (apiKeyToUse (p_isAistudio p) (settings st) (env_API_KEY w))
                   md refs)))
          (r_calls r)
    /\ referencedTemplates item = List.map t_id refs
    /\ List.NoDup (referencedTemplates item)
    /\ referencedBundles item = List.map b_id (p_selectedBundles p)
    /\ h_id item = randomUUID w /\ timestamp item = now w
    /\ model item = "gemini-2.5-flash"
    /\ mode item = (if p_isJsonMode p then ModeJSON else ModeText)
    /\ config item
       = Some {| cfg_style := p_style p; cfg_length := p_length p;
                 cfg_isJsonMode := p_isJsonMode p;
                 cfg_useReasoning := p_useReasoning p;
                 cfg_useMarsLsp := p_useMarsLsp p |}
    /\ userPrompt item = userPromptForHistory (p_prompt p) (p_media p)
    /\ generatedPrompt item = concatAll (fragments s).
Proof.
  intros r refs Hs Hne.
  destruct (handleSubmit_cases SYSTEM_PROMPT p w view st)
    as [[_ Hno] | (s' & Hs' & Huniq & _ & Happ)];
    fold r in Hno || fold r in Hs', Huniq, Happ.
  { now apply Hno in Hs. }
  rewrite <- (Huniq _ Hs) in Happ.
  apply truthy_true in Hne. rewrite Hne in Happ.
  destruct Hs as (req & Hin & _).
  destruct (handleSubmit_stream_call SYSTEM_PROMPT p w view st req Hin)
    as (_ & _ & md & _ & ->).
  eexists. exists md. rewrite Happ. simpl.
  split; [reflexivity|]. split; [exact Hin|].
  split; [reflexivity|]. split; [apply allReferencedTemplates_NoDup|].
  repeat split.
Qed.

End SubmitView.

Lemma submit_view_after_run_witness :
  r_view (handleSubmit "SYS" Sample.props (Sample.world Sample.streamBroken)
            Sample.view0 Sample.stKey)
  = {| isLoading := false; shownPrompt := "A"; error := Some "network down" |}.
Proof.
  destruct (submit_view_after_run "SYS" Sample.props
              (Sample.world Sample.streamBroken) Sample.view0 Sample.stKey)
    as (_ & H).
  destruct (H eq_refl) as (_ & _ & _ & Hthrow).
  destruct (Hthrow
              (streamEnhancePrompt "SYS"
                 (streamRequestOf Sample.props "k" None []))
              Sample.streamBroken "network down") as (Hv & _).
  - left. reflexivity.
  - reflexivity.
  - reflexivity.
  - exact Hv.
Defined.

Lemma history_record_matches_request_witness :
  exists item,
    history (r_app (handleSubmit "SYS" Sample.props
                      (Sample.world Sample.streamABC) Sample.view0 Sample.stKey))
    = item :: history Sample.stKey
    /\ h_id item = "uuid-1" /\ referencedTemplates item = [].
Proof.
  destruct (history_record_matches_request "SYS" Sample.props
              (Sample.world Sample.streamABC) Sample.view0 Sample.stKey
              Sample.streamABC)
    as (item & md & H1 & _ & H2 & _ & _ & H3 & _).
  - eexists. split; [left; reflexivity|]. split; reflexivity.
  - discriminate.
  - exists item. auto.
Defined.

(** ** The composer's count of active controls *)

(** X6. [activeControlsCount] is at most three and is zero exactly for the
    default style with MARS-LSP off and no effective length; a length other
    than the default is counted exactly when the request built by
    [streamEnhancePrompt] carries a length line, so that with JSON mode and
    MARS-LSP both off the chosen length changes neither the count nor the
    request footer. *)
Theorem activeControlsCount_agrees_with_request
    (style : Style) (len : Length) (isJsonMode useMarsLsp : bool) :
  let footer := creativeControls isJsonMode useMarsLsp style len in
  activeControlsCount style len isJsonMode useMarsLsp <= 3
  /\ (activeControlsCount style len isJsonMode useMarsLsp = 0
      <-> style = StyleDefault /\ useMarsLsp = false
          /\ (isJsonMode = false \/ len = LengthDefault))
  /\ activeControlsCount style len isJsonMode useMarsLsp
     = (match style with StyleDefault => 0 | _ => 1 end)
       + (if contains "length:" footer
             && negb (String.eqb (length_str len) "default")
          then 1 else 0)
       + (if useMarsLsp then 1 else 0)
  /\ (isJsonMode || useMarsLsp = false ->
      forall len',
        activeControlsCount style len' isJsonMode useMarsLsp
        = activeControlsCount style len isJsonMode useMarsLsp
        /\ creativeControls isJsonMode useMarsLsp style len' = footer).
Proof.
  intros footer. unfold footer.
  destruct style, len, isJsonMode, useMarsLsp; vm_compute;
    (split; [lia|]);
    (split; [split; [intros H; try discriminate H; auto
                    | intros (H1 & H2 & [H3 | H3]); try discriminate; reflexivity]|]);
    (split; [reflexivity|]);
    intros H len'; try discriminate H; destruct len'; split; reflexivity.
Qed.

Lemma activeControlsCount_agrees_with_request_witness :
  activeControlsCount StyleAnime LengthLong false false
  = activeControlsCount StyleAnime LengthDefault false false.
Proof.
  destruct (activeControlsCount_agrees_with_request StyleAnime LengthDefault
              false false) as (_ & _ & _ & H).
  apply (H eq_refl LengthLong).
Defined.

(** ** Saving templates and bundles *)

Lemma map_replace_absent {A : Type} (id : A -> string) (d : A) (l : list A) :
  ~ In (id d) (List.map id l) ->
  List.map (fun t => if String.eqb (id t) (id d) then d else t) l = l.
Proof.
  induction l as [|a l IH]; simpl; [reflexivity|].
  intros H. rewrite IH by tauto.
  destruct (String.eqb (id a) (id d)) eqn:E; [|reflexivity].
  apply String.eqb_eq in E. tauto.
Qed.

Lemma map_replace_ids {A : Type} (id : A -> string) (d : A) (l : list A) :
  List.map id (List.map (fun t => if String.eqb (id t) (id d) then d else t) l)
  = List.map id l.
Proof.
  rewrite List.map_map. apply List.map_ext. intros a.
  destruct (String.eqb (id a) (id d)) eqn:E; [|reflexivity].
  apply String.eqb_eq in E. now symmetry.
Qed.

(** X7. [handleSaveTemplate] touches the templates only. Creating puts the
    new template in front. Updating keeps the number, order and identifiers
    of the templates and puts the saved data at every place whose record
    has its identifier; when no template has that identifier (it was
    deleted while the form was open) the templates stay as they are. *)
Theorem handleSaveTemplate_create_or_replace
    (editingTemplate : option PromptTemplate) (templateData : PromptTemplate)
    (st : AppState) :
  let st' := handleSaveTemplate editingTemplate templateData st in
  history st' = history st /\ bundles st' = bundles st
  /\ settings st' = settings st
  /\ store_history (db st') = store_history (db st)
  /\ store_bundles (db st') = store_bundles (db st)
  /\ store_settings (db st') = store_settings (db st)
  /\ store_templates (db st') = setStoreData t_id (templates st') ∅
  /\ (editingTemplate = None -> templates st' = templateData :: templates st)
  /\ (forall e, editingTemplate = Some e ->
        List.map t_id (templates st') = List.map t_id (templates st)
        /\ (forall i t, nth_error (templates st) i = Some t ->
              nth_error (templates st') i
              = Some (if String.eqb (t_id t) (t_id templateData)
                      then templateData else t))
        /\ (~ In (t_id templateData) (List.map t_id (templates st)) ->
            templates st' = templates st)).
Proof.
  intros st'. unfold st', handleSaveTemplate.
  destruct editingTemplate as [e|]; simpl; repeat split; try discriminate.
  - apply map_replace_ids.
  - intros i t Hi. now rewrite List.nth_error_map, Hi.
  - apply map_replace_absent.
Qed.

Lemma handleSaveTemplate_create_or_replace_witness :
  List.map title
    (templates (handleSaveTemplate (Some Sample.t2)
                  (Sample.tpl "t2" "Dunes at dawn" ["desert"]) Sample.stLibrary))
  = ["Rain"; "Dunes at dawn"; "Orbit"]
  /\ templates (handleSaveTemplate (Some Sample.t2)
                  (Sample.tpl "t7" "Lost" []) Sample.stLibrary)
     = templates Sample.stLibrary.
Proof.
  split; [reflexivity|].
  destruct (handleSaveTemplate_create_or_replace (Some Sample.t2)
              (Sample.tpl "t7" "Lost" []) Sample.stLibrary)
    as (_ & _ & _ & _ & _ & _ & _ & _ & H).
  destruct (H Sample.t2 eq_refl) as (_ & _ & H').
  apply H'. simpl. intuition discriminate.
Defined.

(** ** ES Set facts *)

Module JsSetFacts.

Lemma add_In (x y : string) (s : list string) :
  In y (JsSet.add x s) <-> y = x \/ In y s.
Proof.
  unfold JsSet.add, JsSet.has.
  destruct (includes s x) eqn:E.
  - apply includes_In in E. split; [auto|]. intros [-> | H]; assumption.
  - rewrite in_app_iff. simpl. split; intros H; intuition congruence.
Qed.

Lemma NoDup_snoc (x : string) (s : list string) :
  List.NoDup s -> ~ In x s -> List.NoDup (s ++ [x])%list.
Proof.
  induction s as [|a s IH]; simpl; intros H Hx.
  - constructor; [tauto | constructor].
  - apply List.NoDup_cons_iff in H. destruct H as [Ha Hs].
    constructor.
    + rewrite in_app_iff. simpl. intuition congruence.
    + apply IH; tauto.
Qed.

Lemma add_NoDup (x : string) (s : list string) :
  List.NoDup s -> List.NoDup (JsSet.add x s).
Proof.
  intros H. unfold JsSet.add, JsSet.has.
  destruct (includes s x) eqn:E; [exact H|].
  apply includes_not_In in E. now apply NoDup_snoc.
Qed.

Lemma delete_In (x y : string) (s : list string) :
  In y (JsSet.delete x s) <-> In y s /\ y <> x.
Proof.
  unfold JsSet.delete. rewrite filter_In, negb_true_iff, String.eqb_neq.
  reflexivity.
Qed.

Lemma delete_NoDup (x : string) (s : list string) :
  List.NoDup s -> List.NoDup (JsSet.delete x s).
Proof. apply List.NoDup_filter. Qed.

Lemma fold_add (l acc : list string) :
  fold_left (fun s x => JsSet.add x s) l acc
  = (acc ++ List.filter (fun y => negb (includes acc y)) (first_seen l))%list.
Proof.
  revert acc. induction l as [|k l IH]; intros acc; simpl.
  - now rewrite app_nil_r.
  - rewrite IH. unfold JsSet.add, JsSet.has. rewrite filter_filter_and.
    destruct (includes acc k) eqn:E; simpl.
    + f_equal. apply List.filter_ext_in. intros y _.
      destruct (String.eqb k y) eqn:Ey; simpl; [|reflexivity].
      apply String.eqb_eq in Ey. subst y. now rewrite E.
    + rewrite <- app_assoc. simpl. do 2 f_equal.
      apply List.filter_ext_in. intros y _.
      unfold includes. rewrite existsb_app. simpl.
      rewrite orb_false_r, negb_orb, (String.eqb_sym y k).
      apply andb_comm.
Qed.

Lemma of_list_first_seen (l : list string) : JsSet.of_list l = first_seen l.
Proof.
  unfold JsSet.of_list. rewrite fold_add. simpl.
  induction (first_seen l) as [|a l' IH]; simpl; congruence.
Qed.

Lemma first_seen_id (l : list string) : List.NoDup l -> first_seen l = l.
Proof.
  induction l as [|a l IH]; simpl; [reflexivity|].
  intros H. apply List.NoDup_cons_iff in H. destruct H as [Ha Hl].
  rewrite IH by assumption. f_equal.
  apply List.forallb_filter_id. apply List.forallb_forall.
  intros y Hy. apply negb_true_iff, String.eqb_neq. congruence.
Qed.

End JsSetFacts.

(** ** The bundle editor *)

Lemma toggleTemplateInBundle_NoDup (i : string) (e : BundleEditorState) :
  List.NoDup (selectedTemplateIds e) ->
  List.NoDup (selectedTemplateIds (toggleTemplateInBundle i e)).
Proof.
  intros H. unfold toggleTemplateInBundle. simpl.
  destruct (JsSet.has _ _);
    [now apply JsSetFacts.delete_NoDup | now apply JsSetFacts.add_NoDup].
Qed.

Lemma openBundleEditor_NoDup (existingBundle : option BundledTemplate) :
  List.NoDup (selectedTemplateIds (openBundleEditor existingBundle)).
Proof.
  destruct existingBundle as [b|]; simpl.
  - rewrite JsSetFacts.of_list_first_seen. apply first_seen_NoDup.
  - constructor.
Qed.

(** X8. In the bundle editor every click on a template flips the
    membership of that identifier and of no other, and the selection never
    holds an identifier twice, so a saved bundle lists each identifier
    once. Saving with an empty name does nothing. Saving an existing bundle
    (with a name and an identifier) without any click keeps its identifier,
    name and description and lists the identifiers it had, in first-seen
    order, whether or not a template with that identifier still exists; the
    bundles keep their number, order and identifiers, and templates and
    history stay as they are. *)
Theorem bundle_editor_toggle_and_save
    (existingBundle : option BundledTemplate) (clicks : list string)
    (uuid : string) (st : AppState) :
  let opened := openBundleEditor existingBundle in
  let e := fold_left (fun e i => toggleTemplateInBundle i e) clicks opened in
  List.NoDup (selectedTemplateIds e)
  /\ (forall i j,
        In j (selectedTemplateIds (toggleTemplateInBundle i e))
        <-> (if String.eqb j i then ~ In j (selectedTemplateIds e)
             else In j (selectedTemplateIds e)))
  /\ (forall b, bundleEditorSave existingBundle uuid e = Some b ->
        List.NoDup (templateIds b) /\ name b <> EmptyString)
  /\ (bundleName e = EmptyString ->
      saveBundleFromEditor existingBundle uuid e st = st)
  /\ (forall b, existingBundle = Some b -> name b <> EmptyString ->
        b_id b <> EmptyString ->
        bundleEditorSave existingBundle uuid opened
        = Some {| b_id := b_id b; name := name b;
                  b_description := b_description b;
                  templateIds := first_seen (templateIds b) |}
        /\ (forall i, In i (templateIds b)
                      <-> In i (first_seen (templateIds b)))
        /\ List.map b_id
             (bundles (saveBundleFromEditor existingBundle uuid opened st))
           = List.map b_id (bundles st)
        /\ templates (saveBundleFromEditor existingBundle uuid opened st)
           = templates st
        /\ history (saveBundleFromEditor existingBundle uuid opened st)
           = history st).
Proof.
  intros opened e.
  assert (Hnd : List.NoDup (selectedTemplateIds e)).
  { unfold e. generalize (openBundleEditor_NoDup existingBundle).
    fold opened. generalize opened.
    induction clicks as [|i clicks IH]; intros e0 H0; simpl; [exact H0|].
    apply IH. now apply toggleTemplateInBundle_NoDup. }
  split; [exact Hnd|]. split.
  { intros i j. unfold toggleTemplateInBundle. simpl. unfold JsSet.has.
    destruct (includes (selectedTemplateIds e) i) eqn:Ei.
    - apply includes_In in Ei. rewrite JsSetFacts.delete_In.
      destruct (String.eqb j i) eqn:Ej.
      + apply String.eqb_eq in Ej. subst j. tauto.
      + apply String.eqb_neq in Ej. tauto.
    - apply includes_not_In in Ei. rewrite JsSetFacts.add_In.
      destruct (String.eqb j i) eqn:Ej.
      + apply String.eqb_eq in Ej. subst j. tauto.
      + apply String.eqb_neq in Ej. tauto. }
  split.
  { intros b. unfold bundleEditorSave.
    destruct (truthy (bundleName e)) eqn:Et; simpl; [|discriminate].
    intros [= <-]. simpl. split; [exact Hnd|]. now apply truthy_true. }
  split.
  { intros En. unfold saveBundleFromEditor, bundleEditorSave. now rewrite En. }
  intros b -> Hname Hid. unfold opened, saveBundleFromEditor, bundleEditorSave.
  simpl. apply truthy_true in Hname. rewrite Hname. simpl.
  unfold str_or. apply truthy_true in Hid. rewrite Hid.
  rewrite JsSetFacts.of_list_first_seen.
  split; [reflexivity|].
  split; [intros i; symmetry; apply first_seen_In|].
  simpl. split; [|split; reflexivity].
  apply (map_replace_ids b_id
           {| b_id := b_id b; name := name b; b_description := b_description b;
              templateIds := first_seen (templateIds b) |}).
Qed.

Lemma bundle_editor_toggle_and_save_witness :
  bundleEditorSave (Some Sample.bundleA) "fresh"
    (openBundleEditor (Some Sample.bundleA))
  = Some {| b_id := "b1"; name := "A"; b_description := EmptyString;
            templateIds := ["t2"; "t1"; "gone"] |}.
Proof.
  destruct (bundle_editor_toggle_and_save (Some Sample.bundleA) [] "fresh"
              Sample.stLibrary) as (_ & _ & _ & _ & H).
  destruct (H Sample.bundleA eq_refl) as (Hs & _).
  - discriminate.
  - discriminate.
  - exact Hs.
Defined.

(** ** More facts on the ES Map model *)

Lemma JsMap_get_set {V : Type} (k k' : string) (v : V) (m : list (string * V)) :
  JsMap.get k' (JsMap.set k v m)
  = if String.eqb k k' then Some v else JsMap.get k' m.
Proof.
  induction m as [|[k0 v0] m IH]; simpl.
  - reflexivity.
  - destruct (String.eqb k0 k) eqn:E0; simpl.
    + apply String.eqb_eq in E0. subst k0.
      now destruct (String.eqb k k').
    + rewrite IH. destruct (String.eqb k0 k') eqn:E1; [|reflexivity].
      apply String.eqb_eq in E1. subst k0.
      now rewrite String.eqb_sym, E0.
Qed.

Lemma JsMap_get_None {V : Type} (k : string) (m : list (string * V)) :
  JsMap.get k m = None <-> ~ In k (JsMap.keys m).
Proof.
  induction m as [|[k0 v0] m IH]; simpl; [tauto|].
  destruct (String.eqb k0 k) eqn:E.
  - apply String.eqb_eq in E. split; [discriminate | tauto].
  - apply String.eqb_neq in E. rewrite IH. unfold JsMap.keys. tauto.
Qed.

(** ** Usage counters *)

Lemma countUp_get (counts : list (string * nat)) (k k' : string) :
  JsMap.get k' (countUp counts k)
  = if String.eqb k k'
    then Some (match JsMap.get k counts with Some n => n | None => 0 end + 1)
    else JsMap.get k' counts.
Proof.
  unfold countUp. rewrite JsMap_get_set.
  destruct (String.eqb k k'); [|reflexivity].
  destruct (JsMap.get k counts) as [n|]; [|reflexivity].
  destruct n; reflexivity.
Qed.

Lemma fold_countUp_get (l : list string) (counts : list (string * nat))
    (k : string) :
  JsMap.get k (fold_left countUp l counts)
  = if Nat.eqb (count_occ string_dec l k) 0
    then JsMap.get k counts
    else Some (match JsMap.get k counts with Some n => n | None => 0 end
               + count_occ string_dec l k).
Proof.
  revert counts. induction l as [|a l IH]; intros counts; simpl; [reflexivity|].
  rewrite IH, countUp_get.
  destruct (string_dec a k) as [-> | Hne].
  - rewrite String.eqb_refl. simpl.
    destruct (Nat.eqb (count_occ string_dec l k) 0) eqn:E.
    + apply Nat.eqb_eq in E. rewrite E. f_equal.
    + f_equal. lia.
  - apply String.eqb_neq in Hne. rewrite Hne. reflexivity.
Qed.

Lemma fold_fold_countUp_get {A : Type} (f : A -> list string) (l : list A)
    (counts : list (string * nat)) (k : string) :
  JsMap.get k (fold_left (fun c x => fold_left countUp (f x) c) l counts)
  = if Nat.eqb (count_occ string_dec (List.flat_map f l) k) 0
    then JsMap.get k counts
    else Some (match JsMap.get k counts with Some n => n | None => 0 end
               + count_occ string_dec (List.flat_map f l) k).
Proof.
  revert counts. induction l as [|a l IH]; intros counts; simpl; [reflexivity|].
  rewrite IH, fold_countUp_get, count_occ_app.
  destruct (Nat.eqb (count_occ string_dec (f a) k) 0) eqn:Ea.
  - apply Nat.eqb_eq in Ea. rewrite Ea. reflexivity.
  - apply Nat.eqb_neq in Ea.
    destruct (Nat.eqb (count_occ string_dec (List.flat_map f l) k) 0) eqn:El.
    + apply Nat.eqb_eq in El. rewrite El, Nat.add_0_r.
      apply Nat.eqb_neq in Ea. now rewrite Ea.
    + replace (Nat.eqb (count_occ string_dec (f a) k
                        + count_occ string_dec (List.flat_map f l) k) 0)
        with false by (symmetry; apply Nat.eqb_neq; lia).
      f_equal. lia.
Qed.

(** X9. [usageCounts] maps an identifier to the number of times the history
    items list it among their referenced templates, and has no entry for an
    identifier listed nowhere; [tagUsageCounts] does the same for the tags
    of the templates. An identifier is counted whether or not a template
    with it still exists. *)
Theorem usage_counts_count_occurrences
    (hist : list HistoryItem) (tpls : list PromptTemplate) (k : string) :
  let n := count_occ string_dec (List.flat_map referencedTemplates hist) k in
  let m := count_occ string_dec (List.flat_map tags tpls) k in
  JsMap.get k (usageCounts hist) = (if Nat.eqb n 0 then None else Some n)
  /\ JsMap.get k (tagUsageCounts tpls) = (if Nat.eqb m 0 then None else Some m)
  /\ (In k (JsMap.keys (usageCounts hist))
      <-> exists item, In item hist /\ In k (referencedTemplates item))
  /\ (In k (JsMap.keys (tagUsageCounts tpls))
      <-> exists t, In t tpls /\ In k (tags t)).
Proof.
  intros n m.
  assert (H1 : JsMap.get k (usageCounts hist)
               = if Nat.eqb n 0 then None else Some n).
  { unfold usageCounts. rewrite fold_fold_countUp_get. fold n. reflexivity. }
  assert (H2 : JsMap.get k (tagUsageCounts tpls)
               = if Nat.eqb m 0 then None else Some m).
  { unfold tagUsageCounts. rewrite fold_fold_countUp_get. fold m. reflexivity. }
  split; [exact H1|]. split; [exact H2|].
  assert (Hkeys : forall (c : list (string * nat)) (j : nat),
            JsMap.get k c = (if Nat.eqb j 0 then None else Some j) ->
            (In k (JsMap.keys c) <-> j > 0)).
  { intros c j Hc. destruct (Nat.eqb j 0) eqn:Ej.
    - apply Nat.eqb_eq in Ej. apply JsMap_get_None in Hc.
      split; [contradiction | lia].
    - apply Nat.eqb_neq in Ej. split; [lia|]. intros _.
      destruct (in_dec string_dec k (JsMap.keys c)) as [Hin | Hn]; [exact Hin|].
      apply JsMap_get_None in Hn. congruence. }
  split.
  - rewrite (Hkeys _ _ H1). unfold n. rewrite <- count_occ_In, in_flat_map.
    reflexivity.
  - rewrite (Hkeys _ _ H2). unfold m. rewrite <- count_occ_In, in_flat_map.
    reflexivity.
Qed.

(** ** Sorted tag lists *)

Lemma sortInsert_In (x y : string) (l : list string) :
  In y (sortInsert x l) <-> y = x \/ In y l.
Proof.
  induction l as [|a l IH]; simpl; [intuition congruence|].
  destruct (String.leb x a); simpl; [intuition congruence|].
  rewrite IH. intuition congruence.
Qed.

Lemma sortInsert_NoDup (x : string) (l : list string) :
  ~ In x l -> List.NoDup l -> List.NoDup (sortInsert x l).
Proof.
  induction l as [|a l IH]; simpl; intros Hx Hl.
  - constructor; [tauto | constructor].
  - destruct (String.leb x a).
    + constructor; [simpl; tauto | exact Hl].
    + apply List.NoDup_cons_iff in Hl. destruct Hl as [Ha Hl].
      constructor.
      * rewrite sortInsert_In. intuition congruence.
      * apply IH; tauto.
Qed.

Lemma sortInsert_Sorted (x : string) (l : list string) :
  Sorted (fun a b => String.leb a b = true) l ->
  Sorted (fun a b => String.leb a b = true) (sortInsert x l).
Proof.
  induction l as [|a l IH]; simpl; intros Hs.
  - repeat constructor.
  - destruct (String.leb x a) eqn:E.
    + constructor; [exact Hs | constructor; exact E].
    + apply Sorted_inv in Hs. destruct Hs as [Hs Hd].
      constructor; [now apply IH|].
      assert (Ea : String.leb a x = true).
      { destruct (String.leb_total a x) as [H | H]; [exact H | congruence]. }
      destruct l as [|b l]; simpl.
      * constructor. exact Ea.
      * destruct (String.leb x b); constructor; [exact Ea|].
        now inversion Hd.
Qed.

Lemma sortStrings_facts (l : list string) :
  Sorted (fun a b => String.leb a b = true) (sortStrings l)
  /\ (forall x, In x (sortStrings l) <-> In x l)
  /\ (List.NoDup l -> List.NoDup (sortStrings l))
  /\ List.length (sortStrings l) = List.length l.
Proof.
  unfold sortStrings. induction l as [|a l (IH1 & IH2 & IH3 & IH4)]; simpl.
  - repeat split; try tauto; constructor.
  - split; [now apply sortInsert_Sorted|].
    split; [intros x; rewrite sortInsert_In, IH2; intuition congruence|].
    split.
    + intros H. apply List.NoDup_cons_iff in H. destruct H as [Ha Hl].
      apply sortInsert_NoDup; [now rewrite IH2 | auto].
    + rewrite <- IH4. clear. generalize (fold_right sortInsert [] l).
      intros l'. induction l' as [|b l' IH]; simpl; [reflexivity|].
      destruct (String.leb a b); simpl; congruence.
Qed.

(** X10. [allTags] lists exactly the tags carried by some template, each
    once, in ascending order. *)
Theorem allTags_sorted_distinct_complete (tpls : list PromptTemplate) :
  Sorted (fun a b => String.leb a b = true) (allTags tpls)
  /\ List.NoDup (allTags tpls)
  /\ (forall tag, In tag (allTags tpls)
                  <-> exists t, In t tpls /\ In tag (tags t)).
Proof.
  unfold allTags.
  assert (E : fold_left
                (fun s t => fold_left (fun s tag => JsSet.add tag s) (tags t) s)
                tpls []
              = first_seen (List.flat_map tags tpls)).
  { rewrite <- JsSetFacts.of_list_first_seen. unfold JsSet.of_list.
    generalize (@nil string). induction tpls as [|a l IH]; intros acc; simpl.
    - reflexivity.
    - rewrite IH, fold_left_app. reflexivity. }
  rewrite E.
  destruct (sortStrings_facts (first_seen (List.flat_map tags tpls)))
    as (H1 & H2 & H3 & _).
  split; [exact H1|]. split; [apply H3, first_seen_NoDup|].
  intros tag. rewrite H2, first_seen_In, in_flat_map. reflexivity.
Qed.

Lemma usage_counts_count_occurrences_witness :
  In "t1" (JsMap.keys (tagUsageCounts [Sample.tpl "a" "A" ["t1"]])).
Proof.
  destruct (usage_counts_count_occurrences [] [Sample.tpl "a" "A" ["t1"]] "t1")
    as (_ & _ & _ & H).
  apply H. exists (Sample.tpl "a" "A" ["t1"]). simpl. auto.
Defined.

Lemma allTags_sorted_distinct_complete_witness :
  In "noir" (allTags Sample.library).
Proof.
  destruct (allTags_sorted_distinct_complete Sample.library) as (_ & _ & H).
  apply H. exists Sample.t1. simpl. auto.
Defined.

(** ** References of a history item *)


Lemma hydratedBundles_In (allBundles : list BundledTemplate)
    (item : HistoryItem) (b : BundledTemplate) :
  In b (hydratedBundles allBundles item) ->
  In b allBundles /\ In (b_id b) (referencedBundles item).
Proof.
  unfold hydratedBundles. intros H.
  apply list_elem_of_In, list_elem_of_omap in H.
  destruct H as (i & Hi & Hget). apply list_elem_of_In in Hi.
  apply JsMapFacts.get_Some_In in Hget.
  unfold bundlesById in Hget.
  apply JsMapFacts.In_of_entries, in_map_iff in Hget.
  destruct Hget as (x & E & Hx). inversion E; subst. auto.
Qed.



(** ** Deleting bundles and history items, clearing collections *)

(** X12. Deleting a bundle removes the bundles with its identifier and no
    other and touches nothing else in memory or store; history items that
    reference it keep the identifier, and both the history view and a rerun
    of such an item leave the deleted bundle out. *)
Theorem delete_bundle_touches_bundles_only
    (bundle : BundledTemplate) (st : AppState) :
  let st' := deleteBundle bundle st in
  (forall b, In b (bundles st') <-> In b (bundles st) /\ b_id b <> b_id bundle)
  /\ templates st' = templates st /\ history st' = history st
  /\ settings st' = settings st
  /\ store_templates (db st') = store_templates (db st)
  /\ store_history (db st') = store_history (db st)
  /\ store_settings (db st') = store_settings (db st)
  /\ (store_bundles (db st) = setStoreData b_id (bundles st) ∅ ->
      store_bundles (db st') = delete (b_id bundle) (store_bundles (db st)))
  /\ (forall item,
        ~ In (b_id bundle) (List.map b_id (hydratedBundles (bundles st') item)))
  /\ (forall item p,
        ~ In (b_id bundle)
            (List.map b_id
               (p_selectedBundles (fst (handleRerun item (bundles st') p))))).
Proof.
  intros st'.
  assert (Hin : forall b, In b (bundles st')
                          <-> In b (bundles st) /\ b_id b <> b_id bundle).
  { intros b. unfold st', deleteBundle. simpl. rewrite filter_In.
    rewrite negb_true_iff, String.eqb_neq. reflexivity. }
  split; [exact Hin|].
  do 6 (split; [reflexivity|]).
  split.
  { intros Hs. unfold st', deleteBundle. simpl. rewrite Hs.
    apply setStoreData_filter_delete. }
  split.
  - intros item H. apply in_map_iff in H. destruct H as (b & E & Hb).
    apply hydratedBundles_In in Hb. destruct Hb as [Hb _].
    apply Hin in Hb. tauto.
  - intros item p H. apply in_map_iff in H. destruct H as (b & E & Hb).
    simpl in Hb. apply filter_In in Hb. destruct Hb as [Hb _].
    apply Hin in Hb. tauto.
Qed.

Lemma delete_bundle_touches_bundles_only_witness :
  store_bundles (db (deleteBundle Sample.bundleA Sample.stLibrary))
  = delete "b1" (store_bundles (db Sample.stLibrary)).
Proof.
  destruct (delete_bundle_touches_bundles_only Sample.bundleA Sample.stLibrary)
    as (_ & _ & _ & _ & _ & _ & _ & H & _).
  apply H. reflexivity.
Defined.

(** X13. Confirming a history deletion with nothing pending changes
    nothing. With a pending item it removes the history items with that
    identifier and no other, touches neither templates nor bundles nor
    settings, and lowers the usage count of each template by the number of
    times the removed items listed it. *)
Theorem delete_history_item_touches_history_only
    (confirmDeleteItem : option HistoryItem) (st : AppState) :
  let st' := confirmDeleteItemAction confirmDeleteItem st in
  (confirmDeleteItem = None -> st' = st)
  /\ templates st' = templates st /\ bundles st' = bundles st
  /\ settings st' = settings st
  /\ store_templates (db st') = store_templates (db st)
  /\ store_bundles (db st') = store_bundles (db st)
  /\ store_settings (db st') = store_settings (db st)
  /\ (forall pending, confirmDeleteItem = Some pending ->
        (forall x, In x (history st')
                   <-> In x (history st) /\ h_id x <> h_id pending)
        /\ (store_history (db st) = setStoreData h_id (history st) ∅ ->
            store_history (db st') = delete (h_id pending) (store_history (db st)))
        /\ forall k,
             count_occ string_dec (List.flat_map referencedTemplates (history st)) k
             = count_occ string_dec
                 (List.flat_map referencedTemplates (history st')) k
               + count_occ string_dec
                   (List.flat_map referencedTemplates
                      (withId h_id (h_id pending) (history st))) k).
Proof.
  intros st'. unfold st', confirmDeleteItemAction.
  destruct confirmDeleteItem as [pending|]; simpl.
  2:{ repeat split; discriminate. }
  split; [discriminate|]. do 6 (split; [reflexivity|]).
  intros pending' [= <-]. split; [|split].
  - intros x. rewrite filter_In, negb_true_iff, String.eqb_neq. reflexivity.
  - intros Hs. rewrite Hs. apply setStoreData_filter_delete.
  - intros k. unfold withId. induction (history st) as [|a l IH]; simpl.
    + reflexivity.
    + destruct (String.eqb (h_id a) (h_id pending)); simpl;
        rewrite !count_occ_app, IH; lia.
Qed.

Lemma delete_history_item_touches_history_only_witness :
  let h1 :=
    {| h_id := "h1"; userPrompt := "p"; generatedPrompt := "g";
       timestamp := 0; model := "m"; mode := ModeText; config := None;
       referencedTemplates := ["t1"; "t2"]; referencedBundles := [] |} in
  let h2 :=
    {| h_id := "h2"; userPrompt := "p"; generatedPrompt := "g";
       timestamp := 0; model := "m"; mode := ModeText; config := None;
       referencedTemplates := ["t1"]; referencedBundles := [] |} in
  let st := setHistory (fun _ => [h1; h2]) Sample.stLibrary in
  let st' := confirmDeleteItemAction (Some h1) st in
  store_history (db st) = setStoreData h_id (history st) ∅
  /\ In h2 (history st') /\ ~ In h1 (history st')
  /\ store_history (db st') = delete "h1" (store_history (db st))
  /\ count_occ string_dec (List.flat_map referencedTemplates (history st)) "t1"
     = count_occ string_dec
         (List.flat_map referencedTemplates (history st')) "t1"
       + 1
  /\ templates st' = templates st.
Proof.
  cbv zeta.
  set (h1 := {| h_id := "h1"; referencedTemplates := ["t1"; "t2"] |}).
  set (h2 := {| h_id := "h2"; referencedTemplates := ["t1"] |}).
  set (st := setHistory (fun _ => [h1; h2]) Sample.stLibrary).
  destruct (delete_history_item_touches_history_only (Some h1) st)
    as (_ & Ht & _ & _ & _ & _ & _ & H).
  destruct (H h1 eq_refl) as (Hin & Hstore & Hcount).
  split; [reflexivity|].
  split; [apply Hin; split; [simpl; auto | discriminate]|].
  split; [intros Hx; apply Hin in Hx; destruct Hx as [_ Hx]; now apply Hx|].
  split; [apply Hstore; reflexivity|].
  split; [exact (Hcount "t1") | exact Ht].
Defined.

(** X14. Clearing the history empties it in memory and in the store and
    leaves templates, bundles and settings alone; a reload then starts with
    an empty history. Clearing the templates empties templates and bundles
    alike, in memory and store, and leaves the history alone, whose items
    then show no references. *)
Theorem clear_empties_memory_and_store (isAistudio : bool) (st : AppState) :
  let sh := clearHistoryConfirmed st in
  let sc := clearTemplatesConfirmed st in
  history sh = [] /\ store_history (db sh) = ∅
  /\ history (loadState isAistudio (db sh)) = []
  /\ templates sh = templates st /\ bundles sh = bundles st
  /\ settings sh = settings st
  /\ store_templates (db sh) = store_templates (db st)
  /\ store_bundles (db sh) = store_bundles (db st)
  /\ store_settings (db sh) = store_settings (db st)
  /\ templates sc = [] /\ bundles sc = []
  /\ store_templates (db sc) = ∅ /\ store_bundles (db sc) = ∅
  /\ templates (loadState isAistudio (db sc)) = []
  /\ bundles (loadState isAistudio (db sc)) = []
  /\ history sc = history st /\ settings sc = settings st
  /\ store_history (db sc) = store_history (db st)
  /\ store_settings (db sc) = store_settings (db st)
  /\ (forall item, hydratedTemplates (templates sc) item = []
                   /\ hydratedBundles (bundles sc) item = []).
Proof.
  intros sh sc. unfold sh, sc, clearHistoryConfirmed, clearTemplatesConfirmed.
  assert (Hh : loadArray (∅ : gmap string HistoryItem) [] = [])
    by (rewrite loadArray_getStoreData; apply getStoreData_empty).
  assert (Ht : loadArray (∅ : gmap string PromptTemplate) [] = [])
    by (rewrite loadArray_getStoreData; apply getStoreData_empty).
  assert (Hb : loadArray (∅ : gmap string BundledTemplate) [] = [])
    by (rewrite loadArray_getStoreData; apply getStoreData_empty).
  repeat split; try assumption.
  - unfold hydratedTemplates. simpl.
    induction (referencedTemplates item); simpl; auto.
  - unfold hydratedBundles. simpl.
    induction (referencedBundles item); simpl; auto.
Qed.

(** ** Selection toggles of the quick-add panel *)

Lemma toggle_generic {A : Type} (id : A -> string) (x : A) (prev : list A) :
  let next :=
    if existsb (fun t => String.eqb (id t) (id x)) prev
    then List.filter (fun t => negb (String.eqb (id t) (id x))) prev
    else (prev ++ [x])%list in
  (In (id x) (List.map id prev) ->
     forall t, In t next <-> In t prev /\ id t <> id x)
  /\ (~ In (id x) (List.map id prev) -> next = (prev ++ [x])%list)
  /\ (In (id x) (List.map id next) <-> ~ In (id x) (List.map id prev))
  /\ (forall k, k <> id x ->
        (In k (List.map id next) <-> In k (List.map id prev)))
  /\ (List.NoDup (List.map id prev) -> List.NoDup (List.map id next)).
Proof.
  intros next.
  assert (Hex : existsb (fun t => String.eqb (id t) (id x)) prev = true
                <-> In (id x) (List.map id prev)).
  { rewrite existsb_exists, in_map_iff. split.
    - intros (t & Ht & E). apply String.eqb_eq in E. eauto.
    - intros (t & E & Ht). exists t. split; [exact Ht|].
      now apply String.eqb_eq. }
  assert (Hf : forall t,
            In t (List.filter (fun t => negb (String.eqb (id t) (id x))) prev)
            <-> In t prev /\ id t <> id x).
  { intros t. rewrite filter_In, negb_true_iff, String.eqb_neq. reflexivity. }
  destruct (existsb (fun t => String.eqb (id t) (id x)) prev) eqn:E.
  - assert (Hin : In (id x) (List.map id prev)) by now apply Hex.
    unfold next. split; [intros _; exact Hf|].
    split; [intros Hn; contradiction|].
    split.
    { split; [|contradiction]. intros H. apply in_map_iff in H.
      destruct H as (t & Et & Ht). apply Hf in Ht. tauto. }
    split.
    { intros k Hk. rewrite !in_map_iff. split.
      - intros (t & Et & Ht). apply Hf in Ht. exists t. tauto.
      - intros (t & Et & Ht). exists t. split; [exact Et|].
        apply Hf. split; [exact Ht | congruence]. }
    intros Hnd. clear - Hnd. induction prev as [|a l IH]; simpl; [constructor|].
    apply List.NoDup_cons_iff in Hnd. destruct Hnd as [Ha Hl].
    destruct (String.eqb (id a) (id x)); simpl; [now apply IH|].
    constructor; [|now apply IH].
    rewrite in_map_iff. intros (t & Et & Ht). apply filter_In in Ht.
    apply Ha. rewrite <- Et. apply List.in_map. tauto.
  - assert (Hn : ~ In (id x) (List.map id prev)).
    { intros H. apply Hex in H. congruence. }
    unfold next. split; [intros H; contradiction|].
    split; [reflexivity|].
    rewrite List.map_app. simpl. split.
    { split; [intros _; exact Hn|]. intros _. apply in_app_iff. simpl. auto. }
    split.
    { intros k Hk. rewrite in_app_iff. simpl. intuition congruence. }
    intros Hnd. clear - Hnd Hn. induction prev as [|a l IH]; simpl in *.
    + constructor; [tauto | constructor].
    + apply List.NoDup_cons_iff in Hnd. destruct Hnd as [Ha Hl].
      constructor; [|apply IH; tauto].
      rewrite in_app_iff. simpl. intuition congruence.
Qed.

Lemma toggleTag_as_generic (tag : string) (prev : list string) :
  toggleTag tag prev
  = if existsb (fun t => String.eqb t tag) prev
    then List.filter (fun t => negb (String.eqb t tag)) prev
    else (prev ++ [tag])%list.
Proof.
  unfold toggleTag, includes.
  replace (existsb (String.eqb tag) prev)
    with (existsb (fun t => String.eqb t tag) prev); [reflexivity|].
  induction prev as [|a l IH]; simpl; [reflexivity|].
  now rewrite IH, String.eqb_sym.
Qed.

(** X15. A click in the quick-add panel flips whether the clicked tag,
    bundle or template (by identifier) is selected and changes the
    selection of no other; an unselected one is added last, a selected one
    is removed wherever it occurs; and a selection with distinct
    identifiers keeps distinct identifiers. *)
Theorem quick_add_toggle_flips_one
    (tag : string) (bundle : BundledTemplate) (template : PromptTemplate)
    (tagsSel : list string) (bundlesSel : list BundledTemplate)
    (templatesSel : list PromptTemplate) :
  ((In tag (toggleTag tag tagsSel) <-> ~ In tag tagsSel)
   /\ (forall k, k <> tag -> (In k (toggleTag tag tagsSel) <-> In k tagsSel))
   /\ (~ In tag tagsSel -> toggleTag tag tagsSel = (tagsSel ++ [tag])%list)
   /\ (List.NoDup tagsSel -> List.NoDup (toggleTag tag tagsSel)))
  /\ ((In (b_id bundle) (List.map b_id (toggleBundle bundle bundlesSel))
       <-> ~ In (b_id bundle) (List.map b_id bundlesSel))
      /\ (forall k, k <> b_id bundle ->
            (In k (List.map b_id (toggleBundle bundle bundlesSel))
             <-> In k (List.map b_id bundlesSel)))
      /\ (~ In (b_id bundle) (List.map b_id bundlesSel) ->
          toggleBundle bundle bundlesSel = (bundlesSel ++ [bundle])%list)
      /\ (List.NoDup (List.map b_id bundlesSel) ->
          List.NoDup (List.map b_id (toggleBundle bundle bundlesSel))))
  /\ ((In (t_id template) (List.map t_id (toggleTemplate template templatesSel))
       <-> ~ In (t_id template) (List.map t_id templatesSel))
      /\ (forall k, k <> t_id template ->
            (In k (List.map t_id (toggleTemplate template templatesSel))
             <-> In k (List.map t_id templatesSel)))
      /\ (~ In (t_id template) (List.map t_id templatesSel) ->
          toggleTemplate template templatesSel
          = (templatesSel ++ [template])%list)
      /\ (List.NoDup (List.map t_id templatesSel) ->
          List.NoDup (List.map t_id (toggleTemplate template templatesSel)))).
Proof.
  split; [|split].
  - rewrite toggleTag_as_generic.
    pose proof (toggle_generic (fun s : string => s) tag tagsSel) as H.
    cbv zeta in H. rewrite !List.map_id in H.
    destruct H as (_ & H2 & H3 & H4 & H5). auto.
  - destruct (toggle_generic b_id bundle bundlesSel) as (_ & H2 & H3 & H4 & H5).
    unfold toggleBundle. auto.
  - destruct (toggle_generic t_id template templatesSel)
      as (_ & H2 & H3 & H4 & H5).
    unfold toggleTemplate. auto.
Qed.

Lemma quick_add_toggle_flips_one_witness :
  toggleTemplate Sample.t3 [Sample.t1] = [Sample.t1; Sample.t3].
Proof.
  destruct (quick_add_toggle_flips_one "x" Sample.bundleA Sample.t3 [] []
              [Sample.t1]) as (_ & _ & _ & _ & H & _).
  apply H. simpl. intuition discriminate.
Defined.

(** ** Rows of the batch dialog *)

(** X16. The batch dialog never loses its last row: with distinct row
    identifiers, removing a row from a non-empty list leaves a non-empty
    list (a single row is never removed), removes only the row with that
    identifier and keeps the identifiers distinct; adding a row with a fresh
    identifier appends an empty row; editing a row changes the value of
    that row only and no identifier. *)
Theorem batch_rows_never_empty (rows : list PromptInput) :
  List.NoDup (List.map pi_id rows) -> rows <> [] ->
  (forall id,
     removePromptInput id rows <> []
     /\ List.NoDup (List.map pi_id (removePromptInput id rows))
     /\ (forall r, In r (removePromptInput id rows) -> In r rows)
     /\ (forall r, In r rows -> pi_id r <> id -> In r (removePromptInput id rows))
     /\ (List.length rows = 1 -> removePromptInput id rows = rows))
  /\ (forall uuid, ~ In uuid (List.map pi_id rows) ->
        addPromptInput uuid rows
        = (rows ++ [{| pi_id := uuid; value := EmptyString |}])%list
        /\ List.NoDup (List.map pi_id (addPromptInput uuid rows)))
  /\ (forall id v,
        List.map pi_id (updatePromptValue id v rows) = List.map pi_id rows
        /\ forall i r, nth_error rows i = Some r ->
             nth_error (updatePromptValue id v rows) i
             = Some (if String.eqb (pi_id r) id
                     then {| pi_id := pi_id r; value := v |} else r)).
Proof.
  intros Hnd Hne. split; [|split].
  - intros id. unfold removePromptInput.
    destruct (Nat.ltb 1 (List.length rows)) eqn:El.
    + apply Nat.ltb_lt in El.
      assert (Hf : forall r,
                In r (List.filter (fun p => negb (String.eqb (pi_id p) id)) rows)
                <-> In r rows /\ pi_id r <> id).
      { intros r. rewrite filter_In, negb_true_iff, String.eqb_neq. reflexivity. }
      split.
      { destruct rows as [|a [|b l]]; simpl in El; try lia.
        apply List.NoDup_cons_iff in Hnd. destruct Hnd as [Ha _].
        intros E.
        assert (Ha' : ~ In a (List.filter
                                (fun p => negb (String.eqb (pi_id p) id))
                                (a :: b :: l))) by (rewrite E; tauto).
        assert (Hb' : ~ In b (List.filter
                                (fun p => negb (String.eqb (pi_id p) id))
                                (a :: b :: l))) by (rewrite E; tauto).
        rewrite Hf in Ha', Hb'. simpl in Ha, Ha', Hb'.
        destruct (string_dec (pi_id a) id) as [Ea | Ea]; [|tauto].
        destruct (string_dec (pi_id b) id) as [Eb | Eb]; [|tauto].
        apply Ha. left. congruence. }
      split.
      { clear - Hnd. induction rows as [|a l IH]; simpl; [constructor|].
        apply List.NoDup_cons_iff in Hnd. destruct Hnd as [Ha Hl].
        destruct (String.eqb (pi_id a) id); simpl; [now apply IH|].
        constructor; [|now apply IH].
        rewrite in_map_iff. intros (t & Et & Ht). apply filter_In in Ht.
        apply Ha. rewrite <- Et. apply List.in_map. tauto. }
      split; [intros r Hr; now apply Hf in Hr|].
      split; [intros r Hr Hi; apply Hf; auto|].
      intros E. lia.
    + repeat split; auto.
  - intros uuid Hu. split; [reflexivity|].
    unfold addPromptInput. rewrite List.map_app. simpl.
    clear - Hnd Hu. induction rows as [|a l IH]; simpl in *.
    + constructor; [tauto | constructor].
    + apply List.NoDup_cons_iff in Hnd. destruct Hnd as [Ha Hl].
      constructor; [|apply IH; tauto].
      rewrite in_app_iff. simpl. intuition congruence.
  - intros id v. unfold updatePromptValue. split.
    + rewrite List.map_map. apply List.map_ext. intros a.
      now destruct (String.eqb (pi_id a) id).
    + intros i r Hi. now rewrite List.nth_error_map, Hi.
Qed.

Lemma batch_rows_never_empty_witness :
  removePromptInput "a" [{| pi_id := "a"; value := "only row" |}]
  = [{| pi_id := "a"; value := "only row" |}].
Proof.
  destruct (batch_rows_never_empty [{| pi_id := "a"; value := "only row" |}])
    as (H & _).
  - repeat constructor. simpl. tauto.
  - discriminate.
  - apply (H "a"). reflexivity.
Defined.

(** ** The option dialogs *)

(** X17. Whatever is clicked in the import dialog, settings stay unselected;
    every selection of history, templates and bundles can be reached. So
    an import started from the dialog never changes the settings, in memory
    or in the store, never fails on the settings entry, and for a parsed
    object always ends with the success notification. *)
Theorem import_dialog_never_imports_settings
    (clicks : list OptionKey) (file : FileContent) (st : AppState) :
  let o := importDialogOptions clicks in
  opt_settings o = false
  /\ (forall h t b, exists cs,
        importDialogOptions cs
        = {| opt_settings := false; opt_history := h;
             opt_templates := t; opt_bundles := b |})
  /\ settings (handleImportFileChange o file st) = settings st
  /\ store_settings (db (handleImportFileChange o file st))
     = store_settings (db st)
  /\ (forall d, file = FileObject d ->
        toasts (handleImportFileChange o file st)
        = {| message := "Data imported successfully!";
             toast_type := ToastSuccess |} :: toasts st).
Proof.
  intros o.
  assert (Ho : opt_settings o = false)
    by (apply importDialog_settings_off; reflexivity).
  split; [exact Ho|]. split.
  { intros h t b.
    exists ((if h then [] else [KeyHistory])
            ++ (if t then [] else [KeyTemplates])
            ++ (if b then [] else [KeyBundles]))%list.
    destruct h, t, b; reflexivity. }
  assert (Hs : forall d, importSettings o d st = Some st).
  { intros d. unfold importSettings. now rewrite Ho. }
  unfold handleImportFileChange.
  destruct file as [| |d].
  - repeat split. discriminate.
  - destruct (noOption o); repeat split; discriminate.
  - rewrite Hs.
    destruct (importArrays_fields o d st)
      as (H1 & _ & _ & _ & H2 & _ & _ & _ & H3).
    simpl. rewrite H1, H2, H3. repeat split.
Qed.

Lemma import_dialog_never_imports_settings_witness :
  settings
    (handleImportFileChange (importDialogOptions [KeySettings; KeyHistory])
       (FileObject
          {| doc_settings :=
               SettingsEntry "user-settings"
                 {| apiKeySource := SourceCustom; apiKey := "other";
                    hasSeenWelcome := true |};
             doc_history := FieldAbsent; doc_templates := FieldAbsent;
             doc_bundles := FieldAbsent |})
       Sample.stKey)
  = settings Sample.stKey.
Proof.
  apply (import_dialog_never_imports_settings [KeySettings; KeyHistory]).
Defined.

(** X18. The export dialog can reach every selection. Exporting with
    nothing selected writes no file and shows one error; any other export
    writes a file with exactly the selected keys and shows a success. In
    both cases the four collections, in memory and in the store, are
    unchanged, and the arrays written are those of the store. When the
    store is the write-through of memory, a written array holds records of
    the array in memory only, each identifier once, and exactly its records
    when their identifiers are distinct. *)
Theorem export_selection_and_frame (o : Options) (st : AppState) :
  (exists clicks, exportDialogOptions clicks = o)
  /\ sameCollections st (snd (handleExportData o st))
  /\ (noOption o = true ->
      fst (handleExportData o st) = None
      /\ toasts (snd (handleExportData o st))
         = {| message := "Nothing selected to export.";
              toast_type := ToastError |} :: toasts st)
  /\ (noOption o = false ->
      exists doc,
        fst (handleExportData o st) = Some doc
        /\ toasts (snd (handleExportData o st))
           = {| message := "Data exported successfully!";
                toast_type := ToastSuccess |} :: toasts st
        /\ (doc_settings doc <> SettingsAbsent <-> opt_settings o = true)
        /\ (doc_history doc
            = if opt_history o
              then FieldArray (getStoreData (store_history (db st)))
              else FieldAbsent)
        /\ (doc_templates doc
            = if opt_templates o
              then FieldArray (getStoreData (store_templates (db st)))
              else FieldAbsent)
        /\ (doc_bundles doc
            = if opt_bundles o
              then FieldArray (getStoreData (store_bundles (db st)))
              else FieldAbsent)
        /\ (in_sync st ->
            exportedFrom h_id (doc_history doc) (history st)
            /\ exportedFrom t_id (doc_templates doc) (templates st)
            /\ exportedFrom b_id (doc_bundles doc) (bundles st))).
Proof.
  assert (Hexp : forall (A : Type) (id : A -> string) (sel : bool)
                        (l : list A),
            exportedFrom id
              (if sel then FieldArray (getStoreData (setStoreData id l ∅))
               else FieldAbsent) l).
  { intros A id sel l items E. destruct sel; [|discriminate].
    inversion E; subst items. apply getStoreData_setStoreData. }
  split.
  { exists ((if opt_settings o then [] else [KeySettings])
            ++ (if opt_history o then [] else [KeyHistory])
            ++ (if opt_templates o then [] else [KeyTemplates])
            ++ (if opt_bundles o then [] else [KeyBundles]))%list.
    destruct o as [[] [] [] []]; reflexivity. }
  unfold handleExportData, sameCollections.
  destruct (noOption o) eqn:E; simpl.
  - repeat split; try reflexivity. discriminate.
  - split; [repeat split|]. split; [discriminate|].
    intros _. eexists. split; [reflexivity|]. split; [reflexivity|].
    simpl.
    split.
    { split.
      - intros H. destruct (opt_settings o); [reflexivity | now contradiction H].
      - intros ->. destruct (getSingleObject _ _); discriminate. }
    do 3 (split; [reflexivity|]).
    intros (Sh & St & Sb). rewrite Sh, St, Sb.
    split; [|split]; apply Hexp.
Qed.

Lemma export_selection_and_frame_witness :
  let o := exportDialogOptions [KeySettings; KeyHistory] in
  noOption o = false
  /\ in_sync Sample.stLibrary
  /\ List.NoDup (List.map t_id (templates Sample.stLibrary))
  /\ exists doc items,
       fst (handleExportData o Sample.stLibrary) = Some doc
       /\ toasts (snd (handleExportData o Sample.stLibrary))
          = {| message := "Data exported successfully!";
               toast_type := ToastSuccess |} :: toasts Sample.stLibrary
       /\ doc_history doc = FieldAbsent
       /\ doc_templates doc = FieldArray items
       /\ List.NoDup (List.map t_id items)
       /\ (In Sample.t2 items <-> In Sample.t2 (templates Sample.stLibrary)).
Proof.
  cbv zeta.
  assert (Hsync : in_sync Sample.stLibrary) by (unfold in_sync; repeat split).
  assert (Hn : List.NoDup (List.map t_id (templates Sample.stLibrary))).
  { vm_compute. repeat constructor; simpl; intuition discriminate. }
  split; [reflexivity|]. split; [exact Hsync|]. split; [exact Hn|].
  destruct (export_selection_and_frame
              (exportDialogOptions [KeySettings; KeyHistory]) Sample.stLibrary)
    as (_ & _ & _ & H).
  destruct (H eq_refl) as (doc & Hdoc & Htoast & _ & Hh & Ht & _ & Hfrom).
  destruct (Hfrom Hsync) as (_ & Hft & _).
  destruct (Hft _ Ht) as (_ & Hnd & Hall).
  exists doc. eexists.
  split; [exact Hdoc|]. split; [exact Htoast|]. split; [exact Hh|].
  split; [exact Ht|]. split; [exact Hnd|]. apply (Hall Hn).
Defined.

(** ** More on the import merge *)

(** X19. After a merge, the number of records with a given identifier is
    the number the existing list had when it had any, and otherwise the
    number the file has: records of the file are never compared with each
    other, so a file that repeats a new identifier adds every copy. When
    both the existing list and the file have distinct identifiers, so has
    the result. *)
Theorem import_merge_identifier_counts {A : Type} (id : A -> string)
    (incoming prev : list A) (k : string) :
  List.length (withId id k (importMerge id incoming prev))
  = (if includes (List.map id prev) k
     then List.length (withId id k prev)
     else List.length (withId id k incoming))
  /\ (List.NoDup (List.map id prev) -> List.NoDup (List.map id incoming) ->
      List.NoDup (List.map id (importMerge id incoming prev))).
Proof.
  unfold importMerge, withId. split.
  - rewrite List.filter_app, List.length_app, filter_filter_and.
    destruct (includes (List.map id prev) k) eqn:E.
    + rewrite (filter_all_false _ incoming); [simpl; lia|].
      intros x _. destruct (String.eqb (id x) k) eqn:Ex;
        [|now rewrite andb_false_r].
      apply String.eqb_eq in Ex. subst k. now rewrite E.
    + rewrite (filter_id_absent id prev k) by now apply includes_not_In.
      simpl. f_equal. apply List.filter_ext. intros x.
      destruct (String.eqb (id x) k) eqn:Ex; [|now rewrite andb_false_r].
      apply String.eqb_eq in Ex. subst k. now rewrite E.
  - intros Hp Hi. rewrite List.map_app.
    apply NoDup_ListNoDup. apply NoDup_app. repeat split.
    + now apply NoDup_ListNoDup.
    + intros x Hx Hx'. apply list_elem_of_In in Hx, Hx'.
      apply in_map_iff in Hx'. destruct Hx' as (y & <- & Hy).
      apply filter_In in Hy. destruct Hy as [_ Hy].
      apply negb_true_iff, includes_not_In in Hy. contradiction.
    + apply NoDup_ListNoDup. clear - Hi.
      induction incoming as [|a l IH]; simpl; [constructor|].
      apply List.NoDup_cons_iff in Hi. destruct Hi as [Ha Hl].
      destruct (negb _); simpl; [|now apply IH].
      constructor; [|now apply IH].
      rewrite in_map_iff. intros (t & Et & Ht). apply filter_In in Ht.
      apply Ha. rewrite <- Et. apply List.in_map. tauto.
Qed.

Lemma import_merge_identifier_counts_witness :
  List.NoDup
    (List.map t_id
       (importMerge t_id [Sample.tpl "t1" "Rain (other)" []; Sample.tpl "t9" "Fog" []]
          Sample.library)).
Proof.
  apply (import_merge_identifier_counts t_id
           [Sample.tpl "t1" "Rain (other)" []; Sample.tpl "t9" "Fog" []]
           Sample.library EmptyString);
    repeat constructor; simpl; intuition discriminate.
Defined.

(** X20. What is not an object never gets merged: when the parsed JSON is a
    primitive, an import with any option selected is aborted by the first
    membership test (nothing applied, one error), while with no option
    selected every parsed file, whatever it holds, is reported as imported
    and changes nothing. A settings entry that the store rejects aborts the
    import before any array is merged. A stored settings entry replaces the
    settings in memory and is written under its own key and under
    'user-settings'. *)
Theorem import_throwing_steps_abort (o : Options) (d : Document) (st : AppState) :
  (noOption o = false -> importAborted st (handleImportFileChange o FilePrimitive st))
  /\ (noOption o = true ->
      forall file, file <> FileMalformed ->
        sameCollections st (handleImportFileChange o file st)
        /\ toasts (handleImportFileChange o file st)
           = {| message := "Data imported successfully!";
                toast_type := ToastSuccess |} :: toasts st)
  /\ (opt_settings o = true -> doc_settings d = SettingsUnkeyed ->
      importAborted st (handleImportFileChange o (FileObject d) st))
  /\ (forall key value,
        opt_settings o = true -> doc_settings d = SettingsEntry key value ->
        settings (handleImportFileChange o (FileObject d) st) = value
        /\ store_settings (db (handleImportFileChange o (FileObject d) st))
           = <[user_settings_key := value]>
               (<[key := value]> (store_settings (db st)))).
Proof.
  split.
  { intros E. simpl. rewrite E. unfold importAborted, sameCollections. simpl.
    repeat split. eauto. }
  split.
  { intros E file Hf. unfold noOption in E. apply negb_true_iff in E.
    apply orb_false_iff in E. destruct E as [E Eb].
    apply orb_false_iff in E. destruct E as [E Et].
    apply orb_false_iff in E. destruct E as [Es Eh].
    destruct file as [| |d']; [contradiction| |].
    - simpl. unfold noOption. rewrite Es, Eh, Et, Eb. simpl.
      unfold sameCollections. repeat split.
    - unfold handleImportFileChange, importSettings, importHistory,
        importTemplates, importBundles.
      rewrite Es, Eh, Et, Eb. unfold sameCollections. repeat split. }
  split.
  { intros Es Ed. unfold handleImportFileChange, importSettings.
    rewrite Es, Ed. unfold importAborted, sameCollections. simpl.
    repeat split. eauto. }
  intros key value Es Ed. unfold handleImportFileChange.
  destruct (importSettings o d st) as [sa|] eqn:Ea.
  2:{ apply importSettings_None in Ea. destruct Ea as [_ Ea]. congruence. }
  destruct (importArrays_fields o d sa) as (H1 & _ & _ & _ & H2 & _).
  destruct (importSettings_fields o d st sa Ea)
    as (_ & _ & _ & _ & _ & _ & _ & [(_ & _ & [E | [E | E]])
                                    | (k & v & _ & E & E1 & E2)]);
    try congruence.
  assert (k = key /\ v = value) as [-> ->] by (split; congruence).
  simpl. rewrite H1, H2, E1, E2. auto.
Qed.

Lemma import_throwing_steps_abort_witness :
  importAborted Sample.stLibrary
    (handleImportFileChange allOptions FilePrimitive Sample.stLibrary).
Proof.
  destruct (import_throwing_steps_abort allOptions Sample.docClash
              Sample.stLibrary) as (H & _).
  apply H. reflexivity.
Defined.

(** ** Saving a history item as a template *)

(** X21. [handleSaveTemplateFromHistory] with an empty key sends no
    metadata request, saves nothing and shows 'API key is missing.'; when
    the metadata call fails it saves nothing and shows its own failure
    text; otherwise it puts exactly one new template in front, whose prompt
    is the item's generated prompt and whose title, description and tags
    are the returned ones. It sends at most one request, which carries each
    existing tag once, never changes history, bundles or settings, and
    always ends with the saving marker cleared. *)
Theorem save_from_history_adds_one_or_nothing
    (isAistudio : bool) (w : SaveWorld) (item : HistoryItem) (st : AppState) :
  let r := handleSaveTemplateFromHistory isAistudio w item st in
  let key := apiKeyToUse isAistudio (settings st) (save_API_KEY w) in
  let request :=
    {| mr_prompt := generatedPrompt item;
       mr_existingTags := first_seen (List.flat_map tags (templates st));
       mr_apiKey := key |} in
  s_isSavingTemplate r = None
  /\ history (s_app r) = history st /\ bundles (s_app r) = bundles st
  /\ settings (s_app r) = settings st
  /\ List.length (s_calls r) <= 1
  /\ (forall q, In q (s_calls r) ->
        q = request /\ List.NoDup (mr_existingTags q)
        /\ forall tag, In tag (mr_existingTags q)
                       <-> exists t, In t (templates st) /\ In tag (tags t))
  /\ (key = EmptyString ->
      s_calls r = []
      /\ s_app r = showToast {| message := "API key is missing.";
                                toast_type := ToastError |} st)
  /\ (key <> EmptyString ->
      s_calls r = [request]
      /\ (forall msg, generateTemplateMetadata w request = inl msg ->
            s_app r = showToast
                        {| message := "Failed to generate template metadata.";
                           toast_type := ToastError |} st)
      /\ (forall md, generateTemplateMetadata w request = inr md ->
            exists t,
              templates (s_app r) = t :: templates st
              /\ store_templates (db (s_app r))
                 = setStoreData t_id (t :: templates st) ∅
              /\ t_id t = saveUUID w /\ prompt t = generatedPrompt item
              /\ title t = m_title md /\ description t = m_description md
              /\ tags t = m_tags md /\ models t = ["Sora 2.2"])).
Proof.
  intros r key request. unfold r, handleSaveTemplateFromHistory.
  fold key. rewrite JsSetFacts.of_list_first_seen. fold request.
  assert (Htags : List.NoDup (mr_existingTags request)
                  /\ forall tag, In tag (mr_existingTags request)
                       <-> exists t, In t (templates st) /\ In tag (tags t)).
  { simpl. split; [apply first_seen_NoDup|].
    intros tag. rewrite first_seen_In, in_flat_map. reflexivity. }
  destruct (truthy key) eqn:Ek; simpl.
  - apply truthy_true in Ek.
    assert (Hq : forall q, In q [request] ->
              q = request /\ List.NoDup (mr_existingTags q)
              /\ forall tag, In tag (mr_existingTags q)
                   <-> exists t, In t (templates st) /\ In tag (tags t)).
    { intros q [<- | []]. split; [reflexivity | exact Htags]. }
    destruct (generateTemplateMetadata w request) as [msg|md] eqn:Eg; simpl;
      do 4 (split; [reflexivity|]); (split; [lia|]); (split; [exact Hq|]);
      (split; [intros; contradiction|]); intros _; (split; [reflexivity|]);
      split.
    + intros msg' _. reflexivity.
    + intros md' [=].
    + intros msg' [=].
    + intros md' [= <-]. eexists. repeat split.
  - apply truthy_false in Ek.
    do 4 (split; [reflexivity|]). split; [lia|].
    split; [intros q []|]. split; [intros _; split; reflexivity|].
    intros; contradiction.
Qed.

Lemma save_from_history_adds_one_or_nothing_witness :
  let item :=
    {| h_id := "h1"; userPrompt := "p"; generatedPrompt := "g";
       timestamp := 0; model := "m"; mode := ModeText; config := None;
       referencedTemplates := []; referencedBundles := [] |} in
  let saved :=
    handleSaveTemplateFromHistory false
      {| save_API_KEY := None;
         generateTemplateMetadata := fun _ => inr (Sample.meta "1");
         saveUUID := "uuid-9" |} item Sample.stLibrary in
  let failed :=
    handleSaveTemplateFromHistory false
      {| save_API_KEY := None;
         generateTemplateMetadata := fun _ => inl "quota";
         saveUUID := "uuid-9" |} item Sample.stLibrary in
  apiKeyToUse false (settings Sample.stLibrary) None <> EmptyString
  /\ (exists t,
        templates (s_app saved) = t :: templates Sample.stLibrary
        /\ t_id t = "uuid-9" /\ prompt t = "g" /\ title t = "title 1"
        /\ tags t = ["1"])
  /\ List.length (s_calls saved) = 1
  /\ s_app failed
     = showToast {| message := "Failed to generate template metadata.";
                    toast_type := ToastError |} Sample.stLibrary.
Proof.
  cbv zeta.
  set (item := {| h_id := "h1"; referencedBundles := [] |}).
  assert (Hk : apiKeyToUse false (settings Sample.stLibrary) None <> EmptyString)
    by discriminate.
  split; [exact Hk|].
  destruct (save_from_history_adds_one_or_nothing false
              {| save_API_KEY := None;
                 generateTemplateMetadata := fun _ => inr (Sample.meta "1");
                 saveUUID := "uuid-9" |} item Sample.stLibrary)
    as (_ & _ & _ & _ & _ & _ & _ & H).
  destruct (H Hk) as (Hcalls & _ & Hok).
  destruct (Hok (Sample.meta "1") eq_refl)
    as (t & Ht & _ & Hid & Hp & Htitle & _ & Htags & _).
  split; [exists t; repeat split; assumption|].
  split; [now rewrite Hcalls|].
  destruct (save_from_history_adds_one_or_nothing false
              {| save_API_KEY := None;
                 generateTemplateMetadata := fun _ => inl "quota";
                 saveUUID := "uuid-9" |} item Sample.stLibrary)
    as (_ & _ & _ & _ & _ & _ & _ & H').
  destruct (H' Hk) as (_ & Hfail & _).
  exact (Hfail "quota" eq_refl).
Defined.

(** ** [handleRerun] and its regular expression *)

Lemma app_String (c : ascii) (a b : string) :
  String c a ++ b = String c (a ++ b).
Proof. reflexivity. Qed.

Lemma occursIn_false_inv (p : string) (c : ascii) (s : string) :
  occursIn p (String c s) = false ->
  dropPrefix p (String c s) = None /\ occursIn p s = false.
Proof.
  intros H. destruct p as [|a p']; [discriminate H|].
  cbn [occursIn dropPrefix] in *.
  destruct (Ascii.eqb a c); [|auto].
  destruct (dropPrefix p' s); [discriminate H | auto].
Qed.

Lemma occursIn_false_head (p s : string) :
  occursIn p s = false -> dropPrefix p s = None.
Proof.
  destruct s as [|c s]; [|now intros H; apply occursIn_false_inv in H].
  intros H. destruct p; [discriminate H | reflexivity].
Qed.

(** A text that does not start with the pattern still does not when it is
    continued by a character the pattern does not contain. *)
Lemma dropPrefix_None_app (p b : string) (c : ascii) (x : string) :
  allChars (fun a => negb (Ascii.eqb a c)) p = true ->
  dropPrefix p b = None ->
  dropPrefix p (b ++ String c x) = None.
Proof.
  revert b. induction p as [|a p IH]; intros b Hp H; simpl in *; [discriminate|].
  apply andb_true_iff in Hp. destruct Hp as [Ha Hp].
  destruct b as [|b0 b].
  - change (EmptyString ++ String c x) with (String c x). simpl.
    apply negb_true_iff in Ha. now rewrite Ha.
  - rewrite app_String. simpl. destruct (Ascii.eqb a b0); [|reflexivity].
    now apply IH.
Qed.

Lemma afterLastParen_closing (x : string) :
  noLineTerminator x = true -> afterLastParen (x ++ ")") = Some EmptyString.
Proof.
  induction x as [|c x IH]; intros H.
  - reflexivity.
  - simpl in H. apply andb_true_iff in H. destruct H as [Hc Hx].
    rewrite app_String. simpl. apply negb_true_iff in Hc. rewrite Hc.
    now rewrite IH.
Qed.

Lemma matchMediaAt_None_app (s : string) (c : ascii) (x : string) :
  c = " "%char ->
  s <> EmptyString ->
  occursIn "(media:" s = false ->
  matchMediaAt (s ++ String c x) = None.
Proof.
  intros -> Hs H. destruct s as [|a s]; [contradiction|].
  rewrite app_String. unfold matchMediaAt.
  destruct (isWhiteSpace a); [|reflexivity].
  apply occursIn_false_inv in H. destruct H as [_ H].
  apply occursIn_false_head in H.
  rewrite (dropPrefix_None_app "(media:" s " "%char x); [reflexivity | reflexivity | exact H].
Qed.

Lemma matchMediaAt_None (s : string) :
  occursIn "(media:" s = false -> matchMediaAt s = None.
Proof.
  intros H. destruct s as [|a s]; [reflexivity|].
  unfold matchMediaAt. destruct (isWhiteSpace a); [|reflexivity].
  apply occursIn_false_inv in H. destruct H as [_ H].
  apply occursIn_false_head in H. now rewrite H.
Qed.

Lemma stripMedia_unmarked (s : string) :
  occursIn "(media:" s = false -> stripMedia s = s.
Proof.
  induction s as [|c s IH]; intros H; [reflexivity|].
  cbn [stripMedia]. rewrite (matchMediaAt_None _ H).
  apply occursIn_false_inv in H. destruct H as [_ H]. now rewrite IH.
Qed.

Lemma stripMedia_suffix (p n : string) :
  occursIn "(media:" p = false -> noLineTerminator n = true ->
  stripMedia (p ++ " (media: " ++ n ++ ")") = p.
Proof.
  intros Hp Hn. induction p as [|c p IH].
  - change (EmptyString ++ " (media: " ++ n ++ ")")
      with (String " "%char ("(media:" ++ (String " "%char n ++ ")"))).
    cbn [stripMedia]. unfold matchMediaAt.
    replace (isWhiteSpace " "%char) with true by reflexivity.
    replace (dropPrefix "(media:" ("(media:" ++ (String " "%char n ++ ")")))
      with (Some (String " "%char n ++ ")")) by reflexivity.
    rewrite afterLastParen_closing; [reflexivity|].
    simpl. exact Hn.
  - rewrite app_String. cbn [stripMedia].
    change (String c (p ++ " (media: " ++ n ++ ")"))
      with (String c p ++ String " "%char ("(media: " ++ n ++ ")")).
    rewrite (matchMediaAt_None_app (String c p)); [|reflexivity|discriminate|exact Hp].
    rewrite app_String. f_equal.
    apply occursIn_false_inv in Hp. destruct Hp as [_ Hp]. now apply IH.
Qed.

(** X22. A rerun takes the item's configuration when it has one and keeps
    the composer's otherwise, selects exactly the library bundles whose
    identifier the item references (identifiers of deleted bundles select
    nothing), clears the selected tags, the individually selected templates
    and the media, and shows the composer. The prompt is the item's user
    prompt without its first [ (media: ...)] mark: for an item recorded by
    [handleSubmit] from a prompt that does not contain [(media:], and a
    file name, if any, without line break and without [(media:], that is
    the prompt as typed, with or without attached media; for an item
    recorded from media alone it is the text [Media: <file name>]. *)
Theorem rerun_restores_composer
    (item : HistoryItem) (allBundles : list BundledTemplate)
    (p : PrompterProps) :
  let p' := fst (handleRerun item allBundles p) in
  snd (handleRerun item allBundles p) = PROMPTER
  /\ p_selectedTags p' = [] /\ p_selectedIndividualTemplates p' = []
  /\ p_media p' = None
  /\ (forall b, In b (p_selectedBundles p')
                <-> In b allBundles /\ In (b_id b) (referencedBundles item))
  /\ (forall c, config item = Some c ->
        p_isJsonMode p' = cfg_isJsonMode c /\ p_useMarsLsp p' = cfg_useMarsLsp c
        /\ p_style p' = cfg_style c /\ p_length p' = cfg_length c
        /\ p_useReasoning p' = cfg_useReasoning c)
  /\ (config item = None ->
        p_isJsonMode p' = p_isJsonMode p /\ p_useMarsLsp p' = p_useMarsLsp p
        /\ p_style p' = p_style p /\ p_length p' = p_length p
        /\ p_useReasoning p' = p_useReasoning p)
  /\ (forall typed media,
        userPrompt item = userPromptForHistory typed media ->
        occursIn "(media:" typed = false ->
        (forall m, media = Some m ->
           noLineTerminator (file_name m) = true
           /\ occursIn "(media:" (file_name m) = false) ->
        p_prompt p'
        = match media with
          | Some m => if truthy typed then typed else "Media: " ++ file_name m
          | None => typed
          end).
Proof.
  intros p'. unfold p', handleRerun. simpl.
  split; [reflexivity|]. split; [reflexivity|]. split; [reflexivity|].
  split; [reflexivity|].
  split.
  { intros b. rewrite filter_In, includes_In. reflexivity. }
  split; [intros c ->; auto|]. split; [intros ->; auto|].
  intros typed media -> Ht Hm. unfold userPromptForHistory.
  destruct media as [m|]; [|now apply stripMedia_unmarked].
  destruct (Hm m eq_refl) as [Hn Ho].
  destruct (truthy typed) eqn:E.
  - now apply stripMedia_suffix.
  - apply stripMedia_unmarked.
    change ("Media: " ++ file_name m)
      with (String "M"%char (String "e"%char (String "d"%char
             (String "i"%char (String "a"%char (String ":"%char
               (String " "%char (file_name m)))))))).
    cbn [occursIn dropPrefix Ascii.eqb Bool.eqb].
    exact Ho.
Qed.

Lemma rerun_restores_composer_witness :
  p_prompt
    (fst (handleRerun
            (newHistoryItem
               {| p_prompt := "a cat"; p_media := Some {| file_name := "cat.png";
                                                          file_type := "image/png" |};
                  p_isJsonMode := true; p_useMarsLsp := false;
                  p_style := StyleAnime; p_length := LengthShort;
                  p_useReasoning := true; p_selectedTags := [];
                  p_selectedBundles := [Sample.bundleA];
                  p_selectedIndividualTemplates := []; p_isAistudio := false |}
               (Sample.world Sample.streamABC) [] "ABC")
            [] Sample.props))
  = "a cat".
Proof.
  set (item := newHistoryItem _ _ _ _).
  destruct (rerun_restores_composer item [] Sample.props)
    as (_ & _ & _ & _ & _ & _ & _ & H).
  apply (H "a cat" (Some {| file_name := "cat.png"; file_type := "image/png" |})).
  - reflexivity.
  - reflexivity.
  - intros m [= <-]. split; reflexivity.
Defined.

(** ** The template form: comma-separated lists *)

Lemma splitAux_noComma (cur a : string) :
  noComma a = true -> splitAux comma cur a = [cur ++ a].
Proof.
  revert cur. induction a as [|c a IH]; intros cur H.
  - simpl. now rewrite str_app_nil_r.
  - simpl in H. apply andb_true_iff in H. destruct H as [Hc Ha].
    apply negb_true_iff in Hc. simpl. rewrite Hc, IH by exact Ha.
    now rewrite str_app_assoc.
Qed.

Lemma splitAux_app (cur a b : string) :
  noComma a = true ->
  splitAux comma cur (a ++ String comma b)
  = (cur ++ a) :: splitAux comma EmptyString b.
Proof.
  revert cur. induction a as [|c a IH]; intros cur H.
  - change (EmptyString ++ String comma b) with (String comma b).
    simpl. now rewrite str_app_nil_r.
  - simpl in H. apply andb_true_iff in H. destruct H as [Hc Ha].
    apply negb_true_iff in Hc. rewrite app_String. simpl.
    rewrite Hc, IH by exact Ha. now rewrite str_app_assoc.
Qed.

Lemma split_join (t : string) (l : list string) :
  noComma t = true -> Forall (fun s => noComma s = true) l ->
  split comma (join ", " (t :: l))
  = t :: List.map (fun s => String " "%char s) l.
Proof.
  revert t. induction l as [|u l IH]; intros t Ht Hl.
  - unfold split, join. simpl. now apply splitAux_noComma.
  - inversion Hl as [|? ? Hu Hl']; subst.
    unfold split, join in *.
    change (String.concat ", " (t :: u :: l))
      with (t ++ String comma (String " "%char (String.concat ", " (u :: l)))).
    rewrite splitAux_app by exact Ht. change (EmptyString ++ t) with t. f_equal.
    specialize (IH u Hu Hl').
    assert (E : forall s rest,
              splitAux comma EmptyString s = u :: rest ->
              splitAux comma EmptyString (String " "%char s)
              = String " "%char u :: rest).
    { clear. intros s rest.
      assert (G : forall cur s,
                splitAux comma (String " "%char cur) s
                = match splitAux comma cur s with
                  | [] => []
                  | x :: r => String " "%char x :: r
                  end).
      { intros cur s0. revert cur. induction s0 as [|c s0 IHs]; intros cur.
        - reflexivity.
        - simpl. destruct (Ascii.eqb c comma); [reflexivity|].
          rewrite <- IHs. reflexivity. }
      intros H. simpl. replace (Ascii.eqb " "%char comma) with false by reflexivity.
      change (EmptyString ++ String " "%char EmptyString)
        with (String " "%char EmptyString).
      rewrite G, H. reflexivity. }
    rewrite (E _ _ IH). reflexivity.
Qed.

Lemma parseList_join (l : list string) :
  Forall (fun s => truthy s = true /\ noComma s = true /\ jsTrim s = s) l ->
  parseList (join ", " l) = l.
Proof.
  intros H. destruct l as [|t l]; [reflexivity|].
  inversion H as [|? ? (Ht1 & Ht2 & Ht3) Hl]; subst.
  unfold parseList. rewrite split_join.
  - simpl. rewrite Ht3, Ht1. f_equal.
    clear - Hl. induction l as [|u l IH]; simpl; [reflexivity|].
    inversion Hl as [|? ? (Hu1 & Hu2 & Hu3) Hl']; subst.
    replace (jsTrim (String " "%char u)) with (jsTrim u) by reflexivity.
    rewrite Hu3, Hu1. f_equal. now apply IH.
  - exact Ht2.
  - clear - Hl. induction Hl; constructor; tauto.
Qed.

(** X23. The tags and models inputs of the template form are parsed by
    splitting at commas, trimming and dropping what is empty, so no parsed
    entry is empty. A list whose entries are non-empty, free of commas and
    of surrounding white space is shown in the input as its entries joined
    by a comma and a space, and parsing that text gives the list back;
    typing the shown text again therefore leaves the tags as they were. *)
Theorem tags_input_round_trip (l : list string) (input : string)
    (t : PromptTemplate) :
  (forall x, In x (parseList input) -> x <> EmptyString)
  /\ (Forall (fun s => truthy s = true /\ noComma s = true /\ jsTrim s = s) l ->
      parseList (join ", " l) = l)
  /\ (Forall (fun s => truthy s = true /\ noComma s = true /\ jsTrim s = s)
        (tags t) ->
      changeTagsInput (tagsInput (openTemplateForm (Some t)))
        (openTemplateForm (Some t))
      = openTemplateForm (Some t)).
Proof.
  split.
  { intros x Hx. unfold parseList in Hx. apply filter_In in Hx.
    destruct Hx as [_ Hx]. now apply truthy_true. }
  split; [apply parseList_join|].
  intros H. unfold changeTagsInput. simpl. now rewrite parseList_join.
Qed.

Lemma tags_input_round_trip_witness :
  parseList (join ", " ["noir"; "slow motion"; "sci-fi"])
  = ["noir"; "slow motion"; "sci-fi"].
Proof.
  destruct (tags_input_round_trip ["noir"; "slow motion"; "sci-fi"]
              EmptyString Sample.t1) as (_ & H & _).
  apply H. repeat constructor.
Defined.

(** X24. Saving the template form does nothing while the title or the
    prompt is empty. A form opened on a template and saved unchanged hands
    back that very template, under its own identifier, and the library
    stays as it was when the template is the only record with its
    identifier; a changed title changes the title alone. A form opened
    empty saves a new template under the fresh identifier, in front of the
    others. *)
Theorem template_form_save
    (t : PromptTemplate) (uuid newTitle : string) (f : TemplateFormState)
    (st : AppState) :
  (f_title f = EmptyString \/ f_prompt f = EmptyString ->
   forall existing, saveTemplateFromForm existing uuid f st = st)
  /\ (title t <> EmptyString -> prompt t <> EmptyString ->
      templateFormSave (Some t) uuid (openTemplateForm (Some t)) = Some t
      /\ ((forall x, In x (templates st) -> t_id x = t_id t -> x = t) ->
          templates (saveTemplateFromForm (Some t) uuid
                       (openTemplateForm (Some t)) st)
          = templates st)
      /\ (newTitle <> EmptyString ->
          templateFormSave (Some t) uuid
            (changeTitle newTitle (openTemplateForm (Some t)))
          = Some {| t_id := t_id t; title := newTitle;
                    description := description t; prompt := prompt t;
                    tags := tags t; models := models t;
                    exampleVideo := exampleVideo t;
                    exampleVideoType := exampleVideoType t |}))
  /\ (f_id f = None -> f_title f <> EmptyString -> f_prompt f <> EmptyString ->
      exists new,
        templateFormSave None uuid f = Some new /\ t_id new = uuid
        /\ templates (saveTemplateFromForm None uuid f st)
           = new :: templates st).
Proof.
  split.
  { intros H existing. unfold saveTemplateFromForm, templateFormSave.
    destruct H as [-> | ->]; simpl; [reflexivity|].
    now rewrite orb_true_r. }
  split.
  { intros Ht Hp. apply truthy_true in Ht, Hp.
    assert (Es : templateFormSave (Some t) uuid (openTemplateForm (Some t))
                 = Some t).
    { unfold templateFormSave. simpl. rewrite Ht, Hp. simpl.
      now destruct t. }
    split; [exact Es|]. split.
    - intros Hu. unfold saveTemplateFromForm. rewrite Es.
      unfold handleSaveTemplate. simpl.
      induction (templates st) as [|a l IH]; simpl; [reflexivity|].
      rewrite IH by (intros x Hx; apply Hu; simpl; auto).
      destruct (String.eqb (t_id a) (t_id t)) eqn:E; [|reflexivity].
      apply String.eqb_eq in E. f_equal. symmetry. apply Hu; simpl; auto.
    - intros Hn. apply truthy_true in Hn.
      unfold templateFormSave. simpl. now rewrite Hn, Hp. }
  intros Hid Ht Hp. apply truthy_true in Ht, Hp.
  unfold saveTemplateFromForm, templateFormSave. rewrite Ht, Hp, Hid. simpl.
  eexists. split; [reflexivity|]. split; reflexivity.
Qed.

Lemma template_form_save_witness :
  templates (saveTemplateFromForm (Some Sample.t2) "fresh"
               (openTemplateForm (Some Sample.t2)) Sample.stLibrary)
  = templates Sample.stLibrary.
Proof.
  destruct (template_form_save Sample.t2 "fresh" "x"
              (openTemplateForm None) Sample.stLibrary) as (_ & H & _).
  destruct H as (_ & H & _); try discriminate.
  apply H. intros x Hx E. simpl in Hx.
  destruct Hx as [<- | [<- | [<- | []]]]; try reflexivity; discriminate E.
Defined.

(** ** Data URLs *)

(** X25. [fileToBase64] keeps the second of the pieces the data URL has
    between commas. For the URL the template form builds from a stored type
    and payload, both free of commas, that is the payload; a text without a
    comma gives [undefined]. *)
Theorem data_url_round_trip (videoType video text : string) :
  (noComma videoType = true -> noComma video = true ->
   base64OfDataUrl (videoDataUrl videoType video) = Some video)
  /\ (noComma text = true -> base64OfDataUrl text = None).
Proof.
  unfold base64OfDataUrl, videoDataUrl, split. split.
  - intros Ht Hv.
    assert (E : "data:" ++ videoType ++ ";base64," ++ video
                = ("data:" ++ videoType ++ ";base64") ++ String comma video).
    { rewrite !str_app_assoc. reflexivity. }
    assert (Hh : noComma ("data:" ++ videoType ++ ";base64") = true).
    { change ("data:" ++ videoType ++ ";base64")
        with (String "d"%char (String "a"%char (String "t"%char
                (String "a"%char (String ":"%char (videoType ++ ";base64")))))).
      unfold noComma. cbn [allChars]. simpl.
      clear - Ht. unfold noComma in Ht.
      induction videoType as [|c s IH]; [reflexivity|].
      simpl in Ht. apply andb_true_iff in Ht. destruct Ht as [Hc Hs].
      rewrite app_String. cbn [allChars]. rewrite Hc. simpl. auto. }
    rewrite E, (splitAux_app _ _ _ Hh), (splitAux_noComma _ _ Hv).
    reflexivity.
  - intros H. now rewrite splitAux_noComma.
Qed.

Lemma data_url_round_trip_witness :
  base64OfDataUrl (videoDataUrl "video/mp4" "AAAAIGZ0eXA=") = Some "AAAAIGZ0eXA=".
Proof.
  apply (data_url_round_trip "video/mp4" "AAAAIGZ0eXA=" EmptyString);
    reflexivity.
Defined.

(** ** Settings *)

(** X26. Saving the settings dialog makes the local settings the settings
    in memory and the stored entry, so that a reload starts from them, and
    touches no array; closing the welcome dialog sets the seen flag and
    keeps key and key source. The key a handler uses is the custom key of
    the settings unless the application runs in AI Studio with the
    environment source; hence outside AI Studio a submission with input on
    a fresh store reports the missing key without a call, and after a
    non-empty key is saved it issues the streaming call whenever the media
    conversion succeeds. *)
Theorem settings_saved_reloaded_and_used
    (SYSTEM_PROMPT : string) (localSettings : Settings) (isAistudio : bool)
    (p : PrompterProps) (w : SubmitWorld) (view : PrompterState)
    (st : AppState) :
  let st' := saveSettings localSettings st in
  let sw := handleCloseWelcomeModal st in
  settings st' = localSettings
  /\ store_settings (db st') !! user_settings_key = Some localSettings
  /\ settings (loadState isAistudio (db st')) = localSettings
  /\ history st' = history st /\ templates st' = templates st
  /\ bundles st' = bundles st
  /\ store_history (db st') = store_history (db st)
  /\ store_templates (db st') = store_templates (db st)
  /\ store_bundles (db st') = store_bundles (db st)
  /\ hasSeenWelcome (settings sw) = true
  /\ apiKey (settings sw) = apiKey (settings st)
  /\ apiKeySource (settings sw) = apiKeySource (settings st)
  /\ settings (loadState isAistudio (db sw)) = settings sw
  /\ (p_isAistudio p = false \/ apiKeySource localSettings = SourceCustom ->
      apiKeyToUse (p_isAistudio p) (settings st') (env_API_KEY w)
      = apiKey localSettings)
  /\ (p_isAistudio p = false -> noInput p = false ->
      (let r0 := handleSubmit SYSTEM_PROMPT p w view
                   (loadState false empty_store) in
       error (r_view r0)
       = Some "API Key is missing. Please configure it in settings."
       /\ r_calls r0 = [])
      /\ (apiKey localSettings <> EmptyString ->
          forall md, convertMedia p w = inr md ->
          exists req,
            In (CallGenerateContentStream req)
               (r_calls (handleSubmit SYSTEM_PROMPT p w view st')))).
Proof.
  intros st' sw. unfold st', sw, saveSettings, handleCloseWelcomeModal.
  simpl. unfold getSingleObject, setSingleObject. rewrite !lookup_insert_eq.
  do 13 (split; [reflexivity|]).
  split.
  { intros [-> | H]; [reflexivity|]. unfold apiKeyToUse. rewrite H.
    now destruct (p_isAistudio p). }
  intros Ha Hn. split.
  { rewrite loadState_empty. unfold handleSubmit. rewrite Hn, Ha. simpl.
    split; reflexivity. }
  intros Hk md Hmd.
  unfold handleSubmit. rewrite Hn, Ha. simpl.
  apply truthy_true in Hk. rewrite Hk. simpl. rewrite Hmd.
  eexists.
  destruct (generateContentStream w _) as [msg|rs]; simpl.
  - apply in_app_iff. right. left. reflexivity.
  - destruct (stream_end rs); simpl; apply in_app_iff; right; left; reflexivity.
Qed.

Lemma settings_saved_reloaded_and_used_witness :
  p_isAistudio Sample.props = false
  /\ noInput Sample.props = false
  /\ apiKey (settings Sample.stKey) <> EmptyString
  /\ error (r_view (handleSubmit "SYS" Sample.props
                      (Sample.world Sample.streamABC) Sample.view0
                      (loadState false empty_store)))
     = Some "API Key is missing. Please configure it in settings."
  /\ exists req,
       In (CallGenerateContentStream req)
          (r_calls (handleSubmit "SYS" Sample.props
                      (Sample.world Sample.streamABC) Sample.view0
                      (saveSettings (settings Sample.stKey) Sample.st0))).
Proof.
  split; [reflexivity|]. split; [reflexivity|]. split; [discriminate|].
  pose proof (settings_saved_reloaded_and_used "SYS"
                (settings Sample.stKey) false Sample.props
                (Sample.world Sample.streamABC) Sample.view0 Sample.st0) as H.
  cbv zeta in H.
  destruct H as (_ & _ & _ & _ & _ & _ & _ & _ & _ & _ & _ & _ & _ & _ & H).
  destruct (H eq_refl eq_refl) as ((H1 & _) & H2).
  split; [exact H1|].
  apply (H2 ltac:(discriminate) None). reflexivity.
Defined.

(** ** The tag filter ([MultiTagFilterDropdown]) *)

Lemma filter_neq_absent (x : string) (s : list string) :
  ~ In x s -> List.filter (fun y => negb (String.eqb y x)) s = s.
Proof.
  intros H. apply List.forallb_filter_id, List.forallb_forall.
  intros y Hy. apply negb_true_iff, String.eqb_neq. congruence.
Qed.

(** X27. The selection the tag filter hands on after a click on [tag] has
    no tag twice, whatever the selection was; [tag] is selected in it
    exactly when it was not before, and every other tag keeps its state.
    On a selection without repetition, a tag that was absent is appended
    at the end, and two clicks on the same tag then give the selection
    back. *)
Theorem tag_filter_toggle (tag : string) (selectedTags : list string) :
  List.NoDup (handleToggleTag tag selectedTags)
  /\ (In tag (handleToggleTag tag selectedTags) <-> ~ In tag selectedTags)
  /\ (forall k, k <> tag ->
        (In k (handleToggleTag tag selectedTags) <-> In k selectedTags))
  /\ (List.NoDup selectedTags -> ~ In tag selectedTags ->
      handleToggleTag tag selectedTags = (selectedTags ++ [tag])%list
      /\ handleToggleTag tag (handleToggleTag tag selectedTags)
         = selectedTags).
Proof.
  assert (Hgen : forall sel,
            List.NoDup (handleToggleTag tag sel)
            /\ (In tag (handleToggleTag tag sel) <-> ~ In tag sel)
            /\ (forall k, k <> tag ->
                  (In k (handleToggleTag tag sel) <-> In k sel))).
  { intros sel. unfold handleToggleTag. cbv zeta.
    rewrite JsSetFacts.of_list_first_seen. unfold JsSet.has.
    destruct (includes (first_seen sel) tag) eqn:E.
    - apply includes_In in E. rewrite first_seen_In in E.
      split; [apply JsSetFacts.delete_NoDup, first_seen_NoDup|].
      split.
      + rewrite JsSetFacts.delete_In.
        split; [intros [_ H]; congruence | intros H; contradiction].
      + intros k Hk. rewrite JsSetFacts.delete_In, first_seen_In. tauto.
    - pose proof E as E'. apply includes_not_In in E'.
      rewrite first_seen_In in E'.
      split; [apply JsSetFacts.add_NoDup, first_seen_NoDup|].
      split.
      + rewrite JsSetFacts.add_In. tauto.
      + intros k Hk. rewrite JsSetFacts.add_In, first_seen_In. tauto. }
  destruct (Hgen selectedTags) as (H1 & H2 & H3).
  do 3 (split; [assumption|]).
  intros Hn Hx.
  assert (E1 : handleToggleTag tag selectedTags = (selectedTags ++ [tag])%list).
  { unfold handleToggleTag. cbv zeta. rewrite JsSetFacts.of_list_first_seen.
    rewrite JsSetFacts.first_seen_id by assumption.
    unfold JsSet.add, JsSet.has.
    assert (Hi0 : includes selectedTags tag = false)
      by now apply includes_not_In.
    now rewrite !Hi0. }
  split; [exact E1|].
  rewrite E1. unfold handleToggleTag. cbv zeta.
  rewrite JsSetFacts.of_list_first_seen.
  rewrite JsSetFacts.first_seen_id by now apply JsSetFacts.NoDup_snoc.
  unfold JsSet.has.
  assert (Hi : includes (selectedTags ++ [tag]) tag = true).
  { apply includes_In, in_app_iff. right. left. reflexivity. }
  rewrite Hi. unfold JsSet.delete. rewrite List.filter_app. simpl.
  rewrite String.eqb_refl. simpl. rewrite app_nil_r.
  now apply filter_neq_absent.
Qed.

Lemma tag_filter_toggle_witness :
  List.NoDup ["noir"; "city"] /\ ~ In "space" ["noir"; "city"]
  /\ handleToggleTag "space" ["noir"; "city"] = ["noir"; "city"; "space"]
  /\ handleToggleTag "space" (handleToggleTag "space" ["noir"; "city"])
     = ["noir"; "city"].
Proof.
  assert (Hn : List.NoDup ["noir"; "city"]).
  { repeat constructor; simpl; intuition discriminate. }
  assert (Hx : ~ In "space" ["noir"; "city"]).
  { simpl. intuition discriminate. }
  split; [exact Hn|]. split; [exact Hx|].
  destruct (tag_filter_toggle "space" ["noir"; "city"]) as (_ & _ & _ & H).
  exact (H Hn Hx).
Defined.
